(** * Conversion-audit agent: pipeline, annotation renderer and progress stream

    A shallow embedding of [agent.py] (class [ProductionAgent]) and of
    [server.py] ([progress_generator]).

    - Python values decoded from JSON are the inductive [json]; numbers are
      [Z] for [int] and exact rationals [Q] for [float].  A float is finite
      and is the rational it denotes: the rounding of binary floating point
      and the silent overflow of a float sum or product to infinity are not
      modelled, the [OverflowError] of a division of ints and of the
      conversion of an int to a float is.  The theorems that state what is
      drawn take numbers of magnitude at most 2^53.
    - Exceptions are values of [exn]; a computation that may raise returns
      [res].  The agent's methods live in the monad [M]: they thread the
      heap of byte buffers and PIL images, may raise, and leave the trace
      of everything the agent did (progress messages and calls of the
      outside world).
    - The outside world (environment variables, Firecrawl, requests, Gemini
      together with [json.loads] of its reply, PIL's codec, font metrics
      and drawing calls, the interpreter's [str.upper], FPDF, the file
      system, the clock) is the record [World].
    - A call of PIL's [ImageDraw] is a drawing command that the world
      accepts or answers with an exception; FPDF is a sink of layout
      commands.
    - The server's generator is a loop over a queue fed by the agent task;
      the order in which the event loop runs the task and the generator is
      a schedule, given as data. *)

From Stdlib Require Import String Ascii List ZArith QArith Lqa Lia Bool DecimalString.
From stdpp Require Import base option list strings.
Import ListNotations.
Open Scope string_scope.
Open Scope list_scope.
Set Warnings "-register-all".
Set Default Proof Using "Type".

(** ** Python values and exceptions *)

Module Py.

Inductive json :=
| JNull
| JBool (b : bool)
| JInt (n : Z)
| JFloat (q : Q)
| JStr (s : string)
| JArr (items : list json)
| JObj (fields : list (string * json)).

(** Every exception the code meets is a subclass of [Exception]; [str e] is
    its message.  The texts of the interpreter's own errors are CPython's. *)
Inductive exn :=
| Exception (msg : string)
| ValueError (msg : string)
| TypeError (msg : string)
| AttributeError (msg : string)
| OverflowError (msg : string).

Definition str (e : exn) : string :=
  match e with
  | Exception m | ValueError m | TypeError m | AttributeError m | OverflowError m => m
  end.

Inductive res (A : Type) :=
| Ok (a : A)
| Raise (e : exn).
Arguments Ok {A} a.
Arguments Raise {A} e.

Definition type_name (v : json) : string :=
  match v with
  | JNull => "NoneType"
  | JBool _ => "bool"
  | JInt _ => "int"
  | JFloat _ => "float"
  | JStr _ => "str"
  | JArr _ => "list"
  | JObj _ => "dict"
  end.

(** [bool(v)]: what [if v:] tests. *)
Definition truthy (v : json) : bool :=
  match v with
  | JNull => false
  | JBool b => b
  | JInt n => negb (n =? 0)%Z
  | JFloat q => negb (Qeq_bool q 0)
  | JStr s => negb (String.eqb s "")
  | JArr items => match items with [] => false | _ => true end
  | JObj fields => match fields with [] => false | _ => true end
  end.

(** The fields of a [JObj] are the items of the dict, keys distinct. *)
Fixpoint assoc (k : string) (fields : list (string * json)) : option json :=
  match fields with
  | [] => None
  | (k', v) :: rest => if String.eqb k k' then Some v else assoc k rest
  end.

(** [v.get(k, default)] *)
Definition get (v : json) (k : string) (default : json) : res json :=
  match v with
  | JObj fields => Ok (match assoc k fields with Some x => x | None => default end)
  | _ => Raise (AttributeError ("'" +:+ type_name v +:+ "' object has no attribute 'get'"))
  end.

Fixpoint chars (s : string) : list json :=
  match s with
  | EmptyString => []
  | String c rest => JStr (String c EmptyString) :: chars rest
  end.

(** The elements [iter(v)] yields, for the values that are iterable. *)
Definition elements (v : json) : option (list json) :=
  match v with
  | JArr items => Some items
  | JStr s => Some (chars s)
  | JObj fields => Some (map (fun kv => JStr (fst kv)) fields)
  | _ => None
  end.

(** [for item in v] *)
Definition iter (v : json) : res (list json) :=
  match elements v with
  | Some items => Ok items
  | None => Raise (TypeError ("'" +:+ type_name v +:+ "' object is not iterable"))
  end.

(** The decimal text of a natural number, as an f-string prints it. *)
Definition dec (n : N) : string := NilEmpty.string_of_uint (N.to_uint n).

Definition unpack_error (expected got : nat) : exn :=
  if (got <? expected)%nat
  then ValueError ("not enough values to unpack (expected " +:+ dec (N.of_nat expected) +:+
                   ", got " +:+ dec (N.of_nat got) +:+ ")")
  else ValueError ("too many values to unpack (expected " +:+ dec (N.of_nat expected) +:+ ")").

Definition non_iterable (v : json) : exn :=
  TypeError ("cannot unpack non-iterable " +:+ type_name v +:+ " object").

(** [a, b, c, d = v] *)
Definition unpack4 (v : json) : res (json * json * json * json) :=
  match elements v with
  | Some [a; b; c; d] => Ok (a, b, c, d)
  | Some items => Raise (unpack_error 4 (length items))
  | None => Raise (non_iterable v)
  end.

(** [a, b = v] *)
Definition unpack2 (v : json) : res (json * json) :=
  match elements v with
  | Some [a; b] => Ok (a, b)
  | Some items => Raise (unpack_error 2 (length items))
  | None => Raise (non_iterable v)
  end.

(** The numeric value of an [int], [float] or [bool]. *)
Definition number (v : json) : option Q :=
  match v with
  | JInt n => Some (inject_Z n)
  | JFloat q => Some q
  | JBool b => Some (if b then 1 else 0)%Q
  | _ => None
  end.

Definition integral (v : json) : option Z :=
  match v with
  | JInt n => Some n
  | JBool b => Some (if b then 1 else 0)%Z
  | _ => None
  end.

Definition operand_error (op : string) (l r : string) : exn :=
  TypeError ("unsupported operand type(s) for " +:+ op +:+ ": '" +:+ l +:+ "' and '" +:+ r +:+ "'").

(** The magnitude from which a number rounds to no float: the midpoint
    2^1024 - 2^970 of the largest float and 2^1024. *)
Definition float_limit : Q := inject_Z (2 ^ 1024 - 2 ^ 970).

(** [q] rounds to a float. *)
Definition fits (q : Q) : bool :=
  negb (Qle_bool float_limit q) && negb (Qle_bool q (- float_limit)).

(** [v / d] for an [int] literal [d] that is not zero: true division.  The
    quotient of two ints that rounds to no float raises; a float operand
    is divided as it is. *)
Definition truediv (v : json) (d : Z) : res Q :=
  match v with
  | JFloat q => Ok (q / inject_Z d)%Q
  | _ =>
    match integral v with
    | Some n =>
      if fits (inject_Z n / inject_Z d) then Ok (inject_Z n / inject_Z d)%Q
      else Raise (OverflowError "integer division result too large for a float")
    | None => Raise (operand_error "/" (type_name v) "int")
    end
  end.

(** The float an int is converted to when the other operand is a float. *)
Definition to_float (n : Z) : res Q :=
  if fits (inject_Z n) then Ok (inject_Z n)
  else Raise (OverflowError "int too large to convert to float").

(** [a + b] *)
Definition add (a b : json) : res json :=
  match integral a, integral b with
  | Some m, Some n => Ok (JInt (m + n))
  | Some m, None =>
    match b with
    | JFloat q =>
      match to_float m with
      | Ok p => Ok (JFloat (p + q))
      | Raise e => Raise e
      end
    | _ => Raise (operand_error "+" (type_name a) (type_name b))
    end
  | None, Some n =>
    match a with
    | JFloat p =>
      match to_float n with
      | Ok q => Ok (JFloat (p + q))
      | Raise e => Raise e
      end
    | _ => Raise (operand_error "+" (type_name a) (type_name b))
    end
  | None, None =>
    match a, b with
    | JFloat p, JFloat q => Ok (JFloat (p + q))
    | JStr s, JStr t => Ok (JStr (s +:+ t))
    | JArr l, JArr r => Ok (JArr (l ++ r))
    | _, _ => Raise (operand_error "+" (type_name a) (type_name b))
    end
  end.

(** [v.upper()], with the interpreter's [str.upper] for a string. *)
Definition upper (str_upper : string -> string) (v : json) : res string :=
  match v with
  | JStr s => Ok (str_upper s)
  | _ => Raise (AttributeError ("'" +:+ type_name v +:+ "' object has no attribute 'upper'"))
  end.

(** [s.encode('latin-1', 'replace').decode('latin-1')] on a string held as
    UTF-8: a code point up to U+00FF (one byte, or two bytes led by 0xC2 or
    0xC3) is kept, any other code point becomes a question mark. *)
Fixpoint latin1 (skip : nat) (s : string) : string :=
  match s with
  | EmptyString => EmptyString
  | String c rest =>
    match skip with
    | S k => latin1 k rest
    | O =>
      let n := nat_of_ascii c in
      if (n <? 196)%nat then String c (latin1 0 rest)
      else if (n <? 224)%nat then String "?" (latin1 1 rest)
      else if (n <? 240)%nat then String "?" (latin1 2 rest)
      else String "?" (latin1 3 rest)
    end
  end.

(** [v.encode('latin-1', 'replace').decode('latin-1')] *)
Definition sanitize (v : json) : res string :=
  match v with
  | JStr s => Ok (latin1 0 s)
  | _ => Raise (AttributeError ("'" +:+ type_name v +:+ "' object has no attribute 'encode'"))
  end.

End Py.

(** ** The agent ([agent.py]) *)

Module Agent.
Import Py.

Definition bytes := list Byte.byte.

(** A decoded picture: [img.size] is [(width, height)]. *)
Record raster := { size : Z * Z; mode : string; pixels : bytes }.

(** Calls of [ImageDraw]. *)
Inductive draw_cmd :=
| Line (xy : Q * Q * Q * Q) (fill : string) (width : Z)
| Ellipse (xy : Q * Q * Q * Q) (fill : string)
| Rectangle (xy : Q * Q * Q * Q) (fill outline : string) (width : Z)
| Text (xy : Q * Q) (text : string) (fill : string).

(** Calls of [FPDF]. *)
Inductive pdf_cmd :=
| AddPage
| SetFont (family style : string) (size : Z)
| SetTextColor (r g b : Z)
| Cell (w h : Z) (txt : string) (ln : bool) (align : string)
| MultiCell (w h : Z) (txt : string)
| Ln (h : Z)
| PdfImage (name : string) (data : bytes) (x y w : Z).

(** What [self.app.scrape] hands back: a dict, an object with a
    [screenshot] attribute, or something else. *)
Inductive scrape_result :=
| AsDict (screenshot : option string)
| AsObject (screenshot : option string)
| Opaque.

Record response := { status_code : N; content : bytes }.

(** [generate_content] followed by [json.loads(response.text)]. *)
Inductive reply :=
| RequestFailed (e : exn)
| Malformed (e : exn)
| Structured (v : json).

(** The outside world, one field per call the code makes of it:
    [os.getenv]; the constructors of the two clients; [self.app.scrape];
    [requests.get]; [Image.open]; the Gemini call with the decoding of its
    text; [str.upper]; [draw.textbbox] with the default font; a drawing
    call of [ImageDraw] on a picture, which returns or raises (PIL raises
    for coordinates beyond its integer range); [img.save] as PNG of a
    picture and what was drawn on it; [repr] of a float or a container;
    [tempfile.gettempdir]; [int(time.time())]; writing a file; and
    [pdf.image] and [pdf.output] of FPDF. *)
Record World := {
  getenv : string -> option string;
  clients : res unit;
  scrape : string -> res scrape_result;
  requests_get : string -> res response;
  Image_open : bytes -> res raster;
  generate_content : raster -> reply;
  str_upper : string -> string;
  textbbox : Q * Q -> string -> Q * Q * Q * Q;
  paint : raster -> draw_cmd -> res unit;
  save : raster -> list draw_cmd -> bytes;
  repr : json -> string;
  gettempdir : string;
  time : N;
  open_write : string -> bytes -> res unit;
  pdf_image : bytes -> res unit;
  pdf_output : list pdf_cmd -> string -> res unit
}.

(** Objects live on a heap and are named by their position in it: the
    byte buffers ([bytes] objects, which nothing can change) and the PIL
    images, which [ImageDraw] changes in place. *)
Definition ref := nat.

Inductive obj :=
| Bytes (data : bytes)
| Picture (base : raster) (overlays : list draw_cmd).

Inductive stage := Capture | Analyze | Render | Assemble.

(** What the agent does, in program order. *)
Inductive action :=
| Log (message : string)
| Scrape (url : string)
| HttpGet (url : string)
| Open (image_bytes : ref)
| Generate
| Draw (img : ref) (cmd : draw_cmd)
| Save (img : ref)
| WriteFile (path : string) (data : bytes)
| PdfOutput (doc : list pdf_cmd) (filename : string)
| Remove (path : string).

(** What a computation leaves behind: its value or the exception it
    raised, the heap, and what it did. *)
Record outcome (A : Type) := { value : res A; heap : list obj; trace : list action }.
Arguments value {A} o.
Arguments heap {A} o.
Arguments trace {A} o.

Definition M (A : Type) : Type := list obj -> outcome A.

#[global] Instance res_ret : MRet res := fun A a => Ok a.
#[global] Instance res_bind : MBind res := fun A B k r =>
  match r with
  | Ok a => k a
  | Raise e => Raise e
  end.

(** [after t o]: the outcome [o] of a computation that ran after [t]. *)
Definition after {A} (t : list action) (o : outcome A) : outcome A :=
  match o with
  | {| value := v; heap := h; trace := t' |} => {| value := v; heap := h; trace := t ++ t' |}
  end.

#[global] Instance M_ret : MRet M := fun A a h =>
  {| value := Ok a; heap := h; trace := [] |}.
#[global] Instance M_bind : MBind M := fun A B k m h =>
  match m h with
  | {| value := Ok a; heap := h'; trace := t |} => after t (k a h')
  | {| value := Raise e; heap := h'; trace := t |} =>
    {| value := Raise e; heap := h'; trace := t |}
  end.

Definition lift {A} (r : res A) : M A := fun h =>
  {| value := r; heap := h; trace := [] |}.

Definition raise {A} (e : exn) : M A := lift (Raise e).

(** [try: body except Exception as e: handler] *)
Definition try {A} (body : M A) (handler : exn -> M A) : M A := fun h =>
  match body h with
  | {| value := Ok a; heap := h'; trace := t |} =>
    {| value := Ok a; heap := h'; trace := t |}
  | {| value := Raise e; heap := h'; trace := t |} => after t (handler e h')
  end.

Definition emit (a : action) : M unit := fun h =>
  {| value := Ok (); heap := h; trace := [a] |}.

Definition alloc (o : obj) : M ref := fun h =>
  {| value := Ok (length h); heap := h ++ [o]; trace := [] |}.

(** A reference to nothing, or to an object of the other kind, does not
    occur in a run; the model raises there. *)
Definition dangling {A} : res A := Raise (Exception "dangling reference").

Definition read (r : ref) : M bytes := fun h =>
  match h !! r with
  | Some (Bytes data) => lift (Ok data) h
  | _ => lift dangling h
  end.

Definition picture (r : ref) : M (raster * list draw_cmd) := fun h =>
  match h !! r with
  | Some (Picture base overlays) => lift (Ok (base, overlays)) h
  | _ => lift dangling h
  end.

Fixpoint for_each {A} (items : list A) (body : A -> M unit) : M unit :=
  match items with
  | [] => mret ()
  | item :: rest => body item ;; for_each rest body
  end.

Fixpoint ends_with_slash (s : string) : bool :=
  match s with
  | EmptyString => false
  | String c EmptyString => Ascii.eqb c "/"
  | String _ rest => ends_with_slash rest
  end.

(** [os.path.join a b] for a relative [b] *)
Definition path_join (a b : string) : string :=
  if String.eqb a "" then b
  else if ends_with_slash a then a +:+ b
  else a +:+ "/" +:+ b.

(** [img.convert(m)]: a new image of the same size in mode [m]. *)
Definition convert (base : raster) (m : string) : raster :=
  {| size := size base; mode := m; pixels := pixels base |}.

Definition Qz (n : Z) : Q := inject_Z n.

(** [bool(v)] for what [os.getenv] returns: [None] and the empty string
    are false. *)
Definition present (v : option string) : bool :=
  match v with
  | Some (String _ _) => true
  | _ => false
  end.

Section Methods.

Variable w : World.

(** [str(v)]; the text of a float or of a container is the interpreter's. *)
Definition str_of (v : json) : string :=
  match v with
  | JStr s => s
  | JNull => "None"
  | JBool true => "True"
  | JBool false => "False"
  | JInt n => NilZero.string_of_int (Z.to_int n)
  | _ => repr w v
  end.

(** [ProductionAgent.__init__]: the agent holds nothing but its clients. *)
Definition init : res unit :=
  let firecrawl_key := getenv w "FIRECRAWL_API_KEY" in
  let google_key := getenv w "GOOGLE_API_KEY" in
  if negb (present firecrawl_key) || negb (present google_key) then
    Raise (ValueError "❌ Error: Missing API Keys. Please set FIRECRAWL_API_KEY and GOOGLE_API_KEY in Vercel Environment Variables.")
  else
    match clients w with
    | Ok _ => Ok ()
    | Raise e => Raise (ValueError ("❌ Error initializing AI clients: " +:+ str e))
    end.

(** [log]: the message is printed and handed to the progress callback. *)
Definition log (message : string) : M unit := emit (Log message).

(** A call of [draw]: when it returns, the picture behind [img] has been
    changed in place; when it raises, the picture is as it was. *)
Definition draw (img : ref) (cmd : draw_cmd) : M unit := fun h =>
  match h !! img with
  | Some (Picture base overlays) =>
    match paint w base cmd with
    | Ok _ =>
      {| value := Ok ();
         heap := <[img := Picture base (overlays ++ [cmd])]> h;
         trace := [Draw img cmd] |}
    | Raise e => {| value := Raise e; heap := h; trace := [Draw img cmd] |}
    end
  | _ => lift dangling h
  end.

Definition get_screenshot (url : string) : M (option ref) :=
  log ("📸 Capturing screenshot of " +:+ url +:+ "...") ;;
  try (
    emit (Scrape url) ;;
    result ← lift (scrape w url);
    let screenshot_url :=
      match result with
      | AsDict v => v
      | AsObject v => v
      | Opaque => None
      end in
    match screenshot_url with
    | None | Some "" => raise (Exception "Failed to get screenshot URL from Firecrawl.")
    | Some screenshot_url =>
      log ("🔗 Screenshot URL obtained: " +:+ screenshot_url) ;;
      emit (HttpGet screenshot_url) ;;
      response ← lift (requests_get w screenshot_url);
      if (status_code response =? 200)%N then
        r ← alloc (Bytes (content response)); mret (Some r)
      else
        raise (Exception ("Failed to download image. Status: " +:+ dec (status_code response)))
    end
  ) (fun e => log ("❌ Firecrawl Error: " +:+ str e) ;; mret None).

(** The drawing calls of one pass through the loop body, in order; the
    lookups, the unpacking and the arithmetic come before the first call,
    and [textbbox], which returns in every world, is asked along with
    them. *)
Definition overlay (width height : Z) (item : json) : res (list draw_cmd) :=
  label_box ← get item "label_pos" JNull;
  target ← get item "target_pos" JNull;
  t ← get item "text" (JStr "");
  text ← upper (str_upper w) t;
  if truthy label_box && truthy target then
    '(l_ymin, l_xmin, l_ymax, l_xmax) ← unpack4 label_box;
    '(t_y, t_x) ← unpack2 target;
    a ← truediv l_xmin 1000; let lx := (a * Qz width)%Q in
    a ← truediv l_ymin 1000; let ly := (a * Qz height)%Q in
    a ← truediv t_x 1000; let tx := (a * Qz width)%Q in
    a ← truediv t_y 1000; let ty := (a * Qz height)%Q in
    a ← add l_xmin l_xmax; a ← truediv a 2000; let lcx := (a * Qz width)%Q in
    a ← add l_ymin l_ymax; a ← truediv a 2000; let lcy := (a * Qz height)%Q in
    let r := 10%Q in
    let bbox := textbbox w (lx, ly) text in
    let pad := 5%Q in
    let '(b0, b1, b2, b3) := bbox in
    mret [ Line (lcx, lcy, tx, ty) "black" 6;
           Line (lcx, lcy, tx, ty) "#FFD700" 4;
           Ellipse (tx - r - 2, ty - r - 2, tx + r + 2, ty + r + 2)%Q "black";
           Ellipse (tx - r, ty - r, tx + r, ty + r)%Q "#FFD700";
           Rectangle (b0 - pad, b1 - pad, b2 + pad, b3 + pad)%Q "#FFD700" "black" 2;
           Text (lx, ly) text "black" ]
  else mret [].

Definition annotate (img : ref) (width height : Z) (item : json) : M unit :=
  cmds ← lift (overlay width height item);
  for_each cmds (draw img).

Definition analyze_and_annotate (image_bytes : ref) : M (json * ref) :=
  log "🧠 Analyzing image with Gemini Vision..." ;;
  try (
    data ← read image_bytes;
    emit (Open image_bytes) ;;
    base ← lift (Image_open w data);
    img ← alloc (Picture base []);
    img ← (if String.eqb (mode base) "RGB" then mret img
           else alloc (Picture (convert base "RGB") []));
    '(base, _) ← picture img;
    let '(width, height) := size base in
    emit Generate ;;
    full_response ←
      match generate_content w base with
      | RequestFailed e => raise e
      | Malformed e => raise e
      | Structured v => mret v
      end;
    executive_summary ← lift (get full_response "executive_summary" (JStr "No summary provided."));
    analysis_data ← lift (get full_response "annotations" (JArr []));
    log "🎨 Drawing annotations on image..." ;;
    items ← lift (iter analysis_data);
    for_each items (annotate img width height) ;;
    emit (Save img) ;;
    '(base, overlays) ← picture img;
    annotated_image_bytes ← alloc (Bytes (save w base overlays));
    mret (full_response, annotated_image_bytes)
  ) (fun e => log ("❌ Gemini/Annotation Error: " +:+ str e) ;; mret (JObj [], image_bytes)).

(** The block of page one that reports one finding. *)
Definition finding (item : json) : res (list pdf_cmd) :=
  uid ← get item "id" JNull;
  alt ← get item "title" (JStr "Issue");
  title ← get item "text" alt;
  desc ← get item "description" (JStr "");
  rec ← get item "recommendation" (JStr "No specific recommendation.");
  let title := latin1 0 (str_of title) in
  let desc := latin1 0 (str_of desc) in
  let rec := latin1 0 (str_of rec) in
  mret [ SetFont "Arial" "B" 12;
         SetTextColor 200 0 0;
         Cell 10 8 ("#" +:+ str_of uid) false "";
         SetTextColor 0 0 0;
         Cell 0 8 title true "";
         SetFont "Arial" "" 11;
         MultiCell 0 6 ("Problem: " +:+ desc);
         SetFont "Arial" "I" 11;
         SetTextColor 0 100 0;
         MultiCell 0 6 ("Fix: " +:+ rec);
         SetTextColor 0 0 0;
         Ln 5 ].

Fixpoint findings (items : list json) : res (list pdf_cmd) :=
  match items with
  | [] => mret []
  | item :: rest => block ← finding item; blocks ← findings rest; mret (block ++ blocks)
  end.

Definition create_pdf_report (url : string) (full_data : json) (image_bytes : ref)
    (output_filename : string) : M unit :=
  let head :=
    [ AddPage;
      SetFont "Arial" "B" 24;
      Cell 0 20 "Conversion Audit Report" true "C";
      SetFont "Arial" "I" 12;
      Cell 0 10 ("Analysis for: " +:+ url) true "C";
      Ln 20;
      SetFont "Arial" "B" 16;
      Cell 0 10 "Executive Summary" true "";
      Ln 5;
      SetFont "Arial" "" 12 ] in
  exec_summary ← lift (get full_data "executive_summary" (JStr "No summary available."));
  exec_summary ← lift (sanitize exec_summary);
  let overview :=
    [ MultiCell 0 10 exec_summary;
      Ln 20;
      SetFont "Arial" "B" 14;
      Cell 0 10 "Key Findings Overview:" true "";
      Ln 5 ] in
  annotations ← lift (get full_data "annotations" (JArr []));
  items ← lift (iter annotations);
  blocks ← lift (findings items);
  let visuals :=
    [ AddPage;
      SetFont "Arial" "B" 16;
      Cell 0 10 "Visual Annotations" true "C";
      Ln 5 ] in
  let temp_img_path := "temp_annotated_" +:+ dec (time w) +:+ ".png" in
  data ← read image_bytes;
  emit (WriteFile temp_img_path data) ;;
  lift (open_write w temp_img_path data) ;;
  let image :=
    match pdf_image w data with
    | Ok _ => [ PdfImage temp_img_path data 10 30 190 ]
    | Raise _ => []
    end in
  let doc := head ++ overview ++ blocks ++ visuals ++ image in
  emit (PdfOutput doc output_filename) ;;
  lift (pdf_output w doc output_filename) ;;
  emit (Remove temp_img_path).

(** [if image_bytes:] on what [get_screenshot] returned *)
Definition captured (image_bytes : option ref) : M (option ref) :=
  match image_bytes with
  | None => mret None
  | Some r => data ← read r; mret (match data with [] => None | _ => Some r end)
  end.

Definition run (target_url : string) : M (option string) :=
  log ("🚀 Starting analysis for: " +:+ target_url) ;;
  image_bytes ← get_screenshot target_url;
  image_bytes ← captured image_bytes;
  match image_bytes with
  | Some image_bytes =>
    '(full_data, annotated_bytes) ← analyze_and_annotate image_bytes;
    log "📄 Generating PDF Report..." ;;
    let tmp_dir := gettempdir w in
    let output_filename := path_join tmp_dir ("audit_report_" +:+ dec (time w) +:+ ".pdf") in
    create_pdf_report target_url full_data annotated_bytes output_filename ;;
    log ("✅ Report generated: " +:+ output_filename) ;;
    mret (Some output_filename)
  | None =>
    log "❌ Failed to capture screenshot." ;;
    mret None
  end.

End Methods.

End Agent.

(** ** The progress stream ([server.py]) *)

Module Server.
Import Py Agent.

(** The payload of one [data:] frame: [{'message': m}],
    [{'type': 'complete', 'report_url': u}] or
    [{'type': 'error', 'message': m}]. *)
Inductive event :=
| Progress (message : string)
| Complete (report_url : string)
| Error (message : string).

Fixpoint has_slash (p : string) : bool :=
  match p with
  | EmptyString => false
  | String c rest => Ascii.eqb c "/" || has_slash rest
  end.

(** [os.path.basename p]: what follows the last slash. *)
Fixpoint basename (p : string) : string :=
  match p with
  | EmptyString => EmptyString
  | String c rest =>
    if Ascii.eqb c "/" || has_slash rest then basename rest else p
  end.

(** The agent task as the event loop sees it: the actions it has yet to
    perform, the queue its callback fills, and whether it is done. *)
Record task := { pending : list action; queue : list string; finished : bool }.

(** One step of the task: a [Log] puts its message on the queue, any other
    action leaves the queue alone, and after its last action the task is
    done. *)
Definition tick (t : task) : task :=
  match pending t with
  | Log m :: rest => {| pending := rest; queue := queue t ++ [m]; finished := finished t |}
  | _ :: rest => {| pending := rest; queue := queue t; finished := finished t |}
  | [] => {| pending := []; queue := queue t; finished := true |}
  end.

Definition idle (t : task) : bool :=
  match queue t with
  | [] => negb (finished t)
  | _ => false
  end.

(** The generator sleeps in [asyncio.wait] while the queue is empty and the
    task is not done. *)
Fixpoint settle (fuel : nat) (t : task) : task :=
  match fuel with
  | O => t
  | S fuel' => if idle t then settle fuel' (tick t) else t
  end.

(** What the event loop does at one turn of the generator's loop: how many
    steps the task takes before the generator wakes from [asyncio.wait],
    which member of the set [done] the [for] visits first, and how many
    steps the task takes while the generator is suspended at [yield]. *)
Record choice := { during_wait : nat; task_first : bool; during_yield : nat }.

Definition eager : choice := {| during_wait := 0; task_first := false; during_yield := 0 |}.

Inductive awaited :=
| Getter (message : string)
| Task.

(** [asyncio.wait([create_task(queue.get()), task], FIRST_COMPLETED)]: the
    event loop runs its callbacks in the order they were scheduled, so a
    getter that found or was handed a message has taken the head of the
    queue by the time the generator wakes; the task is in [done] when it
    has finished by then. *)
Definition asyncio_wait (c : choice) (t : task) : list awaited * task :=
  let t := Nat.iter (during_wait c) tick t in
  let t := settle (S (length (pending t))) t in
  match queue t with
  | message :: rest =>
    let t := {| pending := pending t; queue := rest; finished := finished t |} in
    (if finished t then
       if task_first c then [Task; Getter message] else [Getter message; Task]
     else [Getter message], t)
  | [] => ([Task], t)
  end.

(** [for t in done: ...] *)
Fixpoint for_done (c : choice) (done : list awaited) (t : task) : list event * task :=
  match done with
  | [] => ([], t)
  | Task :: rest =>
    (* if not queue.empty(): continue *)
    match queue t with
    | _ :: _ => for_done c rest t
    | [] => for_done c rest t
    end
  | Getter message :: rest =>
    let t := Nat.iter (during_yield c) tick t in
    let '(out, t) := for_done c rest t in
    (Progress message :: out, t)
  end.

Definition drained (t : task) : bool :=
  finished t && match queue t with [] => true | _ => false end.

(** [while not task.done() or not queue.empty(): ...]; [None] when the
    loop is still turning after [fuel] turns. *)
Fixpoint loop (fuel : nat) (sched : list choice) (t : task) : option (list event) :=
  if drained t then Some []
  else
    match fuel with
    | O => None
    | S fuel' =>
      let c := hd eager sched in
      let '(done, t) := asyncio_wait c t in
      let '(out, t) := for_done c done t in
      if drained t then Some out
      else rest ← loop fuel' (tl sched) t; Some (out ++ rest)
    end.

(** The event that ends the stream, from [task.result()]. *)
Definition terminal (result : res (option string)) : event :=
  match result with
  | Ok (Some (String _ _ as result)) => Complete ("api/download/" +:+ basename result)
  | Ok _ => Error "Analysis failed"
  | Raise e => Error (str e)
  end.

(** The generator once the task is created: the loop, then the result. *)
Definition stream (sched : list choice) (script : list action)
    (result : res (option string)) : option (list event) :=
  let t := {| pending := script; queue := []; finished := false |} in
  out ← loop (S (length script)) sched t;
  Some (out ++ [terminal result]).

Definition progress_generator (w : World) (sched : list choice) (url : string)
    : option (list event) :=
  match init w with
  | Raise e => Some [Error (str e)]
  | Ok _ =>
    let o := run w url [] in
    stream sched (trace o) (value o)
  end.

(** Everything the agent did during a request. *)
Definition activity (w : World) (url : string) : list action :=
  match init w with
  | Raise e => []
  | Ok _ => trace (run w url [])
  end.

(** What [download_file] answers: a [FileResponse], or the dict
    [{"error": "File not found"}]. *)
Inductive served :=
| FileResponse (path : string) (media_type : string) (filename : string)
| NotFound.

(** [download_file]; [exists] is [os.path.exists]. *)
Definition download_file (w : World) (exists_ : string -> bool) (filename : string) : served :=
  let filename := basename filename in
  let tmp_dir := gettempdir w in
  let file_path := path_join tmp_dir filename in
  if exists_ file_path then FileResponse file_path "application/pdf" filename
  else NotFound.

End Server.

(** ** Vocabulary of the properties *)

Module Spec.
Import Py Agent Server.

(** The coordinate mapper in the specification's words:
    pixel = (normalized / 1000) * dimension. *)
Definition mapper (c d : Q) : Q := (c / 1000) * d.

(** The centre of a box in the specification's words: the midpoint of the
    min/max pair of one axis, mapped to pixels. *)
Definition center (lo hi d : Q) : Q := ((lo + hi) / 2 / 1000) * d.

(** Clamping a normalized coordinate into the range 0..1000. *)
Definition clamp (c : Q) : Q :=
  if Qle_bool c 0 then 0 else if Qle_bool 1000 c then 1000 else c.

(** The progress messages of a trace, in order. *)
Fixpoint messages (tr : list action) : list string :=
  match tr with
  | [] => []
  | Log m :: rest => m :: messages rest
  | _ :: rest => messages rest
  end.

(** The stage an action is the work of; a progress message is no work. *)
Definition stage_of (a : action) : option stage :=
  match a with
  | Log _ => None
  | Scrape _ | HttpGet _ => Some Capture
  | Open _ | Generate => Some Analyze
  | Draw _ _ | Save _ => Some Render
  | WriteFile _ _ | PdfOutput _ _ | Remove _ => Some Assemble
  end.

(** The message that says a stage is starting. *)
Definition announcement (url : string) (st : stage) : string :=
  match st with
  | Capture => "📸 Capturing screenshot of " +:+ url +:+ "..."
  | Analyze => "🧠 Analyzing image with Gemini Vision..."
  | Render => "🎨 Drawing annotations on image..."
  | Assemble => "📄 Generating PDF Report..."
  end.

Definition level (st : stage) : nat :=
  match st with
  | Capture => 1
  | Analyze => 2
  | Render => 3
  | Assemble => 4
  end.

(** [staged url n tr n']: read from level [n] (0 before any stage), the
    trace [tr] announces each stage it enters once, in pipeline order, and
    does the work of a stage only while in that stage; it ends at [n']. *)
Inductive staged (url : string) : nat -> list action -> nat -> Prop :=
| staged_nil n : staged url n [] n
| staged_note n m tr n' :
    (forall st, m <> announcement url st) ->
    staged url n tr n' ->
    staged url n (Log m :: tr) n'
| staged_enter n st tr n' :
    (n < level st)%nat ->
    staged url (level st) tr n' ->
    staged url n (Log (announcement url st) :: tr) n'
| staged_work st a tr n' :
    stage_of a = Some st ->
    staged url (level st) tr n' ->
    staged url (level st) (a :: tr) n'.

(** The screenshot address [get_screenshot] reads off the scrape result. *)
Definition link (r : scrape_result) : option string :=
  match r with
  | AsDict v => v
  | AsObject v => v
  | Opaque => None
  end.

(** The outcome of the capture stage: the bytes of the screenshot, or the
    exception whose text is the reason of the failure. *)
Definition capture (w : World) (url : string) : res bytes :=
  match scrape w url with
  | Raise e => Raise e
  | Ok r =>
    match link r with
    | None | Some "" => Raise (Exception "Failed to get screenshot URL from Firecrawl.")
    | Some u =>
      match requests_get w u with
      | Raise e => Raise e
      | Ok resp =>
        if (status_code resp =? 200)%N then Ok (content resp)
        else Raise (Exception ("Failed to download image. Status: " +:+ dec (status_code resp)))
      end
    end
  end.

(** The picture the renderer draws on: the decoded image, converted when
    its mode is not RGB. *)
Definition working (base : raster) : raster :=
  if String.eqb (mode base) "RGB" then base else convert base "RGB".

(** The drawing calls the loop over the findings makes, as long as they
    return, before it ends or the lookups or the arithmetic of a finding
    raise, and the exception that stopped it. *)
Fixpoint drawn (w : World) (width height : Z) (items : list json)
    : list draw_cmd * option exn :=
  match items with
  | [] => ([], None)
  | item :: rest =>
    match overlay w width height item with
    | Ok cmds => let '(more, e) := drawn w width height rest in (cmds ++ more, e)
    | Raise e => ([], Some e)
    end
  end.

(** What the drawing calls [cmds] leave on a picture: the calls that
    returned, and the first call that raised with its exception. *)
Fixpoint painted (w : World) (base : raster) (cmds : list draw_cmd)
    : list draw_cmd * option (draw_cmd * exn) :=
  match cmds with
  | [] => ([], None)
  | cmd :: rest =>
    match paint w base cmd with
    | Ok _ => let '(done, failed) := painted w base rest in (cmd :: done, failed)
    | Raise e => ([], Some (cmd, e))
    end
  end.

(** The calls of [ImageDraw] in a trace: those that returned and the one
    that raised. *)
Definition calls (img : ref) (done : list draw_cmd) (failed : option (draw_cmd * exn))
    : list action :=
  map (Draw img) done ++
  match failed with
  | Some (cmd, _) => [Draw img cmd]
  | None => []
  end.

(** The overlays of a finding that renders; none for one that raises. *)
Definition marks (w : World) (width height : Z) (item : json) : list draw_cmd :=
  match overlay w width height item with
  | Ok cmds => cmds
  | Raise _ => []
  end.

Definition numeric (v : json) : bool :=
  match number v with
  | Some _ => true
  | None => false
  end.

(** The magnitude up to which an int is a float exactly: 2^53. *)
Definition exact_limit : Q := inject_Z (2 ^ 53).

Definition within (q : Q) : Prop := (- exact_limit <= q <= exact_limit)%Q.

(** A number of magnitude at most 2^53. *)
Definition modest (v : json) : bool :=
  match number v with
  | Some q => Qle_bool (- exact_limit) q && Qle_bool q exact_limit
  | None => false
  end.

(** The findings by what the loop body makes of them: [Skipped] lacks a
    box or a point (absent, null, empty or zero); [Whole] has a box of
    four numbers and a point of two, all of magnitude at most 2^53;
    [Huge] has a box of four numbers and a point of two, one of them
    larger than that; anything else is [Broken]. *)
Inductive shape := Skipped | Whole | Huge | Broken.

Definition classify (item : json) : shape :=
  match item with
  | JObj fields =>
    match assoc "text" fields with
    | None | Some (JStr _) =>
      let label_box := default JNull (assoc "label_pos" fields) in
      let target := default JNull (assoc "target_pos" fields) in
      if truthy label_box && truthy target then
        match label_box, target with
        | JArr [a; b; c; d], JArr [y; x] =>
          if numeric a && numeric b && numeric c && numeric d && numeric y && numeric x
          then
            if modest a && modest b && modest c && modest d && modest y && modest x
            then Whole else Huge
          else Broken
        | _, _ => Broken
        end
      else Skipped
    | Some _ => Broken
    end
  | _ => Broken
  end.

(** A finding the loop body is sure to get through: skipped or whole. *)
Definition plain (item : json) : Prop := classify item = Skipped \/ classify item = Whole.

Fixpoint prefix_of (p s : string) : bool :=
  match p, s with
  | EmptyString, _ => true
  | String a p', String b s' => Ascii.eqb a b && prefix_of p' s'
  | _, _ => false
  end.

(** [needle in hay] *)
Fixpoint contains (needle hay : string) : bool :=
  prefix_of needle hay ||
  match hay with
  | EmptyString => false
  | String _ rest => contains needle rest
  end.


(** What the task has put or will put on the queue and the generator has
    not taken yet. *)
Definition backlog (t : task) : list string := queue t ++ messages (pending t).

(** A task that is done has nothing left to do. *)
Definition settled (t : task) : Prop := finished t = true -> pending t = [].

(** The messages the getters of a set [done] hold. *)
Fixpoint taken (done : list awaited) : list string :=
  match done with
  | [] => []
  | Getter m :: rest => m :: taken rest
  | Task :: rest => taken rest
  end.

(** What the capture stage does before it returns or raises. *)
Definition capture_trace (w : World) (url : string) : list action :=
  Log (announcement url Capture) :: Scrape url ::
  match scrape w url with
  | Ok r =>
    match link r with
    | Some (String _ _ as u) => [Log ("🔗 Screenshot URL obtained: " +:+ u); HttpGet u]
    | _ => []
    end
  | Raise _ => []
  end.

(** The heap once the image is opened (and converted when its mode is not
    RGB), and the reference of the picture that is drawn on. *)
Definition studio (h : list obj) (base : raster) : list obj * ref :=
  if String.eqb (mode base) "RGB" then (h ++ [Picture base []], length h)
  else ((h ++ [Picture base []]) ++ [Picture (convert base "RGB") []], S (length h)).

(** The outcome of [analyze_and_annotate] when its [except] branch runs. *)
Definition soft (r : ref) (h : list obj) (tr : list action) (e : exn) : outcome (json * ref) :=
  {| value := Ok (JObj [], r); heap := h;
     trace := Log "🧠 Analyzing image with Gemini Vision..." :: tr ++
              [Log ("❌ Gemini/Annotation Error: " +:+ str e)] |}.

(** The findings of a reply, as the code reads them before it draws. *)
Definition annotations (v : json) : res json :=
  match get v "executive_summary" (JStr "No summary provided.") with
  | Ok _ => get v "annotations" (JArr [])
  | Raise e => Raise e
  end.

(** [analyze_and_annotate] path by path. *)
Definition analysis (w : World) (r : ref) (h : list obj) : outcome (json * ref) :=
  match h !! r with
  | Some (Bytes data) =>
    match Image_open w data with
    | Raise e => soft r h [Open r] e
    | Ok base =>
      let '(h1, img) := studio h base in
      let '(width, height) := size (working base) in
      match generate_content w (working base) with
      | RequestFailed e | Malformed e => soft r h1 [Open r; Generate] e
      | Structured v =>
        match annotations v with
        | Raise e => soft r h1 [Open r; Generate] e
        | Ok data =>
          match iter data with
          | Raise e => soft r h1 [Open r; Generate; Log "🎨 Drawing annotations on image..."] e
          | Ok items =>
            let '(cmds, stop) := drawn w width height items in
            let '(done, failed) := painted w (working base) cmds in
            let h2 := <[img := Picture (working base) done]> h1 in
            let tr := [Open r; Generate; Log "🎨 Drawing annotations on image..."] ++
                      calls img done failed in
            match failed, stop with
            | Some (_, e), _ | None, Some e => soft r h2 tr e
            | None, None =>
              {| value := Ok (v, length h2);
                 heap := h2 ++ [Bytes (save w (working base) done)];
                 trace := Log "🧠 Analyzing image with Gemini Vision..." :: tr ++ [Save img] |}
            end
          end
        end
      end
    end
  | _ => soft r h [] (Exception "dangling reference")
  end.

(** The six drawing calls of one finding, from the pixel positions of the
    centre of its box, of the corner of its box and of its target. *)
Definition stamp (w : World) (text : string) (lcx lcy lx ly tx ty : Q) : list draw_cmd :=
  let '(b0, b1, b2, b3) := textbbox w (lx, ly) text in
  [ Line (lcx, lcy, tx, ty) "black" 6;
    Line (lcx, lcy, tx, ty) "#FFD700" 4;
    Ellipse (tx - 10 - 2, ty - 10 - 2, tx + 10 + 2, ty + 10 + 2)%Q "black";
    Ellipse (tx - 10, ty - 10, tx + 10, ty + 10)%Q "#FFD700";
    Rectangle (b0 - 5, b1 - 5, b2 + 5, b3 + 5)%Q "#FFD700" "black" 2;
    Text (lx, ly) text "black" ].

(** The sum [a + b] of two numbers as the interpreter forms it. *)
Definition plus (a b : json) : Q :=
  match integral a, integral b with
  | Some m, Some n => inject_Z (m + n)
  | _, _ => (default 0 (number a) + default 0 (number b))%Q
  end.

(** The branch of [run] that follows a capture. *)
Definition deliver (w : World) (target_url : string) (image_bytes : ref) : M (option string) :=
  '(full_data, annotated_bytes) ← analyze_and_annotate w image_bytes;
  log "📄 Generating PDF Report..." ;;
  let tmp_dir := gettempdir w in
  let output_filename := path_join tmp_dir ("audit_report_" +:+ dec (time w) +:+ ".pdf") in
  create_pdf_report w target_url full_data annotated_bytes output_filename ;;
  log ("✅ Report generated: " +:+ output_filename) ;;
  mret (Some output_filename).

(** The events that end a stream. *)
Definition is_terminal (e : event) : bool :=
  match e with
  | Progress _ => false
  | Complete _ | Error _ => true
  end.

(** The name [run] gives the report. *)
Definition report_name (w : World) : string := "audit_report_" +:+ dec (time w) +:+ ".pdf".

(** The path [run] writes the report to. *)
Definition report_path (w : World) : string := path_join (gettempdir w) (report_name w).

(** The name [create_pdf_report] gives the picture it stages on disk. *)
Definition temp_name (w : World) : string := "temp_annotated_" +:+ dec (time w) +:+ ".png".

(** What [create_pdf_report] reads from the analysis before it touches the
    disk: the summary, sanitized, and the blocks of the findings. *)
Definition page_one (w : World) (full_data : json) : res (string * list pdf_cmd) :=
  match get full_data "executive_summary" (JStr "No summary available.") with
  | Raise e => Raise e
  | Ok x =>
    match sanitize x with
    | Raise e => Raise e
    | Ok summary =>
      match get full_data "annotations" (JArr []) with
      | Raise e => Raise e
      | Ok a =>
        match iter a with
        | Raise e => Raise e
        | Ok items =>
          match findings w items with
          | Raise e => Raise e
          | Ok blocks => Ok (summary, blocks)
          end
        end
      end
    end
  end.

(** The document [create_pdf_report] hands to [pdf.output]. *)
Definition report_doc (w : World) (url summary : string) (blocks : list pdf_cmd)
    (data : bytes) : list pdf_cmd :=
  [ AddPage;
    SetFont "Arial" "B" 24;
    Cell 0 20 "Conversion Audit Report" true "C";
    SetFont "Arial" "I" 12;
    Cell 0 10 ("Analysis for: " +:+ url) true "C";
    Ln 20;
    SetFont "Arial" "B" 16;
    Cell 0 10 "Executive Summary" true "";
    Ln 5;
    SetFont "Arial" "" 12 ] ++
  [ MultiCell 0 10 summary;
    Ln 20;
    SetFont "Arial" "B" 14;
    Cell 0 10 "Key Findings Overview:" true "";
    Ln 5 ] ++
  blocks ++
  [ AddPage;
    SetFont "Arial" "B" 16;
    Cell 0 10 "Visual Annotations" true "C";
    Ln 5 ] ++
  match pdf_image w data with
  | Ok _ => [ PdfImage (temp_name w) data 10 30 190 ]
  | Raise _ => []
  end.

(** [create_pdf_report] path by path. *)
Definition report (w : World) (url : string) (full_data : json) (r : ref) (name : string)
    (h : list obj) : outcome unit :=
  match page_one w full_data with
  | Raise e => {| value := Raise e; heap := h; trace := [] |}
  | Ok (summary, blocks) =>
    match h !! r with
    | Some (Bytes data) =>
      match open_write w (temp_name w) data with
      | Raise e => {| value := Raise e; heap := h; trace := [WriteFile (temp_name w) data] |}
      | Ok _ =>
        let doc := report_doc w url summary blocks data in
        match pdf_output w doc name with
        | Raise e =>
          {| value := Raise e; heap := h;
             trace := [WriteFile (temp_name w) data; PdfOutput doc name] |}
        | Ok _ =>
          {| value := Ok (); heap := h;
             trace := [WriteFile (temp_name w) data; PdfOutput doc name; Remove (temp_name w)] |}
        end
      end
    | _ => {| value := dangling; heap := h; trace := [] |}
    end
  end.

(** The analysis gets as far as the loop over the findings: the picture
    opens, the reply is structured and its findings are read. *)
Definition drawing (w : World) (data : bytes) : bool :=
  match Image_open w data with
  | Ok base =>
    match generate_content w (working base) with
    | Structured v =>
      match annotations v with
      | Ok _ => true
      | Raise _ => false
      end
    | _ => false
    end
  | Raise _ => false
  end.

(** The stages a run goes through: the capture always; the analysis and
    the assembly of the report when the capture yields a screenshot that
    is not empty; the rendering when, besides, the analysis gets as far
    as the loop over the findings. *)
Definition enters (w : World) (url : string) (st : stage) : bool :=
  match st with
  | Capture => true
  | Analyze | Assemble =>
    match capture w url with
    | Ok (_ :: _) => true
    | _ => false
    end
  | Render =>
    match capture w url with
    | Ok (b :: data) => drawing w (b :: data)
    | _ => false
    end
  end.

(** Every byte of a text is below 0xC4: the text is ASCII or UTF-8 of
    code points up to U+00FF. *)
Fixpoint latin (s : string) : bool :=
  match s with
  | EmptyString => true
  | String c rest => (nat_of_ascii c <? 196)%nat && latin rest
  end.

End Spec.

(** ** Test doubles *)

Module Fixtures.
Import Py Agent Server Spec.

(** A finding whose box and target lie inside the image. *)
Definition inside : json :=
  JObj [ ("id", JInt 1); ("text", JStr "trust me");
         ("label_pos", JArr [JInt 100; JInt 200; JInt 300; JInt 400]);
         ("target_pos", JArr [JInt 500; JInt 500]) ].

(** A finding whose target lies below the image: y = 1500. *)
Definition below : json :=
  JObj [ ("id", JInt 2); ("text", JStr "fix me");
         ("label_pos", JArr [JInt 100; JInt 200; JInt 300; JInt 400]);
         ("target_pos", JArr [JInt 1500; JInt 500]) ].

(** A finding without a box. *)
Definition boxless : json :=
  JObj [ ("id", JInt 3); ("text", JStr "no box");
         ("target_pos", JArr [JInt 500; JInt 500]) ].

(** A finding whose box has three coordinates. *)
Definition short_box : json :=
  JObj [ ("id", JInt 4); ("text", JStr "bad box");
         ("label_pos", JArr [JInt 100; JInt 200; JInt 300]);
         ("target_pos", JArr [JInt 500; JInt 500]) ].

(** A finding whose label lies 10^20 to the right. *)
Definition far : json :=
  JObj [ ("id", JInt 5); ("text", JStr "too far");
         ("label_pos", JArr [JInt 100; JInt (10 ^ 20); JInt 300; JInt (10 ^ 20)]);
         ("target_pos", JArr [JInt 500; JInt 500]) ].

(** A finding whose label lies 10^400 to the right. *)
Definition vast : json :=
  JObj [ ("id", JInt 6); ("text", JStr "beyond");
         ("label_pos", JArr [JInt 100; JInt (10 ^ 400); JInt 300; JInt 400]);
         ("target_pos", JArr [JInt 500; JInt 500]) ].

Definition found (items : list json) : reply :=
  Structured (JObj [ ("executive_summary", JStr "Calmer colours."); ("annotations", JArr items) ]).

Definition upper_ascii (c : ascii) : ascii :=
  let n := nat_of_ascii c in
  if ((97 <=? n) && (n <=? 122))%nat then ascii_of_nat (n - 32) else c.

(** [str.upper] in the laboratory, whose texts are ASCII: the letters a
    to z are raised, every other byte is kept. *)
Fixpoint upper_string (s : string) : string :=
  match s with
  | EmptyString => EmptyString
  | String c rest => String (upper_ascii c) (upper_string rest)
  end.

(** PIL in the laboratory: lines, ellipses and rectangles are clipped to
    the picture; a text is pasted at integer positions, and a position
    beyond the range of a C int raises. *)
Definition pil (base : raster) (cmd : draw_cmd) : res unit :=
  match cmd with
  | Text (x, y) _ _ =>
    if Qle_bool (- inject_Z (2 ^ 31)) x && Qle_bool x (inject_Z (2 ^ 31 - 1)) &&
       Qle_bool (- inject_Z (2 ^ 31)) y && Qle_bool y (inject_Z (2 ^ 31 - 1))
    then Ok ()
    else Raise (OverflowError "Python int too large to convert to C long")
  | _ => Ok ()
  end.

(** A world in which both keys are set, the screenshot is one byte that
    decodes to an RGB picture of 100 by 100, the download answers with
    [status], Gemini answers with [answer], a character of the default font
    is 6 by 11, PIL draws as [pil] does, the encoder writes one byte per
    drawing call, and the disk and FPDF do not fail. *)
Definition lab (answer : reply) (status : N) : World := {|
  getenv := fun _ => Some "key";
  clients := Ok ();
  scrape := fun _ => Ok (AsDict (Some "https://shots.example/1.png"));
  requests_get := fun _ => Ok {| status_code := status; content := [Byte.x89] |};
  Image_open := fun _ => Ok {| size := (100, 100)%Z; mode := "RGB"; pixels := [] |};
  generate_content := fun _ => answer;
  str_upper := upper_string;
  textbbox := fun xy text =>
    (xy.1, xy.2, xy.1 + inject_Z (6 * Z.of_nat (String.length text)), xy.2 + 11)%Q;
  paint := pil;
  save := fun _ overlays => map (fun _ => Byte.x2a) overlays;
  repr := fun _ => "?";
  gettempdir := "/tmp";
  time := 1700000000;
  open_write := fun _ _ => Ok ();
  pdf_image := fun _ => Ok ();
  pdf_output := fun _ _ => Ok ()
|}.

(** The same world without its environment variables. *)
Definition keyless : World := {|
  getenv := fun _ => None;
  clients := Ok ();
  scrape := scrape (lab (found []) 200);
  requests_get := requests_get (lab (found []) 200);
  Image_open := Image_open (lab (found []) 200);
  generate_content := generate_content (lab (found []) 200);
  str_upper := str_upper (lab (found []) 200);
  textbbox := textbbox (lab (found []) 200);
  paint := paint (lab (found []) 200);
  save := save (lab (found []) 200);
  repr := repr (lab (found []) 200);
  gettempdir := "/tmp";
  time := 1700000000;
  open_write := open_write (lab (found []) 200);
  pdf_image := pdf_image (lab (found []) 200);
  pdf_output := pdf_output (lab (found []) 200)
|}.

(** The laboratory with an FPDF whose [output] fails. *)
Definition jammed (answer : reply) : World := {|
  getenv := getenv (lab answer 200);
  clients := clients (lab answer 200);
  scrape := scrape (lab answer 200);
  requests_get := requests_get (lab answer 200);
  Image_open := Image_open (lab answer 200);
  generate_content := generate_content (lab answer 200);
  str_upper := str_upper (lab answer 200);
  textbbox := textbbox (lab answer 200);
  paint := paint (lab answer 200);
  save := save (lab answer 200);
  repr := repr (lab answer 200);
  gettempdir := "/tmp";
  time := 1700000000;
  open_write := open_write (lab answer 200);
  pdf_image := pdf_image (lab answer 200);
  pdf_output := fun _ _ => Raise (Exception "No space left on device")
|}.

(** The laboratory with both keys set and clients that cannot be built. *)
Definition unplugged : World := {|
  getenv := getenv (lab (found []) 200);
  clients := Raise (Exception "Invalid API key format");
  scrape := scrape (lab (found []) 200);
  requests_get := requests_get (lab (found []) 200);
  Image_open := Image_open (lab (found []) 200);
  generate_content := generate_content (lab (found []) 200);
  str_upper := str_upper (lab (found []) 200);
  textbbox := textbbox (lab (found []) 200);
  paint := paint (lab (found []) 200);
  save := save (lab (found []) 200);
  repr := repr (lab (found []) 200);
  gettempdir := "/tmp";
  time := 1700000000;
  open_write := open_write (lab (found []) 200);
  pdf_image := pdf_image (lab (found []) 200);
  pdf_output := pdf_output (lab (found []) 200)
|}.

(** The laboratory with the Google key set to the empty string. *)
Definition blank_key : World := {|
  getenv := fun name => if String.eqb name "GOOGLE_API_KEY" then Some "" else Some "key";
  clients := Ok ();
  scrape := scrape (lab (found []) 200);
  requests_get := requests_get (lab (found []) 200);
  Image_open := Image_open (lab (found []) 200);
  generate_content := generate_content (lab (found []) 200);
  str_upper := str_upper (lab (found []) 200);
  textbbox := textbbox (lab (found []) 200);
  paint := paint (lab (found []) 200);
  save := save (lab (found []) 200);
  repr := repr (lab (found []) 200);
  gettempdir := "/tmp";
  time := 1700000000;
  open_write := open_write (lab (found []) 200);
  pdf_image := pdf_image (lab (found []) 200);
  pdf_output := pdf_output (lab (found []) 200)
|}.

(** The laboratory with a download that answers 200 and nothing. *)
Definition hollow : World := {|
  getenv := getenv (lab (found []) 200);
  clients := Ok ();
  scrape := scrape (lab (found []) 200);
  requests_get := fun _ => Ok {| status_code := 200; content := [] |};
  Image_open := Image_open (lab (found []) 200);
  generate_content := generate_content (lab (found []) 200);
  str_upper := str_upper (lab (found []) 200);
  textbbox := textbbox (lab (found []) 200);
  paint := paint (lab (found []) 200);
  save := save (lab (found []) 200);
  repr := repr (lab (found []) 200);
  gettempdir := "/tmp";
  time := 1700000000;
  open_write := open_write (lab (found []) 200);
  pdf_image := pdf_image (lab (found []) 200);
  pdf_output := pdf_output (lab (found []) 200)
|}.

(** A reply whose summary is null. *)
Definition speechless (items : list json) : reply :=
  Structured (JObj [ ("executive_summary", JNull); ("annotations", JArr items) ]).

(** The laboratory with an FPDF that cannot read the staged picture. *)
Definition smudged (answer : reply) : World := {|
  getenv := getenv (lab answer 200);
  clients := clients (lab answer 200);
  scrape := scrape (lab answer 200);
  requests_get := requests_get (lab answer 200);
  Image_open := Image_open (lab answer 200);
  generate_content := generate_content (lab answer 200);
  str_upper := str_upper (lab answer 200);
  textbbox := textbbox (lab answer 200);
  paint := paint (lab answer 200);
  save := save (lab answer 200);
  repr := repr (lab answer 200);
  gettempdir := "/tmp";
  time := 1700000000;
  open_write := open_write (lab answer 200);
  pdf_image := fun _ => Raise (Exception "Unsupported image type: png");
  pdf_output := pdf_output (lab answer 200)
|}.

End Fixtures.

(** ** The progress stream delivers the queue in order *)

Module BridgeFacts.
Import Py Agent Server Spec.

Lemma tick_backlog t : backlog (tick t) = backlog t.
Proof.
  unfold backlog, tick. destruct (pending t) as [|[] rest]; simpl; try reflexivity.
  now rewrite <- app_assoc.
Qed.

Lemma tick_settled t : settled t -> settled (tick t).
Proof.
  unfold settled, tick. intros H.
  destruct (pending t) as [|[] rest] eqn:E; simpl; auto; intros F; specialize (H F); discriminate.
Qed.

Lemma ticks_backlog n t : backlog (Nat.iter n tick t) = backlog t.
Proof. induction n; simpl; [reflexivity | now rewrite tick_backlog]. Qed.

Lemma ticks_settled n t : settled t -> settled (Nat.iter n tick t).
Proof. induction n; simpl; auto using tick_settled. Qed.

Lemma settle_backlog fuel t : backlog (settle fuel t) = backlog t.
Proof.
  revert t. induction fuel; intros t; simpl; [reflexivity|].
  destruct (idle t); [|reflexivity]. now rewrite IHfuel, tick_backlog.
Qed.

Lemma settle_settled fuel t : settled t -> settled (settle fuel t).
Proof.
  revert t. induction fuel; intros t H; simpl; [assumption|].
  destruct (idle t); auto using tick_settled.
Qed.

Lemma tick_pending t : idle t = true -> length (pending (tick t)) = pred (length (pending t)).
Proof. unfold tick. destruct (pending t) as [|[] rest]; reflexivity. Qed.

Lemma tick_empty t : pending t = [] -> idle (tick t) = false.
Proof. unfold tick, idle. intros ->. simpl. now destruct (queue t). Qed.

(** The generator does wake up: with the task's remaining actions as fuel,
    [settle] ends with a message on the queue or the task done. *)
Lemma settle_wakes fuel t :
  (length (pending t) < fuel)%nat -> idle (settle fuel t) = false.
Proof.
  revert t. induction fuel; intros t H; [lia|]. simpl.
  destruct (idle t) eqn:I; [|assumption].
  destruct (pending t) eqn:P.
  - destruct fuel; simpl; [|rewrite (tick_empty t P)]; now apply tick_empty.
  - apply IHfuel. rewrite tick_pending, P by assumption. simpl in *. lia.
Qed.

Lemma asyncio_wait_spec c t done t' :
  settled t -> drained t = false -> asyncio_wait c t = (done, t') ->
  settled t' /\
  ((exists m, backlog t = m :: backlog t' /\ (done = [Getter m] \/ done = [Task; Getter m] \/ done = [Getter m; Task]))
   \/ (done = [Task] /\ backlog t = [] /\ drained t' = true)).
Proof.
  intros Hs D. unfold asyncio_wait.
  set (t1 := Nat.iter (during_wait c) tick t).
  set (t2 := settle (S (length (pending t1))) t1).
  assert (B : backlog t2 = backlog t) by (unfold t2, t1; now rewrite settle_backlog, ticks_backlog).
  assert (S2 : settled t2) by (unfold t2, t1; auto using settle_settled, ticks_settled).
  assert (I : idle t2 = false) by (unfold t2; apply settle_wakes; lia).
  clearbody t2. clear t1. unfold idle in I. unfold backlog in B at 1.
  destruct (queue t2) as [|m rest] eqn:Q.
  - intros [= <- <-]. split; [assumption|]. right.
    apply negb_false_iff in I. specialize (S2 I).
    rewrite S2 in B. simpl in B. repeat split; auto.
    unfold drained. now rewrite I, Q.
  - intros E. simpl in E. split.
    + destruct (finished t2) eqn:F; injection E as <- <-; unfold settled; simpl; intros; auto.
      discriminate.
    + left. exists m. split.
      * rewrite <- B. destruct (finished t2); injection E as <- <-; reflexivity.
      * destruct (finished t2), (task_first c); injection E as <- <-; auto.
Qed.

Lemma for_done_spec c done t out t' :
  settled t -> for_done c done t = (out, t') ->
  settled t' /\ backlog t' = backlog t /\ out = map Progress (taken done) /\
  (taken done = [] -> t' = t).
Proof.
  revert t out t'. induction done as [|[m|] rest IH]; intros t out t' Hs; simpl.
  - intros [= <- <-]. auto.
  - destruct (for_done c rest (Nat.iter (during_yield c) tick t)) as [out1 t1] eqn:E.
    intros [= <- <-].
    destruct (IH _ _ _ (ticks_settled _ _ Hs) E) as (S1 & B1 & O1 & _).
    rewrite ticks_backlog in B1. subst out1. repeat split; auto. discriminate.
  - destruct (queue t); apply IH; assumption.
Qed.

Lemma drained_backlog t : settled t -> drained t = true -> backlog t = [].
Proof.
  unfold settled, drained, backlog. intros Hs D.
  apply andb_true_iff in D as [F Q]. rewrite (Hs F).
  now destruct (queue t).
Qed.

Lemma loop_spec fuel : forall sched t,
  settled t -> (length (backlog t) < fuel)%nat ->
  loop fuel sched t = Some (map Progress (backlog t)).
Proof.
  induction fuel as [|fuel IH]; intros sched t Hs L; [lia|].
  simpl. destruct (drained t) eqn:D.
  { now rewrite drained_backlog. }
  destruct (asyncio_wait (hd eager sched) t) as [done t1] eqn:W.
  destruct (asyncio_wait_spec _ _ _ _ Hs D W) as [S1 [(m & B & Hd) | (-> & B & D1)]].
  - destruct (for_done (hd eager sched) done t1) as [out t2] eqn:F.
    destruct (for_done_spec _ _ _ _ _ S1 F) as (S2 & B2 & -> & _).
    assert (T : taken done = [m]) by (destruct Hd as [-> | [-> | ->]]; reflexivity).
    rewrite T, B, <- B2. simpl.
    destruct (drained t2) eqn:D2.
    + now rewrite drained_backlog.
    + rewrite IH; [reflexivity | assumption |].
      rewrite B, <- B2 in L. simpl in L. lia.
  - destruct (for_done (hd eager sched) [Task] t1) as [out t2] eqn:F.
    destruct (for_done_spec _ _ _ _ _ S1 F) as (_ & _ & -> & ->); [|reflexivity].
    rewrite D1, B. reflexivity.
Qed.

Lemma stream_spec sched script result :
  stream sched script result = Some (map Progress (messages script) ++ [terminal result]).
Proof.
  unfold stream. rewrite loop_spec.
  - reflexivity.
  - unfold settled. simpl. discriminate.
  - unfold backlog. simpl. clear. induction script as [|[] rest IH]; simpl in *; lia.
Qed.
End BridgeFacts.

(** ** Running the agent *)

Module AgentFacts.
Import Py Agent Server Spec BridgeFacts.

Lemma painted_app w base a b :
  painted w base (a ++ b) =
  match painted w base a with
  | (done, None) => (done ++ (painted w base b).1, (painted w base b).2)
  | (done, Some failed) => (done, Some failed)
  end.
Proof.
  induction a as [|c a IH]; simpl.
  - now destruct (painted w base b).
  - destruct (paint w base c); [|reflexivity].
    rewrite IH. now destruct (painted w base a) as [done [failed|]].
Qed.

Lemma painted_none w base cmds done :
  painted w base cmds = (done, None) -> done = cmds.
Proof.
  revert done. induction cmds as [|c cmds IH]; intros done; simpl.
  - now intros [= <-].
  - destruct (paint w base c); [|discriminate].
    destruct (painted w base cmds) as [d f]. intros [= <- ->]. now rewrite (IH d).
Qed.

Lemma painted_all w base cmds :
  Forall (fun cmd => paint w base cmd = Ok ()) cmds -> painted w base cmds = (cmds, None).
Proof. induction 1 as [|c cmds P _ IH]; simpl; [reflexivity|]. now rewrite P, IH. Qed.

Lemma painted_some w base cmds cmd e :
  In cmd cmds -> paint w base cmd = Raise e ->
  exists done failed, painted w base cmds = (done, Some failed).
Proof.
  induction cmds as [|c cmds IH]; simpl; [intros []|].
  intros [->|I] P.
  - rewrite P. eauto.
  - destruct (paint w base c); [|eauto].
    destruct (IH I P) as (done & failed & ->). eauto.
Qed.

Lemma calls_app img a done failed :
  map (Draw img) a ++ calls img done failed = calls img (a ++ done) failed.
Proof. unfold calls. now rewrite map_app, app_assoc. Qed.

Lemma draw_all w img base cmds : forall h overlays,
  h !! img = Some (Picture base overlays) ->
  for_each cmds (draw w img) h =
  {| value := match (painted w base cmds).2 with None => Ok () | Some (_, e) => Raise e end;
     heap := <[img := Picture base (overlays ++ (painted w base cmds).1)]> h;
     trace := calls img (painted w base cmds).1 (painted w base cmds).2 |}.
Proof.
  induction cmds as [|c cmds IH]; intros h overlays L; simpl.
  - unfold mret, M_ret. now rewrite app_nil_r, list_insert_id.
  - unfold mbind, M_bind, draw at 1. rewrite L.
    destruct (paint w base c) as [[]|e]; simpl.
    + rewrite (IH _ (overlays ++ [c])).
      * destruct (painted w base cmds) as [done [[c' e]|]]; simpl;
          now rewrite list_insert_insert_eq, <- app_assoc.
      * apply list_lookup_insert_eq. eapply lookup_lt_Some, L.
    + now rewrite app_nil_r, list_insert_id.
Qed.

Lemma annotate_loop w img width height base items : forall h overlays,
  h !! img = Some (Picture base overlays) ->
  for_each items (annotate w img width height) h =
  {| value := match (painted w base (drawn w width height items).1).2,
                    (drawn w width height items).2 with
              | Some (_, e), _ | None, Some e => Raise e
              | None, None => Ok ()
              end;
     heap := <[img := Picture base
                        (overlays ++ (painted w base (drawn w width height items).1).1)]> h;
     trace := calls img (painted w base (drawn w width height items).1).1
                (painted w base (drawn w width height items).1).2 |}.
Proof.
  induction items as [|item items IH]; intros h overlays L; simpl.
  - unfold mret, M_ret. now rewrite app_nil_r, list_insert_id.
  - unfold mbind at 1, M_bind, annotate at 1, mbind at 1, M_bind, lift.
    destruct (overlay w width height item) as [cmds|e]; simpl.
    + rewrite (draw_all _ _ _ _ _ _ L).
      destruct (drawn w width height items) as [more stop] eqn:D; simpl.
      rewrite painted_app.
      destruct (painted w base cmds) as [done [[c e]|]] eqn:P; simpl; [reflexivity|].
      apply painted_none in P as ->.
      rewrite (IH _ (overlays ++ cmds)).
      * cbn [fst snd after]. unfold calls at 1.
        rewrite list_insert_insert_eq, <- app_assoc, app_nil_r, calls_app.
        reflexivity.
      * apply list_lookup_insert_eq. eapply lookup_lt_Some, L.
    + now rewrite app_nil_r, list_insert_id.
Qed.

Lemma studio_lookup h base :
  (studio h base).1 !! (studio h base).2 = Some (Picture (working base) []).
Proof.
  unfold studio, working. destruct (String.eqb (mode base) "RGB"); simpl.
  - now apply list_lookup_middle.
  - apply list_lookup_middle. rewrite length_app. simpl. lia.
Qed.


Section Running.
Context {A B : Type}.
Implicit Types (k : A -> M B) (h : list obj).

Lemma after_nil (o : outcome B) : after [] o = o.
Proof. now destruct o. Qed.

Lemma after_after t t' (o : outcome B) : after t (after t' o) = after (t ++ t') o.
Proof. destruct o. simpl. now rewrite app_assoc. Qed.

Lemma bind_ret (a : A) k h : (mret a ≫= k) h = k a h.
Proof. apply after_nil. Qed.

Lemma bind_ok (a : A) k h : (lift (Ok a) ≫= k) h = k a h.
Proof. apply after_nil. Qed.

Lemma bind_raise e k h :
  (lift (Raise e) ≫= k) h = {| value := Raise e; heap := h; trace := [] |}.
Proof. reflexivity. Qed.

Lemma bind_assoc {C} (m : M C) (f : C -> M A) k h :
  ((m ≫= f) ≫= k) h = (m ≫= fun c => f c ≫= k) h.
Proof.
  unfold mbind, M_bind. destruct (m h) as [[c|e] h1 t1]; [|reflexivity].
  destruct (f c h1) as [[a|e] h2 t2]; simpl; [|reflexivity].
  now rewrite after_after.
Qed.
End Running.

Lemma bind_emit {B} a (k : () -> M B) h : (emit a ≫= k) h = after [a] (k () h).
Proof. reflexivity. Qed.

Lemma bind_log {B} m (k : () -> M B) h : (log m ≫= k) h = after [Log m] (k () h).
Proof. reflexivity. Qed.

Lemma bind_alloc {B} o (k : ref -> M B) h : (alloc o ≫= k) h = k (length h) (h ++ [o]).
Proof. apply after_nil. Qed.

Lemma bind_read {B} r data (k : bytes -> M B) h :
  h !! r = Some (Bytes data) -> (read r ≫= k) h = k data h.
Proof. intros L. unfold mbind, M_bind, read. rewrite L. apply after_nil. Qed.

Lemma bind_picture {B} r base overlays (k : raster * list draw_cmd -> M B) h :
  h !! r = Some (Picture base overlays) -> (picture r ≫= k) h = k (base, overlays) h.
Proof. intros L. unfold mbind, M_bind, picture. rewrite L. apply after_nil. Qed.

Ltac run :=
  repeat first
    [ rewrite bind_emit | rewrite bind_log | rewrite bind_ok | rewrite bind_raise
    | rewrite bind_ret | rewrite bind_alloc | rewrite after_nil | progress cbv beta ].

Lemma size_working base : size (working base) = size base.
Proof. unfold working. now destruct (String.eqb (mode base) "RGB"). Qed.

Lemma analyze_and_annotate_spec w r h : analyze_and_annotate w r h = analysis w r h.
Proof.
  unfold analyze_and_annotate, analysis. run. unfold try.
  destruct (h !! r) as [[data|]|] eqn:R;
    [rewrite (bind_read _ _ _ _ R) | unfold mbind at 1, M_bind at 1, read; rewrite R; reflexivity ..].
  run.
  destruct (Image_open w data) as [base|e]; run; [|reflexivity].
  pose proof (studio_lookup h base) as L.
  unfold studio, working in *.
  destruct (String.eqb (mode base) "RGB") eqn:RGB; simpl in L; run;
    rewrite ?length_app, ?Nat.add_1_r; simpl length; rewrite ?Nat.add_1_r;
    rewrite (bind_picture _ _ _ _ _ L); run.
  all: try change (size (convert base "RGB")) with (size base).
  all: destruct (size base) as [width height].
  all: run; destruct (generate_content w _) as [e|e|v]; unfold raise; run; try reflexivity.
  all: unfold annotations.
  all: destruct (get v "executive_summary" _) as [x|e]; run; [|reflexivity].
  all: cbv iota.
  all: destruct (get v "annotations" _) as [y|e]; run; [|reflexivity].
  all: destruct (iter y) as [items|e]; run; [|reflexivity].
  all: unfold mbind at 1, M_bind at 1; rewrite (annotate_loop _ _ _ _ _ _ _ _ L).
  all: destruct (drawn w width height items) as [cmds stop]; cbn [fst snd].
  all: destruct (painted w _ cmds) as [done [[c e]|]]; cbn [fst snd]; [reflexivity|].
  all: destruct stop as [e|]; [reflexivity|].
  all: run.
  all: erewrite bind_picture by (apply list_lookup_insert_eq; eapply lookup_lt_Some, L).
  all: run; reflexivity.
Qed.

Lemma plus_sum a b p q : number a = Some p -> number b = Some q -> (plus a b == p + q)%Q.
Proof.
  unfold plus.
  destruct a as [|[]| | | | |], b as [|[]| | | | |]; simpl; try discriminate;
    intros [= <-] [= <-]; rewrite ?inject_Z_plus; reflexivity.
Qed.

(** *** Numbers of magnitude at most 2^53 are far from the overflow *)

Lemma fits_iff q : fits q = true <-> (- float_limit < q < float_limit)%Q.
Proof.
  unfold fits. rewrite andb_true_iff, !negb_true_iff.
  split.
  - intros [U L]. split; apply Qnot_le_lt; intros C; apply Qle_bool_iff in C; congruence.
  - intros [L U]. split; apply not_true_is_false; intros C; apply Qle_bool_iff in C;
      [apply (Qlt_not_le _ _ U C)|apply (Qlt_not_le _ _ L C)].
Qed.

Lemma limits : (2 * exact_limit < float_limit)%Q.
Proof. reflexivity. Qed.

Lemma exact_limit_pos : (0 < exact_limit)%Q.
Proof. reflexivity. Qed.

Lemma fits_twice q : (- (2 * exact_limit) <= q <= 2 * exact_limit)%Q -> fits q = true.
Proof. intros [L U]. apply fits_iff. pose proof limits. split; lra. Qed.

Lemma fits_within q : within q -> fits q = true.
Proof. intros [L U]. apply fits_twice. pose proof exact_limit_pos. split; lra. Qed.

Lemma fits_thousandth q : within q -> fits (q / inject_Z 1000) = true.
Proof.
  intros [L U]. apply fits_twice. pose proof exact_limit_pos.
  assert (E : (q / inject_Z 1000 == q * (1 # 1000))%Q) by (now field).
  rewrite E. split; lra.
Qed.

Lemma fits_midpoint p q : within p -> within q -> fits ((p + q) / inject_Z 2000) = true.
Proof.
  intros [L U] [L' U']. apply fits_twice. pose proof exact_limit_pos.
  assert (E : ((p + q) / inject_Z 2000 == (p + q) * (1 # 2000))%Q) by (now field).
  rewrite E. split; lra.
Qed.

Lemma modest_within v q : number v = Some q -> modest v = true <-> within q.
Proof.
  unfold modest, within. intros ->. rewrite andb_true_iff, !Qle_bool_iff. reflexivity.
Qed.

Lemma truediv_fits v q d :
  number v = Some q -> fits (q / inject_Z d) = true -> truediv v d = Ok (q / inject_Z d)%Q.
Proof.
  unfold truediv. destruct v as [|[]| | | | |]; simpl; try discriminate; intros [= <-]; auto.
  all: intros F; change (inject_Z 1) with 1%Q; now rewrite F.
Qed.

Lemma add_numbers a b p q :
  number a = Some p -> number b = Some q -> fits p = true -> fits q = true ->
  exists s, add a b = Ok s /\ number s = Some (plus a b).
Proof.
  unfold plus, add, to_float.
  destruct a as [|[]| | | | |], b as [|[]| | | | |]; simpl; try discriminate;
    intros [= <-] [= <-] Fp Fq; rewrite ?Fp, ?Fq; eexists; split; reflexivity.
Qed.

(** The midpoint of two numbers of magnitude at most 2^53, as the loop
    body computes it. *)
Lemma midpoint a b p q :
  number a = Some p -> number b = Some q -> within p -> within q ->
  exists s, add a b = Ok s /\ truediv s 2000 = Ok (plus a b / inject_Z 2000)%Q.
Proof.
  intros Ha Hb Wp Wq.
  destruct (add_numbers a b p q Ha Hb (fits_within _ Wp) (fits_within _ Wq)) as (s & E & N).
  exists s. split; [exact E|]. apply (truediv_fits _ _ _ N).
  apply fits_iff. rewrite (plus_sum _ _ _ _ Ha Hb). apply fits_iff. now apply fits_midpoint.
Qed.

Lemma overlay_complete w width height fields a b c d y x text qa qb qc qd qy qx :
  assoc "label_pos" fields = Some (JArr [a; b; c; d]) ->
  assoc "target_pos" fields = Some (JArr [y; x]) ->
  default (JStr "") (assoc "text" fields) = JStr text ->
  number a = Some qa -> number b = Some qb -> number c = Some qc -> number d = Some qd ->
  number y = Some qy -> number x = Some qx ->
  Forall within [qa; qb; qc; qd; qy; qx] ->
  overlay w width height (JObj fields) =
  Ok (stamp w (str_upper w text)
        (plus b d / 2000 * Qz width) (plus a c / 2000 * Qz height)
        (qb / 1000 * Qz width) (qa / 1000 * Qz height)
        (qx / 1000 * Qz width) (qy / 1000 * Qz height))%Q.
Proof.
  intros Hbox Hpt Htext Ha Hb Hc Hd Hy Hx B.
  inversion B as [|? ? Wa B1]; subst. inversion B1 as [|? ? Wb B2]; subst.
  inversion B2 as [|? ? Wc B3]; subst. inversion B3 as [|? ? Wd B4]; subst.
  inversion B4 as [|? ? Wy B5]; subst. inversion B5 as [|? ? Wx _]; subst.
  destruct (midpoint b d _ _ Hb Hd Wb Wd) as (sx & Ex & Tx).
  destruct (midpoint a c _ _ Ha Hc Wa Wc) as (sy & Ey & Ty).
  unfold overlay, get. rewrite Hbox, Hpt.
  replace (match assoc "text" fields with Some x0 => x0 | None => JStr "" end) with (JStr text)
    by (now destruct (assoc "text" fields)).
  cbv [upper truthy andb unpack4 unpack2 elements mbind res_bind mret res_ret].
  cbv beta iota.
  rewrite (truediv_fits _ _ _ Hb (fits_thousandth _ Wb)), (truediv_fits _ _ _ Ha (fits_thousandth _ Wa)),
    (truediv_fits _ _ _ Hx (fits_thousandth _ Wx)), (truediv_fits _ _ _ Hy (fits_thousandth _ Wy)),
    Ex, Tx, Ey, Ty.
  unfold stamp.
  destruct (textbbox w _ _) as [[[b0 b1] b2] b3]. reflexivity.
Qed.

Lemma overlay_skipped w width height item :
  classify item = Skipped -> overlay w width height item = Ok [].
Proof.
  destruct item as [| | | | | |fields]; try discriminate.
  unfold classify, overlay, get, default, from_option, id.
  cbv [mbind res_bind mret res_ret]; cbv beta iota.
  destruct (assoc "text" fields) as [[]|]; try discriminate; cbv [upper]; cbv beta iota.
  all: destruct (truthy _ && truthy _); [|reflexivity].
  all: destruct (assoc "label_pos" fields) as [[| | | | |[|?[|?[|?[|?[|]]]]]|]|]; try discriminate.
  all: destruct (assoc "target_pos" fields) as [[| | | | |[|?[|?[|]]]|]|]; try discriminate.
  all: destruct (numeric _ && _ && _ && _ && _ && _);
    [destruct (modest _ && _ && _ && _ && _ && _)|]; discriminate.
Qed.

Lemma numeric_number v : numeric v = true -> exists q, number v = Some q.
Proof. unfold numeric. destruct (number v); [eauto | discriminate]. Qed.

Lemma complete_inv item :
  classify item = Whole ->
  exists fields a b c d y x text qa qb qc qd qy qx,
    item = JObj fields /\
    assoc "label_pos" fields = Some (JArr [a; b; c; d]) /\
    assoc "target_pos" fields = Some (JArr [y; x]) /\
    default (JStr "") (assoc "text" fields) = JStr text /\
    number a = Some qa /\ number b = Some qb /\ number c = Some qc /\ number d = Some qd /\
    number y = Some qy /\ number x = Some qx /\
    Forall within [qa; qb; qc; qd; qy; qx].
Proof.
  destruct item as [| | | | | |fields]; try discriminate.
  unfold classify, default, from_option, id.
  intros C.
  assert (T : exists text, match assoc "text" fields with Some t => t | None => JStr "" end = JStr text).
  { destruct (assoc "text" fields) as [[]|]; try discriminate; eauto. }
  destruct T as [text T].
  assert (C' : (if truthy (match assoc "label_pos" fields with Some b => b | None => JNull end) &&
                   truthy (match assoc "target_pos" fields with Some b => b | None => JNull end)
                then match (match assoc "label_pos" fields with Some b => b | None => JNull end),
                           (match assoc "target_pos" fields with Some b => b | None => JNull end) with
                     | JArr [a; b; c; d], JArr [y; x] =>
                       if numeric a && numeric b && numeric c && numeric d && numeric y && numeric x
                       then
                         if modest a && modest b && modest c && modest d && modest y && modest x
                         then Whole else Huge
                       else Broken
                     | _, _ => Broken
                     end
                else Skipped) = Whole).
  { destruct (assoc "text" fields) as [[]|]; try discriminate; exact C. }
  clear C.
  destruct (truthy _ && truthy _); [|discriminate].
  destruct (assoc "label_pos" fields) as [[| | | | |[|a[|b[|c[|d[|]]]]]|]|] eqn:Hbox; try discriminate.
  destruct (assoc "target_pos" fields) as [[| | | | |[|y[|x[|]]]|]|] eqn:Hpt; try discriminate.
  destruct (numeric a) eqn:Na; [|discriminate].
  destruct (numeric b) eqn:Nb; [|discriminate].
  destruct (numeric c) eqn:Nc; [|discriminate].
  destruct (numeric d) eqn:Nd; [|discriminate].
  destruct (numeric y) eqn:Ny; [|discriminate].
  destruct (numeric x) eqn:Nx; [|discriminate].
  cbn [andb] in C'.
  destruct (modest a) eqn:Ma; [|discriminate].
  destruct (modest b) eqn:Mb; [|discriminate].
  destruct (modest c) eqn:Mc; [|discriminate].
  destruct (modest d) eqn:Md; [|discriminate].
  destruct (modest y) eqn:My; [|discriminate].
  destruct (modest x) eqn:Mx; [|discriminate].
  destruct (numeric_number _ Na) as [qa Ha], (numeric_number _ Nb) as [qb Hb],
    (numeric_number _ Nc) as [qc Hc], (numeric_number _ Nd) as [qd Hd],
    (numeric_number _ Ny) as [qy Hy], (numeric_number _ Nx) as [qx Hx].
  exists fields, a, b, c, d, y, x, text, qa, qb, qc, qd, qy, qx.
  repeat split; auto; try exact T.
  repeat constructor; eapply modest_within; eassumption.
Qed.

Lemma stamp_length w text lcx lcy lx ly tx ty :
  length (stamp w text lcx lcy lx ly tx ty) = 6%nat.
Proof. unfold stamp. now destruct (textbbox w _ _) as [[[? ?] ?] ?]. Qed.

Lemma overlay_plain w width height item :
  plain item -> exists cmds, overlay w width height item = Ok cmds.
Proof.
  intros [C|C].
  - eauto using overlay_skipped.
  - destruct (complete_inv _ C) as (fields & a & b & c & d & y & x & text & qa & qb & qc & qd & qy & qx
      & -> & ? & ? & ? & ? & ? & ? & ? & ? & ? & ?).
    eexists. eapply overlay_complete; eauto.
Qed.

Lemma drawn_plain w width height items :
  Forall plain items ->
  drawn w width height items = (flat_map (marks w width height) items, None).
Proof.
  induction 1 as [|item items U _ IH]; simpl; [reflexivity|].
  unfold marks at 1. destruct (overlay_plain w width height _ U) as [cmds ->].
  now rewrite IH.
Qed.

Lemma truediv_number v d q : truediv v d = Ok q -> numeric v = true.
Proof. unfold truediv, numeric. destruct v as [|[]| | | | |]; simpl; auto; discriminate. Qed.

Lemma add_numeric_r a b s :
  numeric a = true -> add a b = Ok s -> numeric s = true -> numeric b = true.
Proof.
  unfold add, to_float.
  destruct a as [|[]| | | | |], b as [|[]| | | | |]; simpl; try discriminate; intros _;
    try reflexivity; try (intros [= <-]; discriminate).
Qed.

Lemma unpack4_numeric box a b c d :
  unpack4 box = Ok (a, b, c, d) -> numeric a = true -> box = JArr [a; b; c; d].
Proof.
  unfold unpack4. destruct box as [| | | |s|items|fields]; simpl; try discriminate.
  - destruct s as [|c1 [|c2 [|c3 [|c4 [|]]]]]; simpl; try discriminate.
    intros [= <- <- <- <-]. discriminate.
  - destruct items as [|a1 [|a2 [|a3 [|a4 [|]]]]]; simpl; try discriminate.
    now intros [= -> -> -> ->].
  - destruct fields as [|a1 [|a2 [|a3 [|a4 [|]]]]]; simpl; try discriminate.
    intros [= <- <- <- <-]. discriminate.
Qed.

Lemma unpack2_numeric target y x :
  unpack2 target = Ok (y, x) -> numeric y = true -> target = JArr [y; x].
Proof.
  unfold unpack2. destruct target as [| | | |s|items|fields]; simpl; try discriminate.
  - destruct s as [|c1 [|c2 [|]]]; simpl; try discriminate.
    intros [= <- <-]. discriminate.
  - destruct items as [|a1 [|a2 [|]]]; simpl; try discriminate.
    now intros [= -> ->].
  - destruct fields as [|a1 [|a2 [|]]]; simpl; try discriminate.
    intros [= <- <-]. discriminate.
Qed.

(** A finding that the loop body gets through is not broken. *)
Lemma overlay_ok_unbroken w width height item cmds :
  overlay w width height item = Ok cmds -> classify item <> Broken.
Proof.
  destruct item as [| | | | | |fields]; try discriminate.
  unfold overlay, classify, get, default, from_option, id.
  cbv [mbind res_bind mret res_ret]; cbv beta iota.
  destruct (assoc "text" fields) as [[]|]; try discriminate; cbv [upper]; cbv beta iota.
  all: destruct (truthy _ && truthy _); [|discriminate].
  all: set (box := match assoc "label_pos" fields with Some b => b | None => JNull end).
  all: set (target := match assoc "target_pos" fields with Some b => b | None => JNull end).
  all: destruct (unpack4 box) as [[[[a b] c] d]|?] eqn:U4; [|discriminate].
  all: destruct (unpack2 target) as [[y x]|?] eqn:U2; [|discriminate].
  all: destruct (truediv b 1000) eqn:Tb; [|discriminate].
  all: destruct (truediv a 1000) eqn:Ta; [|discriminate].
  all: destruct (truediv x 1000) eqn:Tx; [|discriminate].
  all: destruct (truediv y 1000) eqn:Ty; [|discriminate].
  all: destruct (add b d) as [sx|?] eqn:Ax; [|discriminate].
  all: destruct (truediv sx 2000) eqn:Tsx; [|discriminate].
  all: destruct (add a c) as [sy|?] eqn:Ay; [|discriminate].
  all: destruct (truediv sy 2000) eqn:Tsy; [|discriminate].
  all: intros _.
  all: apply truediv_number in Ta, Tb, Tx, Ty, Tsx, Tsy.
  all: pose proof (add_numeric_r _ _ _ Tb Ax Tsx) as Nd.
  all: pose proof (add_numeric_r _ _ _ Ta Ay Tsy) as Nc.
  all: rewrite (unpack4_numeric _ _ _ _ _ U4 Ta), (unpack2_numeric _ _ _ U2 Ty).
  all: rewrite Ta, Tb, Nc, Nd, Ty, Tx; cbn [andb].
  all: destruct (modest a && modest b && modest c && modest d && modest y && modest x);
    discriminate.
Qed.

Lemma overlay_broken w width height item :
  classify item = Broken -> exists e, overlay w width height item = Raise e.
Proof.
  intros C. destruct (overlay w width height item) as [cmds|e] eqn:E; [|eauto].
  now apply overlay_ok_unbroken in E.
Qed.

Lemma drawn_broken w width height items :
  Exists (fun item => classify item = Broken) items ->
  exists cmds e, drawn w width height items = (cmds, Some e).
Proof.
  induction 1 as [item items B|item items _ IH]; simpl.
  - destruct (overlay_broken w width height _ B) as [e ->]. eauto.
  - destruct (overlay w width height item) as [cmds|e]; [|eauto].
    destruct IH as (more & e & ->). eauto.
Qed.

Lemma get_screenshot_spec w url h :
  get_screenshot w url h =
  match capture w url with
  | Ok data =>
    {| value := Ok (Some (length h)); heap := h ++ [Bytes data]; trace := capture_trace w url |}
  | Raise e =>
    {| value := Ok None; heap := h;
       trace := capture_trace w url ++ [Log ("❌ Firecrawl Error: " +:+ str e)] |}
  end.
Proof.
  unfold get_screenshot, capture, capture_trace. run. unfold try. run.
  destruct (scrape w url) as [r|e]; run; [|reflexivity].
  destruct r as [[[|c u]|]|[[|c u]|]|]; unfold raise; cbn [link]; run; try reflexivity.
  all: destruct (requests_get w _) as [resp|e]; run; [|reflexivity].
  all: destruct (status_code resp =? 200)%N; run; reflexivity.
Qed.

Lemma run_spec w url h :
  run w url h =
  after (Log ("🚀 Starting analysis for: " +:+ url) :: capture_trace w url)
    match capture w url with
    | Raise e =>
      {| value := Ok None; heap := h;
         trace := [Log ("❌ Firecrawl Error: " +:+ str e); Log "❌ Failed to capture screenshot."] |}
    | Ok [] =>
      {| value := Ok None; heap := h ++ [Bytes []];
         trace := [Log "❌ Failed to capture screenshot."] |}
    | Ok data => deliver w url (length h) (h ++ [Bytes data])
    end.
Proof.
  unfold run. run. unfold mbind at 1, M_bind at 1. rewrite get_screenshot_spec.
  destruct (capture w url) as [data|e]; [|unfold captured; run; simpl; now rewrite <- app_assoc].
  unfold captured. rewrite after_after, bind_assoc.
  erewrite bind_read by (now apply list_lookup_middle). run.
  destruct data; run; reflexivity.
Qed.

(** *** Frame: what was on the heap stays as it was *)

Lemma studio_frame h base i x :
  h !! i = Some x -> (studio h base).1 !! i = Some x.
Proof.
  intros L. unfold studio. destruct (String.eqb (mode base) "RGB"); simpl;
    repeat (apply lookup_app_l_Some); assumption.
Qed.

(** The value of [analyze_and_annotate]: the reference it was given, or a
    new buffer that encodes the working picture. *)
Lemma analysis_value w r h :
  exists full out, value (analysis w r h) = Ok (full, out) /\
    (out = r \/
     exists data base cmds,
       h !! r = Some (Bytes data) /\ Image_open w data = Ok base /\
       heap (analysis w r h) !! out = Some (Bytes (save w (working base) cmds))).
Proof.
  unfold analysis.
  destruct (h !! r) as [[data|]|] eqn:R; try (do 2 eexists; split; [reflexivity|now left]).
  destruct (Image_open w data) as [base|e] eqn:O; [|do 2 eexists; split; [reflexivity|now left]].
  destruct (studio h base) as [h1 img].
  destruct (size (working base)) as [width height].
  destruct (generate_content w (working base)) as [e|e|v];
    try (do 2 eexists; split; [reflexivity|now left]).
  destruct (annotations v) as [a|e]; [|do 2 eexists; split; [reflexivity|now left]].
  destruct (iter a) as [items|e]; [|do 2 eexists; split; [reflexivity|now left]].
  destruct (drawn w width height items) as [cmds stop].
  destruct (painted w (working base) cmds) as [done [[c e]|]];
    [do 2 eexists; split; [reflexivity|now left]|].
  destruct stop as [e|]; [do 2 eexists; split; [reflexivity|now left]|].
  do 2 eexists; split; [reflexivity|]. right. exists data, base, done.
  repeat split; auto. simpl. now apply list_lookup_middle.
Qed.

(** *** Traces *)

Lemma value_after {A} t (o : outcome A) : value (after t o) = value o.
Proof. now destruct o. Qed.

Lemma trace_after {A} t (o : outcome A) : trace (after t o) = t ++ trace o.
Proof. now destruct o. Qed.

Section Traces.
Context {A B : Type}.

Lemma bind_trace (m : M A) (k : A -> M B) h :
  trace ((m ≫= k) h) =
  trace (m h) ++ match value (m h) with Ok a => trace (k a (heap (m h))) | Raise _ => [] end.
Proof.
  unfold mbind, M_bind. destruct (m h) as [[a|e] h' t]; simpl.
  - apply trace_after.
  - now rewrite app_nil_r.
Qed.

End Traces.

Lemma staged_app url n t1 n1 t2 n2 :
  staged url n t1 n1 -> staged url n1 t2 n2 -> staged url n (t1 ++ t2) n2.
Proof.
  induction 1; simpl; intros;
    [assumption | apply staged_note | apply staged_enter | apply staged_work]; auto.
Qed.

Lemma staged_works url st tr :
  Forall (fun a => stage_of a = Some st) tr -> staged url (level st) tr (level st).
Proof. induction 1; constructor; auto. Qed.

Ltac note := apply staged_note; [intros []; simpl; discriminate|].
Ltac enter st := apply (staged_enter _ _ st); [simpl; lia|]; simpl level.
Ltac work st := apply (staged_work _ st); [reflexivity|]; simpl level.

Lemma capture_staged w url : staged url 0 (capture_trace w url) 1.
Proof.
  unfold capture_trace. enter Capture. work Capture.
  destruct (scrape w url) as [r|e]; [|constructor].
  destruct (link r) as [[|c u]|]; try constructor.
  - intros []; simpl; discriminate.
  - work Capture. constructor.
Qed.

Lemma draws_staged url img cmds tr n :
  staged url 3 tr n -> staged url 3 (map (Draw img) cmds ++ tr) n.
Proof. intros H. induction cmds; simpl; [assumption|]. now work Render. Qed.

Lemma calls_staged url img done failed tr n :
  staged url 3 tr n -> staged url 3 (calls img done failed ++ tr) n.
Proof.
  intros H. unfold calls. rewrite <- app_assoc. apply draws_staged.
  destruct failed as [[c e]|]; simpl; [now work Render|assumption].
Qed.

Lemma analysis_staged url w r h :
  exists n, staged url 1 (trace (analysis w r h)) n /\ (n < 4)%nat.
Proof.
  unfold analysis, soft.
  destruct (h !! r) as [[data|]|]; simpl.
  2,3: exists 2%nat; split; [|lia]; enter Analyze; note; constructor.
  destruct (Image_open w data) as [base|e]; simpl.
  2: exists 2%nat; split; [|lia]; enter Analyze; work Analyze; note; constructor.
  destruct (studio h base) as [h1 img].
  destruct (size (working base)) as [width height].
  destruct (generate_content w (working base)) as [e|e|v]; simpl.
  1,2: exists 2%nat; split; [|lia]; enter Analyze; do 2 work Analyze; note; constructor.
  destruct (annotations v) as [a|e]; simpl.
  2: exists 2%nat; split; [|lia]; enter Analyze; do 2 work Analyze; note; constructor.
  destruct (iter a) as [items|e]; simpl.
  2: exists 3%nat; split; [|lia]; enter Analyze; do 2 work Analyze; enter Render; note; constructor.
  destruct (drawn w width height items) as [cmds stop].
  destruct (painted w (working base) cmds) as [done [[c e]|]]; [|destruct stop as [e|]]; simpl.
  all: exists 3%nat; split; [|lia]; enter Analyze; do 2 work Analyze; enter Render.
  all: apply calls_staged.
  - note; constructor.
  - note; constructor.
  - work Render. constructor.
Qed.

Lemma report_trace w url full r name h :
  Forall (fun a => stage_of a = Some Assemble) (trace (create_pdf_report w url full r name h)).
Proof.
  unfold create_pdf_report.
  destruct (get full "executive_summary" _) as [x|e]; run; [|constructor].
  destruct (sanitize x) as [summary|e]; run; [|constructor].
  destruct (get full "annotations" _) as [a|e]; run; [|constructor].
  destruct (iter a) as [items|e]; run; [|constructor].
  destruct (findings w items) as [blocks|e]; run; [|constructor].
  unfold mbind at 1, M_bind at 1, read at 1.
  destruct (h !! r) as [[data|]|]; simpl; try constructor.
  run. destruct (open_write w _ data) as [|e]; run; [|repeat constructor].
  destruct (pdf_output w _ name) as [|e]; run; repeat constructor.
Qed.

Lemma deliver_staged url w r h : exists n, staged url 1 (trace (deliver w url r h)) n.
Proof.
  unfold deliver. rewrite bind_trace, analyze_and_annotate_spec.
  destruct (analysis_value w r h) as (full & out & -> & _).
  destruct (analysis_staged url w r h) as (n & St & L).
  eexists. eapply staged_app; [exact St|].
  rewrite bind_log, trace_after. simpl app.
  apply (staged_enter _ _ Assemble); [exact L|]. simpl level.
  rewrite bind_trace.
  eapply staged_app; [apply (staged_works url Assemble), report_trace|].
  simpl level. destruct (value _); [|constructor].
  rewrite bind_log, trace_after. simpl. note. constructor.
Qed.

Lemma run_staged url w h : exists n, staged url 0 (trace (run w url h)) n.
Proof.
  rewrite run_spec, trace_after, <- app_comm_cons.
  assert (T : exists n, staged url 1
    (trace match capture w url with
           | Raise e =>
             {| value := Ok None; heap := h;
                trace := [Log ("❌ Firecrawl Error: " +:+ str e); Log "❌ Failed to capture screenshot."] |}
           | Ok [] =>
             {| value := Ok None; heap := h ++ [Bytes []];
                trace := [Log "❌ Failed to capture screenshot."] |}
           | Ok data => deliver w url (length h) (h ++ [Bytes data])
           end) n).
  { destruct (capture w url) as [[|c data]|e].
    - eexists. simpl. note. constructor.
    - apply deliver_staged.
    - eexists. simpl. do 2 note. constructor. }
  destruct T as [n T]. exists n. note.
  eapply staged_app; [apply capture_staged|exact T].
Qed.

(** *** What a staged trace promises *)

Lemma announcement_inj url st st' :
  announcement url st = announcement url st' -> st = st'.
Proof. destruct st, st'; simpl; intros E; try reflexivity; discriminate. Qed.

Lemma level_inj st st' : level st = level st' -> st = st'.
Proof. destruct st, st'; simpl; intros E; try reflexivity; discriminate. Qed.

Lemma staged_mono url n tr n' : staged url n tr n' -> (n <= n')%nat.
Proof. induction 1; lia. Qed.

Lemma staged_announced url n tr n' st :
  staged url n tr n' -> In (Log (announcement url st)) tr -> (n < level st <= n')%nat.
Proof.
  induction 1 as [n|n m tr n' Hm _ IH|n st0 tr n' Hn Hs IH|st0 a tr n' Ha Hs IH]; simpl.
  - intros [].
  - intros [[= ->]|I]; [now destruct (Hm st)|auto].
  - intros [[= E]|I].
    + apply announcement_inj in E as ->. apply staged_mono in Hs. lia.
    + specialize (IH I). lia.
  - intros [->|I]; [discriminate|auto].
Qed.

Lemma staged_worked url n tr n' a st :
  staged url n tr n' -> In a tr -> stage_of a = Some st -> (n <= level st <= n')%nat.
Proof.
  induction 1 as [n|n m tr n' Hm _ IH|n st0 tr n' Hn Hs IH|st0 a0 tr n' Ha Hs IH]; simpl.
  - intros [].
  - intros [<-|I] W; [discriminate|auto].
  - intros [<-|I] W; [discriminate|]. specialize (IH I W). lia.
  - intros [<-|I] W; [|auto].
    rewrite Ha in W. injection W as <-. apply staged_mono in Hs. lia.
Qed.

Lemma staged_split url n tr n' a st :
  staged url n tr n' -> In a tr -> stage_of a = Some st -> (n < level st)%nat ->
  exists before after n1,
    tr = before ++ Log (announcement url st) :: after /\ In a after /\
    staged url n before n1 /\ (n1 < level st)%nat /\ staged url (level st) after n'.
Proof.
  induction 1 as [n|n m tr n' Hm Hs IH|n st0 tr n' Hn Hs IH|st0 a0 tr n' Ha Hs IH]; simpl.
  - intros [].
  - intros [<-|I] W L; [discriminate|].
    destruct (IH I W L) as (before & after & n1 & -> & Ia & Sb & L1 & Sa).
    exists (Log m :: before), after, n1. repeat split; auto. now apply staged_note.
  - intros [<-|I] W L; [discriminate|].
    pose proof (staged_worked _ _ _ _ _ _ Hs I W) as [Lo _].
    destruct (Nat.eq_dec (level st0) (level st)) as [E|N].
    + apply level_inj in E as ->. exists [], tr, n. repeat split; auto. constructor.
    + destruct (IH I W) as (before & after & n1 & -> & Ia & Sb & L1 & Sa); [lia|].
      exists (Log (announcement url st0) :: before), after, n1. repeat split; auto.
      now apply staged_enter.
  - intros [<-|I] W L.
    + rewrite Ha in W. injection W as <-. lia.
    + destruct (IH I W L) as (before & after & n1 & -> & Ia & Sb & L1 & Sa).
      exists (a0 :: before), after, n1. repeat split; auto. now apply staged_work.
Qed.

Lemma staged_announces url tr n' a st :
  staged url 0 tr n' -> In a tr -> stage_of a = Some st ->
  exists before after,
    tr = before ++ Log (announcement url st) :: after /\ In a after /\
    ~ In (Log (announcement url st)) before /\
    ~ In (Log (announcement url st)) after /\
    Forall (fun b => stage_of b <> Some st) before.
Proof.
  intros S I W.
  destruct (staged_split _ _ _ _ _ _ S I W) as (before & after & n1 & -> & Ia & Sb & L1 & Sa).
  { destruct st; simpl; lia. }
  exists before, after. repeat split; auto.
  - intros J. pose proof (staged_announced _ _ _ _ _ Sb J). lia.
  - intros J. pose proof (staged_announced _ _ _ _ _ Sa J). lia.
  - apply Forall_forall. intros b Ib Wb. apply list_elem_of_In in Ib.
    pose proof (staged_worked _ _ _ _ _ _ Sb Ib Wb). lia.
Qed.

Lemma staged_unapp url t1 : forall n t2 n',
  staged url n (t1 ++ t2) n' -> exists n1, staged url n t1 n1 /\ staged url n1 t2 n'.
Proof.
  induction t1 as [|a t1 IH]; intros n t2 n' S; simpl in S.
  - exists n. split; [constructor|assumption].
  - inversion S as [|? m ? ? Hm Hs|? st ? ? Hn Hs|st ? ? ? Ha Hs]; subst;
      destruct (IH _ _ _ Hs) as (n1 & S1 & S2); exists n1; split; auto.
    + now apply staged_note.
    + now apply staged_enter.
    + now apply staged_work.
Qed.

Lemma staged_once url tr n' st before after :
  staged url 0 tr n' -> tr = before ++ Log (announcement url st) :: after ->
  ~ In (Log (announcement url st)) before /\
  ~ In (Log (announcement url st)) after /\
  Forall (fun b => stage_of b <> Some st) before.
Proof.
  intros S ->. apply staged_unapp in S as (n1 & Sb & Sa).
  assert (L : (n1 < level st)%nat /\ staged url (level st) after n').
  { remember (Log (announcement url st) :: after) as l eqn:El.
    destruct Sa as [n1|n1 m tr n' Hm Hs|n1 st' tr n' Hn Hs|st' a tr n' Ha Hs];
      try discriminate El; injection El as E ->.
    - now destruct (Hm st).
    - apply announcement_inj in E as ->. auto.
    - subst a. discriminate. }
  destruct L as [L Sa']. repeat split.
  - intros J. pose proof (staged_announced _ _ _ _ _ Sb J). lia.
  - intros J. pose proof (staged_announced _ _ _ _ _ Sa' J). lia.
  - apply Forall_forall. intros b Ib Wb. apply list_elem_of_In in Ib.
    pose proof (staged_worked _ _ _ _ _ _ Sb Ib Wb). lia.
Qed.

Lemma overlay_mapped w width height fields ymin xmin ymax xmax y x text q1 q2 q3 q4 q5 q6 :
  assoc "label_pos" fields = Some (JArr [ymin; xmin; ymax; xmax]) ->
  assoc "target_pos" fields = Some (JArr [y; x]) ->
  default (JStr "") (assoc "text" fields) = JStr text ->
  number ymin = Some q1 -> number xmin = Some q2 -> number ymax = Some q3 ->
  number xmax = Some q4 -> number y = Some q5 -> number x = Some q6 ->
  Forall within [q1; q2; q3; q4; q5; q6] ->
  exists lcx lcy,
    (lcx == center q2 q4 (Qz width))%Q /\ (lcy == center q1 q3 (Qz height))%Q /\
    overlay w width height (JObj fields) =
    Ok (stamp w (str_upper w text) lcx lcy
          (mapper q2 (Qz width)) (mapper q1 (Qz height))
          (mapper q6 (Qz width)) (mapper q5 (Qz height))).
Proof.
  intros Hbox Hpt Htext H1 H2 H3 H4 H5 H6 B.
  exists (plus xmin xmax / 2000 * Qz width)%Q, (plus ymin ymax / 2000 * Qz height)%Q.
  split; [|split].
  - unfold center. rewrite (plus_sum _ _ _ _ H2 H4). field.
  - unfold center. rewrite (plus_sum _ _ _ _ H1 H3). field.
  - eapply overlay_complete; eassumption.
Qed.

Lemma range_within qs :
  Forall (fun c => 0 <= c <= 1000)%Q qs -> Forall within qs.
Proof.
  intros F. eapply Forall_impl; [exact F|]. intros q [L U]. unfold within.
  assert (E : (1000 < exact_limit)%Q) by reflexivity. split; lra.
Qed.

Lemma studio_extends h base :
  exists extra k, studio h base = (h ++ extra, length h + k)%nat.
Proof.
  unfold studio. destruct (String.eqb (mode base) "RGB").
  - exists [Picture base []], 0%nat. now rewrite Nat.add_0_r.
  - exists [Picture base []; Picture (convert base "RGB") []], 1%nat.
    now rewrite <- app_assoc, Nat.add_1_r.
Qed.

Lemma analysis_extends w r h : exists fresh, heap (analysis w r h) = h ++ fresh.
Proof.
  assert (Same : exists fresh, h = h ++ fresh) by (exists []; now rewrite app_nil_r).
  unfold analysis.
  destruct (h !! r) as [[data|]|]; try exact Same.
  destruct (Image_open w data) as [base|e]; [|exact Same].
  destruct (studio_extends h base) as (extra & k & ->).
  destruct (size (working base)) as [width height].
  destruct (generate_content w (working base)) as [e|e|v]; simpl; eauto.
  destruct (annotations v) as [a|e]; simpl; eauto.
  destruct (iter a) as [items|e]; simpl; eauto.
  destruct (drawn w width height items) as [cmds stop].
  destruct (painted w (working base) cmds) as [done [[c e]|]]; [|destruct stop as [e|]];
    simpl; rewrite insert_app_r; eauto.
  rewrite <- app_assoc. eauto.
Qed.

Lemma messages_app t1 t2 : messages (t1 ++ t2) = messages t1 ++ messages t2.
Proof. induction t1 as [|[] t1 IH]; simpl; congruence. Qed.

Lemma progress_generator_spec w sched url :
  init w = Ok () ->
  progress_generator w sched url =
  Some (map Progress (messages (trace (run w url []))) ++ [terminal (value (run w url []))]).
Proof. intros I. unfold progress_generator. rewrite I. apply stream_spec. Qed.

Lemma capture_trace_stages w url :
  Forall (fun a => stage_of a = None \/ stage_of a = Some Capture) (capture_trace w url).
Proof.
  unfold capture_trace. constructor; [now left|]. constructor; [now right|].
  destruct (scrape w url) as [r|e]; [|constructor].
  destruct (link r) as [[|c u]|]; try constructor.
  - now left.
  - constructor; [now right|constructor].
Qed.

Lemma analysis_malformed w r h data base e :
  h !! r = Some (Bytes data) -> Image_open w data = Ok base ->
  generate_content w (working base) = Malformed e ->
  analysis w r h = soft r (studio h base).1 [Open r; Generate] e.
Proof.
  intros R O G. unfold analysis. rewrite R, O.
  destruct (studio h base) as [h1 img]. destruct (size (working base)). now rewrite G.
Qed.

Lemma report_blank w url r name h data :
  h !! r = Some (Bytes data) ->
  (forall path d, open_write w path d = Ok ()) ->
  (forall doc file, pdf_output w doc file = Ok ()) ->
  exists doc temp,
    create_pdf_report w url (JObj []) r name h =
    {| value := Ok (); heap := h;
       trace := [WriteFile temp data; PdfOutput doc name; Remove temp] |} /\
    In (MultiCell 0 10 "No summary available.") doc /\
    (forall n d x y z, In (PdfImage n d x y z) doc -> d = data).
Proof.
  intros R Wr Out. unfold create_pdf_report.
  unfold get, sanitize. simpl assoc. cbv iota. run.
  unfold iter, elements. run. simpl findings. unfold mret at 1, res_ret. run.
  change (latin1 0 "No summary available.") with "No summary available.".
  rewrite (bind_read _ _ _ _ R). run. rewrite Wr. run. rewrite Out. run.
  do 2 eexists. split; [reflexivity|]. split.
  - simpl. tauto.
  - intros n d x y z. destruct (pdf_image w data); simpl; intuition congruence.
Qed.

Lemma path_join_nonempty a c b : exists c' s, path_join a (String c b) = String c' s.
Proof.
  unfold path_join. destruct a as [|c' a]; simpl; [eauto|].
  destruct (match a with "" => Ascii.eqb c' "/" | String _ _ => ends_with_slash a end); simpl; eauto.
Qed.

Lemma run_malformed w url data base e :
  capture w url = Ok data -> data <> [] ->
  Image_open w data = Ok base ->
  generate_content w (working base) = Malformed e ->
  (forall path d, open_write w path d = Ok ()) ->
  (forall doc file, pdf_output w doc file = Ok ()) ->
  exists doc temp c s,
    run w url [] =
    {| value := Ok (Some (String c s)); heap := (studio [Bytes data] base).1;
       trace := (Log ("🚀 Starting analysis for: " +:+ url) :: capture_trace w url) ++
                [ Log "🧠 Analyzing image with Gemini Vision..."; Open 0; Generate;
                  Log ("❌ Gemini/Annotation Error: " +:+ str e);
                  Log "📄 Generating PDF Report...";
                  WriteFile temp data; PdfOutput doc (String c s); Remove temp;
                  Log ("✅ Report generated: " +:+ String c s) ] |} /\
    In (MultiCell 0 10 "No summary available.") doc /\
    (forall n d x y z, In (PdfImage n d x y z) doc -> d = data).
Proof.
  intros C N O G Wr Out. rewrite run_spec, C.
  destruct (path_join_nonempty (gettempdir w) "a" ("udit_report_" +:+ dec (time w) +:+ ".pdf"))
    as (c & s & P).
  assert (R : [Bytes data] !! 0%nat = Some (Bytes data)) by reflexivity.
  destruct (report_blank w url _ (String c s) _ _ (studio_frame _ base _ _ R) Wr Out)
    as (doc & temp & Rep & Hs & Hi).
  exists doc, temp, c, s. split; [|auto].
  destruct data as [|b data]; [congruence|].
  unfold deliver. unfold mbind at 1, M_bind at 1.
  change ([] ++ [Bytes (b :: data)]) with [Bytes (b :: data)].
  change (length (@nil obj)) with 0%nat.
  rewrite analyze_and_annotate_spec, (analysis_malformed _ _ _ _ _ _ R O G). unfold soft.
  run.
  change ("audit_report_" +:+ dec (time w) +:+ ".pdf")
    with (String "a" ("udit_report_" +:+ dec (time w) +:+ ".pdf")).
  rewrite P. unfold mbind at 1, M_bind at 1. rewrite Rep. run.
  cbn [after app]. reflexivity.
Qed.

End AgentFacts.

(** ** The report, the paths and the analysis path by path *)

Module MoreFacts.
Import Py Agent Server Spec Fixtures BridgeFacts AgentFacts.


Lemma create_pdf_report_spec w url full r name h :
  create_pdf_report w url full r name h = report w url full r name h.
Proof.
  unfold create_pdf_report, report, page_one, report_doc, temp_name.
  destruct (get full "executive_summary" _) as [x|e]; run; [|reflexivity].
  destruct (sanitize x) as [summary|e]; run; [|reflexivity].
  destruct (get full "annotations" _) as [a|e]; run; [|reflexivity].
  destruct (iter a) as [items|e]; run; [|reflexivity].
  destruct (findings w items) as [blocks|e]; run; [|reflexivity].
  unfold mbind at 1, M_bind at 1, read at 1.
  destruct (h !! r) as [[data|]|]; try reflexivity.
  cbn [lift after]. run.
  destruct (open_write w _ data) as [|e]; run; [|reflexivity].
  destruct (pdf_output w _ name) as [|e]; run; reflexivity.
Qed.

Lemma bind_value {A B} (m : M A) (k : A -> M B) h :
  value ((m ≫= k) h) =
  match value (m h) with Ok a => value (k a (heap (m h))) | Raise e => Raise e end.
Proof.
  unfold mbind, M_bind. destruct (m h) as [[a|e] h' t]; simpl; [apply value_after|reflexivity].
Qed.

(** [deliver] in terms of the analysis and the report. *)
Lemma deliver_value w url r h :
  value (deliver w url r h) =
  match value (analysis w r h) with
  | Ok (full, out) =>
    match value (report w url full out (report_path w) (heap (analysis w r h))) with
    | Ok _ => Ok (Some (report_path w))
    | Raise e => Raise e
    end
  | Raise e => Raise e
  end.
Proof.
  unfold deliver. rewrite bind_value, analyze_and_annotate_spec.
  destruct (value (analysis w r h)) as [[full out]|e]; [|reflexivity].
  rewrite bind_log, value_after, bind_value, create_pdf_report_spec.
  fold (report_name w). fold (report_path w).
  destruct (value (report w url full out (report_path w) (heap (analysis w r h)))); [|reflexivity].
  now rewrite bind_log, value_after.
Qed.

Lemma deliver_trace w url r h :
  trace (deliver w url r h) =
  trace (analysis w r h) ++
  match value (analysis w r h) with
  | Ok (full, out) =>
    Log "📄 Generating PDF Report..." ::
    trace (report w url full out (report_path w) (heap (analysis w r h))) ++
    match value (report w url full out (report_path w) (heap (analysis w r h))) with
    | Ok _ => [Log ("✅ Report generated: " +:+ report_path w)]
    | Raise _ => []
    end
  | Raise _ => []
  end.
Proof.
  unfold deliver. rewrite bind_trace, analyze_and_annotate_spec.
  destruct (value (analysis w r h)) as [[full out]|e]; [|reflexivity].
  rewrite bind_log, trace_after, bind_trace, create_pdf_report_spec.
  fold (report_name w). fold (report_path w).
  destruct (value (report w url full out (report_path w) (heap (analysis w r h)))); [|reflexivity].
  now rewrite bind_log, trace_after.
Qed.


(** *** Paths *)

Lemma has_slash_app a b : has_slash (a +:+ b) = has_slash a || has_slash b.
Proof. induction a as [|c a IH]; simpl; [reflexivity|]. now rewrite IH, orb_assoc. Qed.

Lemma basename_plain n : has_slash n = false -> basename n = n.
Proof.
  destruct n as [|c n]; simpl; [reflexivity|]. intros H. now rewrite H.
Qed.

Lemma basename_no_slash p : has_slash (basename p) = false.
Proof.
  induction p as [|c p IH]; simpl; [reflexivity|].
  destruct (Ascii.eqb c "/" || has_slash p) eqn:E; [assumption|]. simpl. exact E.
Qed.

Lemma basename_after_slash a n :
  ends_with_slash a = true -> has_slash n = false -> basename (a +:+ n) = n.
Proof.
  intros E N. induction a as [|c a IH]; [discriminate|].
  simpl in E. destruct a as [|c' a'].
  - simpl. rewrite E. simpl. now apply basename_plain.
  - specialize (IH E).
    change (basename (String c (String c' a') +:+ n))
      with (if Ascii.eqb c "/" || has_slash (String c' a' +:+ n)
            then basename (String c' a' +:+ n) else String c (String c' a' +:+ n)).
    replace (Ascii.eqb c "/" || has_slash (String c' a' +:+ n)) with true; [exact IH|].
    rewrite has_slash_app. clear -E. symmetry.
    assert (has_slash (String c' a') = true) as ->.
    { revert c' E. induction a' as [|c2 a2 IH2]; intros c' E; simpl in *.
      - now rewrite E.
      - rewrite (IH2 _ E). apply orb_true_r. }
    now rewrite orb_true_r.
Qed.

Lemma basename_join a n : has_slash n = false -> basename (path_join a n) = n.
Proof.
  intros N. unfold path_join. destruct (String.eqb a ""); [now apply basename_plain|].
  destruct (ends_with_slash a) eqn:E; [now apply basename_after_slash|].
  replace (a +:+ "/" +:+ n) with ((a +:+ "/") +:+ n).
  - apply basename_after_slash; [|assumption]. clear. induction a as [|c [|c' a] IH]; auto.
  - clear. induction a as [|c a IH]; [reflexivity|].
    change (String c ((a +:+ "/") +:+ n) = String c (a +:+ "/" +:+ n)). now rewrite IH.
Qed.

Lemma digits_no_slash d : has_slash (NilEmpty.string_of_uint d) = false.
Proof. induction d; simpl; auto. Qed.

Lemma report_name_no_slash w : has_slash (report_name w) = false.
Proof.
  unfold report_name, dec. rewrite !has_slash_app, digits_no_slash. reflexivity.
Qed.

Lemma basename_report w : basename (report_path w) = report_name w.
Proof. apply basename_join, report_name_no_slash. Qed.

Lemma report_path_nonempty w : exists c s, report_path w = String c s.
Proof. apply (path_join_nonempty (gettempdir w) "a"). Qed.

Lemma terminal_report w :
  terminal (Ok (Some (report_path w))) = Complete ("api/download/" +:+ report_name w).
Proof.
  destruct (report_path_nonempty w) as (c & s & E). unfold terminal.
  rewrite <- (basename_report w). now rewrite E.
Qed.


(** *** What the analysis hands to the report *)

(** The analysis ends in its [except] branch, with an empty result and
    the buffer it was given, or with the decoded reply and a new buffer
    that encodes everything the findings drew. *)
Lemma analysis_result w r h full out :
  value (analysis w r h) = Ok (full, out) ->
  (full = JObj [] /\ out = r) \/
  (exists data base a items cmds,
     h !! r = Some (Bytes data) /\ Image_open w data = Ok base /\
     generate_content w (working base) = Structured full /\
     annotations full = Ok a /\ iter a = Ok items /\
     drawn w (size (working base)).1 (size (working base)).2 items = (cmds, None) /\
     heap (analysis w r h) !! out = Some (Bytes (save w (working base) cmds))).
Proof.
  unfold analysis.
  destruct (h !! r) as [[data|]|] eqn:R; try (intros [= <- <-]; now left).
  destruct (Image_open w data) as [base|e] eqn:O; [|intros [= <- <-]; now left].
  destruct (studio h base) as [h1 img].
  destruct (size (working base)) as [width height] eqn:Sz.
  destruct (generate_content w (working base)) as [e|e|v] eqn:G;
    try (intros [= <- <-]; now left).
  destruct (annotations v) as [a|e] eqn:An; [|intros [= <- <-]; now left].
  destruct (iter a) as [items|e] eqn:I; [|intros [= <- <-]; now left].
  destruct (drawn w width height items) as [cmds stop] eqn:D.
  destruct (painted w (working base) cmds) as [done [[c e]|]] eqn:P;
    [intros [= <- <-]; now left|].
  destruct stop as [e|]; [intros [= <- <-]; now left|].
  apply painted_none in P as ->.
  intros [= <- <-]. right. exists data, base, a, items, cmds. rewrite Sz.
  repeat split; auto. simpl. now apply list_lookup_middle.
Qed.

Lemma overlay_object w width height item cmds :
  overlay w width height item = Ok cmds -> exists fields, item = JObj fields.
Proof. destruct item; try discriminate. eauto. Qed.

Lemma drawn_objects w width height items cmds :
  drawn w width height items = (cmds, None) ->
  Forall (fun item => exists fields, item = JObj fields) items.
Proof.
  revert cmds. induction items as [|item items IH]; intros cmds; simpl; [constructor|].
  destruct (overlay w width height item) as [c|e] eqn:O; [|discriminate].
  destruct (drawn w width height items) as [more stop]. intros [= _ ->].
  constructor; eauto using overlay_object.
Qed.

(** The findings loop of the report gets through a list of objects, with
    twelve layout calls for each. *)
Lemma findings_objects w items :
  Forall (fun item => exists fields, item = JObj fields) items ->
  exists blocks, findings w items = Ok blocks /\ length blocks = (12 * length items)%nat.
Proof.
  induction 1 as [|item items [fields ->] _ (blocks & E & L)]; simpl.
  - now exists [].
  - rewrite E. eexists. split; [reflexivity|]. simpl length. rewrite L. lia.
Qed.

Lemma page_one_empty w : page_one w (JObj []) = Ok ("No summary available.", []).
Proof. reflexivity. Qed.

Lemma annotations_inv v a :
  annotations v = Ok a ->
  exists x, get v "executive_summary" (JStr "No summary available.") = Ok x /\
            get v "annotations" (JArr []) = Ok a.
Proof.
  unfold annotations, get. destruct v; try discriminate. intros E. eauto.
Qed.

(** After an analysis that drew its findings, the first page can fail
    only on a summary that is not a string. *)
Lemma page_one_analysed w v a items cmds width height :
  annotations v = Ok a -> iter a = Ok items -> drawn w width height items = (cmds, None) ->
  exists x blocks,
    get v "executive_summary" (JStr "No summary available.") = Ok x /\
    findings w items = Ok blocks /\ length blocks = (12 * length items)%nat /\
    page_one w v = match sanitize x with
                   | Ok summary => Ok (summary, blocks)
                   | Raise e => Raise e
                   end.
Proof.
  intros An I D. destruct (annotations_inv _ _ An) as (x & Gx & Ga).
  destruct (findings_objects w items (drawn_objects _ _ _ _ _ D)) as (blocks & F & L).
  exists x, blocks. repeat split; auto.
  unfold page_one. rewrite Gx. destruct (sanitize x); [|reflexivity].
  now rewrite Ga, I, F.
Qed.

Lemma latin1_latin s : latin s = true -> latin1 0 s = s.
Proof.
  induction s as [|c s IH]; simpl; [reflexivity|].
  intros H. apply andb_true_iff in H as [C L]. now rewrite C, IH.
Qed.

Lemma latin_latin1 s : forall skip, latin (latin1 skip s) = true.
Proof.
  induction s as [|c s IH]; intros skip; simpl; [reflexivity|].
  destruct skip; [|apply IH].
  destruct (nat_of_ascii c <? 196)%nat eqn:C; simpl; [now rewrite C, IH|].
  destruct (nat_of_ascii c <? 224)%nat; simpl; [apply IH|].
  destruct (nat_of_ascii c <? 240)%nat; simpl; apply IH.
Qed.

(** What the report finds after any analysis: a first page that fails
    only on a summary that is not a string, and a byte buffer behind the
    reference it is given. *)
Lemma report_after_analysis w r h data full out :
  h !! r = Some (Bytes data) ->
  value (analysis w r h) = Ok (full, out) ->
  (exists d, heap (analysis w r h) !! out = Some (Bytes d)) /\
  ((exists summary blocks, page_one w full = Ok (summary, blocks)) \/
   (exists e x base,
      page_one w full = Raise e /\ generate_content w base = Structured full /\
      get full "executive_summary" (JStr "No summary available.") = Ok x /\
      sanitize x = Raise e)).
Proof.
  intros R V. destruct (analysis_result _ _ _ _ _ V)
    as [[-> ->]|(d & base & a & items & cmds & _ & _ & G & An & I & D & L)].
  - split.
    + destruct (analysis_extends w r h) as [fresh ->]. eauto using lookup_app_l_Some.
    + left. rewrite page_one_empty. eauto.
  - split; [eauto|].
    destruct (page_one_analysed w _ _ _ _ _ _ An I D) as (x & blocks & Gx & _ & _ & P).
    destruct (sanitize x) as [summary|e] eqn:S; [left; eauto|].
    right. exists e, x, (working base). auto.
Qed.

Lemma run_captured w url b data :
  capture w url = Ok (b :: data) ->
  value (run w url []) = value (deliver w url 0 [Bytes (b :: data)]) /\
  trace (run w url []) =
  (Log ("🚀 Starting analysis for: " +:+ url) :: capture_trace w url) ++
  trace (deliver w url 0 [Bytes (b :: data)]).
Proof. intros C. now rewrite run_spec, C, value_after, trace_after. Qed.

Lemma analysis_drawn w r h data base v a items :
  h !! r = Some (Bytes data) -> Image_open w data = Ok base ->
  generate_content w (working base) = Structured v ->
  annotations v = Ok a -> iter a = Ok items ->
  analysis w r h =
  let cmds := (drawn w (size base).1 (size base).2 items).1 in
  let done := (painted w (working base) cmds).1 in
  let failed := (painted w (working base) cmds).2 in
  let h2 := <[(studio h base).2 := Picture (working base) done]> (studio h base).1 in
  let tr := [Open r; Generate; Log "🎨 Drawing annotations on image..."] ++
            calls (studio h base).2 done failed in
  match failed, (drawn w (size base).1 (size base).2 items).2 with
  | Some (_, e), _ | None, Some e => soft r h2 tr e
  | None, None =>
    {| value := Ok (v, length h2);
       heap := h2 ++ [Bytes (save w (working base) done)];
       trace := Log "🧠 Analyzing image with Gemini Vision..." :: tr ++ [Save (studio h base).2] |}
  end.
Proof.
  intros R O G An I. unfold analysis. rewrite R, O, size_working, G, An, I.
  destruct (studio h base) as [h1 img]. destruct (size base) as [width height].
  cbn [fst snd]. destruct (drawn w width height items) as [cmds stop]. cbn [fst snd].
  now destruct (painted w (working base) cmds) as [done [[c e]|]], stop.
Qed.

Lemma messages_draws img cmds : messages (map (Draw img) cmds) = [].
Proof. induction cmds; simpl; auto. Qed.

Lemma messages_calls img done failed : messages (calls img done failed) = [].
Proof.
  unfold calls. rewrite messages_app, messages_draws. now destruct failed as [[c e]|].
Qed.

Lemma calls_draw img done failed act :
  In act (calls img done failed) -> exists cmd, act = Draw img cmd.
Proof.
  unfold calls. rewrite in_app_iff, in_map_iff. intros [(c & <- & _)|J]; [eauto|].
  destruct failed as [[c e]|]; [|destruct J]. destruct J as [<-|[]]. eauto.
Qed.

(** An analysis whose findings are plain and whose drawing calls all
    return. *)
Lemma analysis_plain w r h data base v a items :
  h !! r = Some (Bytes data) -> Image_open w data = Ok base ->
  generate_content w (working base) = Structured v ->
  annotations v = Ok a -> iter a = Ok items ->
  Forall plain items ->
  Forall (fun cmd => paint w (working base) cmd = Ok ())
    (flat_map (marks w (size base).1 (size base).2) items) ->
  exists out img,
    value (analysis w r h) = Ok (v, out) /\
    heap (analysis w r h) !! out =
    Some (Bytes (save w (working base) (flat_map (marks w (size base).1 (size base).2) items))) /\
    trace (analysis w r h) =
    [Log "🧠 Analyzing image with Gemini Vision..."; Open r; Generate;
     Log "🎨 Drawing annotations on image..."] ++
    map (Draw img) (flat_map (marks w (size base).1 (size base).2) items) ++ [Save img].
Proof.
  intros R O G An I U P. rewrite (analysis_drawn _ _ _ _ _ _ _ _ R O G An I).
  rewrite (drawn_plain w _ _ _ U). cbn [fst snd]. rewrite (painted_all _ _ _ P).
  cbn [fst snd value heap trace]. unfold calls. rewrite app_nil_r.
  eexists _, _. split; [reflexivity|]. split; [now apply list_lookup_middle|reflexivity].
Qed.

(** An analysis stopped in its loop: by the lookups or the arithmetic of a
    finding, or by a drawing call that raises. *)
Lemma analysis_abandoned w r h data base v a items :
  h !! r = Some (Bytes data) -> Image_open w data = Ok base ->
  generate_content w (working base) = Structured v ->
  annotations v = Ok a -> iter a = Ok items ->
  (drawn w (size base).1 (size base).2 items).2 <> None \/
  (painted w (working base) (drawn w (size base).1 (size base).2 items).1).2 <> None ->
  exists done failed e img,
    value (analysis w r h) = Ok (JObj [], r) /\
    heap (analysis w r h) !! r = Some (Bytes data) /\
    trace (analysis w r h) =
    [Log "🧠 Analyzing image with Gemini Vision..."; Open r; Generate;
     Log "🎨 Drawing annotations on image..."] ++
    calls img done failed ++ [Log ("❌ Gemini/Annotation Error: " +:+ str e)].
Proof.
  intros R O G An I B.
  assert (L : heap (analysis w r h) !! r = Some (Bytes data)).
  { destruct (analysis_extends w r h) as [fresh ->]. now apply lookup_app_l_Some. }
  revert L. rewrite (analysis_drawn _ _ _ _ _ _ _ _ R O G An I).
  destruct (drawn w (size base).1 (size base).2 items) as [cmds stop]. cbn [fst snd] in *.
  destruct (painted w (working base) cmds) as [done [[c e]|]]; cbn [fst snd] in *.
  - cbn [value heap trace soft]. intros L.
    exists done, (Some (c, e)), e, (studio h base).2. auto.
  - destruct stop as [e|]; [|now destruct B].
    cbn [value heap trace soft]. intros L.
    exists done, None, e, (studio h base).2. auto.
Qed.

Lemma analysis_broken w r h data base v a items :
  h !! r = Some (Bytes data) -> Image_open w data = Ok base ->
  generate_content w (working base) = Structured v ->
  annotations v = Ok a -> iter a = Ok items ->
  Exists (fun item => classify item = Broken) items ->
  exists done failed e img,
    value (analysis w r h) = Ok (JObj [], r) /\
    heap (analysis w r h) !! r = Some (Bytes data) /\
    trace (analysis w r h) =
    [Log "🧠 Analyzing image with Gemini Vision..."; Open r; Generate;
     Log "🎨 Drawing annotations on image..."] ++
    calls img done failed ++ [Log ("❌ Gemini/Annotation Error: " +:+ str e)].
Proof.
  intros R O G An I B. apply (analysis_abandoned _ _ _ _ _ _ _ _ R O G An I).
  left. destruct (drawn_broken w (size base).1 (size base).2 _ B) as (cmds & e & ->).
  discriminate.
Qed.

Lemma mapper_range c d : (0 <= c <= 1000 -> 0 <= d -> 0 <= mapper c d <= d)%Q.
Proof.
  unfold mapper. intros [L U] D.
  assert (E : (c / 1000 == c * (1 # 1000))%Q) by field.
  rewrite E.
  assert (T : (0 <= c * (1 # 1000) <= 1)%Q) by (split; lra).
  nra.
Qed.

Lemma center_range lo hi d :
  (0 <= lo <= 1000 -> 0 <= hi <= 1000 -> 0 <= d -> 0 <= center lo hi d <= d)%Q.
Proof.
  unfold center. intros [L U] [L' U'] D.
  assert (E : ((lo + hi) / 2 / 1000 == (lo + hi) * (1 # 2000))%Q) by field.
  rewrite E.
  assert (T : (0 <= (lo + hi) * (1 # 2000) <= 1)%Q) by (split; lra).
  nra.
Qed.

Lemma finding_no_image w item block n d x y z :
  finding w item = Ok block -> ~ In (PdfImage n d x y z) block.
Proof.
  unfold finding, get. destruct item; try discriminate.
  cbv [mbind res_bind mret res_ret]; cbv beta iota.
  intros [= <-]. simpl. intuition discriminate.
Qed.

Lemma findings_no_image w items : forall blocks n d x y z,
  findings w items = Ok blocks -> ~ In (PdfImage n d x y z) blocks.
Proof.
  induction items as [|item items IH]; intros blocks n d x y z; simpl.
  - intros [= <-]. auto.
  - destruct (finding w item) as [block|e] eqn:F; [|discriminate].
    destruct (findings w items) as [more|e]; [|discriminate].
    cbv [mbind res_bind mret res_ret]. intros [= <-]. rewrite in_app_iff.
    intros [J|J]; [exact (finding_no_image _ _ _ _ _ _ _ _ F J)|exact (IH _ _ _ _ _ _ eq_refl J)].
Qed.

Lemma page_one_findings w full summary blocks :
  page_one w full = Ok (summary, blocks) -> exists items, findings w items = Ok blocks.
Proof.
  unfold page_one.
  destruct (get full "executive_summary" _) as [x|]; [|discriminate].
  destruct (sanitize x) as [cleaned|]; [|discriminate].
  destruct (get full "annotations" _) as [listed|]; [|discriminate].
  destruct (iter listed) as [items|]; [|discriminate].
  destruct (findings w items) as [found|] eqn:F; [|discriminate].
  intros [= _ <-]. eauto.
Qed.

Lemma log_messages m tr : In (Log m) tr <-> In m (messages tr).
Proof.
  induction tr as [|a tr IH]; simpl; [tauto|].
  destruct a; simpl; rewrite <- IH; intuition (try discriminate; try congruence).
Qed.

Lemma messages_work tr st :
  Forall (fun a => stage_of a = Some st) tr -> messages tr = [].
Proof. induction 1 as [|a tr W _ IH]; [reflexivity|]. destruct a; try discriminate; exact IH. Qed.

Lemma analysis_announces url w r h data st :
  h !! r = Some (Bytes data) ->
  In (announcement url st) (messages (trace (analysis w r h))) <->
  st = Analyze \/ (st = Render /\ drawing w data = true).
Proof.
  intros R. unfold analysis, drawing, soft. rewrite R.
  destruct (Image_open w data) as [base|e].
  2: { destruct st; simpl; intuition (try discriminate; try congruence). }
  destruct (studio h base) as [h1 img].
  destruct (size (working base)) as [width height].
  destruct (generate_content w (working base)) as [e|e|v].
  1,2: destruct st; simpl; intuition (try discriminate; try congruence).
  destruct (annotations v) as [a|e].
  2: destruct st; simpl; intuition (try discriminate; try congruence).
  destruct (iter a) as [items|e].
  2: destruct st; simpl; intuition (try discriminate; try congruence).
  destruct (drawn w width height items) as [cmds stop].
  destruct (painted w (working base) cmds) as [done [[c e]|]]; [|destruct stop as [e|]];
    cbn [trace messages app]; rewrite ?messages_app, messages_calls;
    destruct st; simpl; intuition (try discriminate; try congruence).
Qed.

Lemma run_announces w url h st :
  In (Log (announcement url st)) (trace (run w url h)) <-> enters w url st = true.
Proof.
  rewrite log_messages, run_spec, trace_after, messages_app.
  unfold enters.
  assert (C : In (announcement url st)
                (messages (Log ("🚀 Starting analysis for: " +:+ url) :: capture_trace w url)) <->
              st = Capture).
  { unfold capture_trace. destruct (scrape w url) as [res|e]; [destruct (link res) as [[|c u]|]|];
      destruct st; simpl; intuition (try discriminate; try congruence). }
  rewrite in_app_iff, C. clear C.
  destruct (capture w url) as [[|b data]|e].
  - destruct st; simpl; intuition (try discriminate; try congruence).
  - rewrite deliver_trace, messages_app.
    destruct (analysis_value w (length h) (h ++ [Bytes (b :: data)])) as (full & out & V & _).
    rewrite V, in_app_iff.
    rewrite (analysis_announces url w _ _ (b :: data) st) by (now apply list_lookup_middle).
    cbn [messages]. rewrite messages_app.
    rewrite (messages_work _ Assemble)
      by (rewrite <- create_pdf_report_spec; apply report_trace).
    destruct (value (report w url full out (report_path w) _));
      destruct st; simpl; intuition (try discriminate; try congruence).
  - destruct st; simpl; intuition (try discriminate; try congruence).
Qed.

Lemma drawn_raises w width height items item e :
  In item items -> overlay w width height item = Raise e ->
  (drawn w width height items).2 <> None.
Proof.
  induction items as [|first items IH]; simpl; [intros []|].
  intros [->|I] E.
  - now rewrite E.
  - destruct (overlay w width height first) as [cmds|e']; [|discriminate].
    specialize (IH I E). now destruct (drawn w width height items) as [more stop].
Qed.

(** The first of a sequence of drawing calls is made, whatever comes of
    it. *)
Lemma calls_head w img base cmd rest :
  hd_error (calls img (painted w base (cmd :: rest)).1 (painted w base (cmd :: rest)).2) =
  Some (Draw img cmd).
Proof.
  simpl. destruct (paint w base cmd); [|reflexivity].
  now destruct (painted w base rest) as [done failed].
Qed.

Lemma annotate_spec w img width height item cmds base overlays h :
  overlay w width height item = Ok cmds ->
  h !! img = Some (Picture base overlays) ->
  annotate w img width height item h =
  {| value := match (painted w base cmds).2 with None => Ok () | Some (_, e) => Raise e end;
     heap := <[img := Picture base (overlays ++ (painted w base cmds).1)]> h;
     trace := calls img (painted w base cmds).1 (painted w base cmds).2 |}.
Proof.
  intros E L. unfold annotate. rewrite E, bind_ok. now apply draw_all.
Qed.

End MoreFacts.

(** ** The claims *)

Import Py Agent Server Spec Fixtures BridgeFacts AgentFacts MoreFacts.

(** C1.  Whatever the event loop's schedule, the generator's output for a
    task that performs [script] and ends with [result] is the progress
    messages of [script], each once and in the order they were logged,
    followed by exactly one terminal event, made from [result]: the
    complete event with the link to the report when the task returned a
    path, the error event "Analysis failed" when it returned nothing, and
    the error event with the text of the exception when it raised.
    Nothing is dropped, repeated or sent after the terminal event. *)
Theorem stream_delivers_in_order sched script result :
  stream sched script result =
  Some (map Progress (messages script) ++
        [match result with
         | Ok (Some (String c rest)) =>
           Complete ("api/download/" +:+ basename (String c rest))
         | Ok (Some EmptyString) | Ok None => Error "Analysis failed"
         | Raise e => Error (str e)
         end]) /\
  is_terminal (terminal result) = true /\
  Forall (fun e => is_terminal e = false) (map Progress (messages script)).
Proof.
  split; [|split].
  - rewrite stream_spec. now destruct result as [[[|c name]|]|e].
  - destruct result as [[[|c name]|]|e]; reflexivity.
  - apply Forall_forall. intros e I. apply list_elem_of_In, in_map_iff in I as (m & <- & _).
    reflexivity.
Qed.

(** C2, as the specification words it, fails: of the two findings
    [inside] and [short_box] the first renders by itself (six drawing
    calls), the second raises when its box of three coordinates is
    unpacked; the exception leaves the loop and the renderer returns the
    buffer it was given, the screenshot as captured, with an empty result:
    the overlay of [inside] is not in the output, which differs from the
    encoding of a picture that carries it. *)
Lemma broken_box_discards_every_overlay :
  length (marks (lab (found [inside; short_box]) 200) 100 100 inside) = 6%nat /\
  overlay (lab (found [inside; short_box]) 200) 100 100 short_box =
  Raise (ValueError "not enough values to unpack (expected 4, got 3)") /\
  value (analyze_and_annotate (lab (found [inside; short_box]) 200) 0 [Bytes [Byte.x89]]) =
  Ok (JObj [], 0%nat) /\
  heap (analyze_and_annotate (lab (found [inside; short_box]) 200) 0 [Bytes [Byte.x89]]) !! 0%nat =
  Some (Bytes [Byte.x89]) /\
  Bytes [Byte.x89] <>
  Bytes (save (lab (found [inside; short_box]) 200)
           {| size := (100, 100)%Z; mode := "RGB"; pixels := [] |}
           (marks (lab (found [inside; short_box]) 200) 100 100 inside)).
Proof. repeat split; try (vm_compute; reflexivity). vm_compute. discriminate. Qed.

(** C2, amended.  A finding that lacks a box or a point (absent, null,
    empty or zero) is skipped; a finding with a box of four numbers and a
    point of two, of magnitude at most 2^53, makes six drawing calls
    whatever the values, in range or not.  When every finding of the list
    is of one of these two kinds and every drawing call returns, the
    output encodes the working picture with the overlays of all the
    findings that have both, in list order.  When some finding is broken
    (it is no object, its headline is no string, or its box and point
    are not four numbers and two), or the lookups or the arithmetic of
    some finding raise, or a drawing call of the loop raises, the loop
    raises and the method returns the buffer it was given, unchanged,
    with an empty result. *)
Theorem missing_is_skipped_malformed_abandons w r h data base v items :
  h !! r = Some (Bytes data) -> Image_open w data = Ok base ->
  generate_content w (working base) = Structured v ->
  annotations v = Ok (JArr items) ->
  (Forall plain items ->
   Forall (fun cmd => paint w (working base) cmd = Ok ())
     (flat_map (marks w (size base).1 (size base).2) items) ->
   exists out,
     value (analyze_and_annotate w r h) = Ok (v, out) /\
     heap (analyze_and_annotate w r h) !! out =
     Some (Bytes (save w (working base)
                    (flat_map (marks w (size base).1 (size base).2) items)))) /\
  (Exists (fun item => classify item = Broken) items \/
   (exists item e,
      In item items /\ overlay w (size base).1 (size base).2 item = Raise e) \/
   (exists cmd e,
      In cmd (drawn w (size base).1 (size base).2 items).1 /\
      paint w (working base) cmd = Raise e) ->
   value (analyze_and_annotate w r h) = Ok (JObj [], r) /\
   heap (analyze_and_annotate w r h) !! r = Some (Bytes data)) /\
  Forall (fun item =>
            (classify item = Skipped -> marks w (size base).1 (size base).2 item = []) /\
            (classify item = Whole -> length (marks w (size base).1 (size base).2 item) = 6%nat))
    items.
Proof.
  intros R O G An. rewrite analyze_and_annotate_spec. split; [|split].
  - intros U P.
    destruct (analysis_plain w r h data base v _ items R O G An eq_refl U P)
      as (out & img & V & L & _).
    eauto.
  - intros B.
    assert (Stop : (drawn w (size base).1 (size base).2 items).2 <> None \/
                   (painted w (working base) (drawn w (size base).1 (size base).2 items).1).2
                   <> None).
    { destruct B as [B|[(item & e & I & E)|(cmd & e & I & P)]].
      - left. destruct (drawn_broken w (size base).1 (size base).2 _ B) as (cmds & e & ->).
        discriminate.
      - left. eapply drawn_raises; eassumption.
      - right. destruct (painted_some _ _ _ _ _ I P) as (done & failed & ->). discriminate. }
    destruct (analysis_abandoned w r h data base v _ items R O G An eq_refl Stop)
      as (done & failed & e & img & V & L & _).
    auto.
  - apply Forall_forall. intros item _. split; intros C; unfold marks.
    + now rewrite overlay_skipped.
    + destruct (complete_inv _ C) as (fields & a & b & c & d & y & x & text
        & qa & qb & qc & qd & qy & qx & -> & ? & ? & ? & ? & ? & ? & ? & ? & ? & ?).
      erewrite overlay_complete by eassumption. apply stamp_length.
Qed.

(** Of [boxless], [below] and [inside] the first is skipped and the other
    two are drawn; [short_box] makes the method give up [inside] too, and
    so do [vast], whose division overflows, and [far], whose text PIL
    cannot place. *)
Lemma missing_is_skipped_malformed_abandons_witness :
  (exists out,
     value (analyze_and_annotate (lab (found [boxless; below; inside]) 200) 0 [Bytes [Byte.x89]]) =
     Ok (JObj [ ("executive_summary", JStr "Calmer colours.");
                ("annotations", JArr [boxless; below; inside]) ], out) /\
     heap (analyze_and_annotate (lab (found [boxless; below; inside]) 200) 0 [Bytes [Byte.x89]]) !! out =
     Some (Bytes (save (lab (found [boxless; below; inside]) 200)
                    (working {| size := (100, 100)%Z; mode := "RGB"; pixels := [] |})
                    (flat_map (marks (lab (found [boxless; below; inside]) 200) 100 100)
                       [boxless; below; inside])))) /\
  (value (analyze_and_annotate (lab (found [inside; short_box]) 200) 0 [Bytes [Byte.x89]]) =
   Ok (JObj [], 0%nat) /\
   heap (analyze_and_annotate (lab (found [inside; short_box]) 200) 0 [Bytes [Byte.x89]]) !! 0%nat =
   Some (Bytes [Byte.x89])) /\
  (value (analyze_and_annotate (lab (found [inside; vast]) 200) 0 [Bytes [Byte.x89]]) =
   Ok (JObj [], 0%nat) /\
   heap (analyze_and_annotate (lab (found [inside; vast]) 200) 0 [Bytes [Byte.x89]]) !! 0%nat =
   Some (Bytes [Byte.x89])) /\
  (value (analyze_and_annotate (lab (found [inside; far]) 200) 0 [Bytes [Byte.x89]]) =
   Ok (JObj [], 0%nat) /\
   heap (analyze_and_annotate (lab (found [inside; far]) 200) 0 [Bytes [Byte.x89]]) !! 0%nat =
   Some (Bytes [Byte.x89])).
Proof.
  split; [|split; [|split]].
  - destruct (missing_is_skipped_malformed_abandons (lab (found [boxless; below; inside]) 200) 0
                [Bytes [Byte.x89]] [Byte.x89] {| size := (100, 100)%Z; mode := "RGB"; pixels := [] |}
                _ [boxless; below; inside] eq_refl eq_refl eq_refl eq_refl) as (U & _ & _).
    apply U.
    + repeat (apply List.Forall_cons; [first [left; reflexivity | right; reflexivity]|]).
      apply List.Forall_nil.
    + vm_compute. repeat constructor.
  - destruct (missing_is_skipped_malformed_abandons (lab (found [inside; short_box]) 200) 0
                [Bytes [Byte.x89]] [Byte.x89] {| size := (100, 100)%Z; mode := "RGB"; pixels := [] |}
                _ [inside; short_box] eq_refl eq_refl eq_refl eq_refl) as (_ & B & _).
    apply B. left. apply Exists_cons_tl, Exists_cons_hd. reflexivity.
  - destruct (missing_is_skipped_malformed_abandons (lab (found [inside; vast]) 200) 0
                [Bytes [Byte.x89]] [Byte.x89] {| size := (100, 100)%Z; mode := "RGB"; pixels := [] |}
                _ [inside; vast] eq_refl eq_refl eq_refl eq_refl) as (_ & B & _).
    apply B. right. left.
    exists vast, (OverflowError "integer division result too large for a float").
    split; [right; left; reflexivity|vm_compute; reflexivity].
  - destruct (missing_is_skipped_malformed_abandons (lab (found [inside; far]) 200) 0
                [Bytes [Byte.x89]] [Byte.x89] {| size := (100, 100)%Z; mode := "RGB"; pixels := [] |}
                _ [inside; far] eq_refl eq_refl eq_refl eq_refl) as (_ & B & _).
    apply B. right. right.
    exists (Text (mapper (inject_Z (10 ^ 20)) 100, mapper 100 100) "TOO FAR" "black"),
      (OverflowError "Python int too large to convert to C long").
    split; [vm_compute; do 11 right; left; reflexivity|vm_compute; reflexivity].
Defined.

(** C3, as the specification words it, fails: when the download of the
    screenshot answers 404, the reason of the failure goes out as a
    progress message, and the error event that ends the stream says
    "Analysis failed", which does not contain the reason. *)
Lemma download_failure_reason_is_not_in_the_error_event :
  capture (lab (found []) 404) "https://shop.example" =
  Raise (Exception "Failed to download image. Status: 404") /\
  progress_generator (lab (found []) 404) [] "https://shop.example" =
  Some [ Progress "🚀 Starting analysis for: https://shop.example";
         Progress "📸 Capturing screenshot of https://shop.example...";
         Progress "🔗 Screenshot URL obtained: https://shots.example/1.png";
         Progress "❌ Firecrawl Error: Failed to download image. Status: 404";
         Progress "❌ Failed to capture screenshot.";
         Error "Analysis failed" ] /\
  contains "Failed to download image. Status: 404" "Analysis failed" = false.
Proof. repeat split; vm_compute; reflexivity. Qed.

(** C3, amended.  When the capture fails with exception [e], the reason
    [str e] goes out in the progress message "Firecrawl Error", the run
    logs that it failed to capture the screenshot, and the stream ends
    with the single error event "Analysis failed"; the agent does no work
    of the analysis, rendering or assembly stages. *)
Theorem capture_failure_ends_run w sched url e :
  init w = Ok () -> capture w url = Raise e ->
  (exists earlier,
     progress_generator w sched url =
     Some (map Progress (earlier ++ [ "❌ Firecrawl Error: " +:+ str e;
                                      "❌ Failed to capture screenshot." ])
           ++ [Error "Analysis failed"])) /\
  Forall (fun a => stage_of a = None \/ stage_of a = Some Capture) (activity w url).
Proof.
  intros I C. rewrite (progress_generator_spec _ _ _ I).
  unfold activity. rewrite I, run_spec, C. cbn [after trace value]. split.
  - eexists. rewrite messages_app. reflexivity.
  - apply Forall_app. split.
    + constructor; [now left|apply capture_trace_stages].
    + constructor; [now left|]. constructor; [now left|constructor].
Qed.

Lemma capture_failure_ends_run_witness :
  (exists earlier,
     progress_generator (lab (found []) 404) [] "https://shop.example" =
     Some (map Progress (earlier ++ [ "❌ Firecrawl Error: " +:+
                                        str (Exception "Failed to download image. Status: 404");
                                      "❌ Failed to capture screenshot." ])
           ++ [Error "Analysis failed"])) /\
  Forall (fun a => stage_of a = None \/ stage_of a = Some Capture)
    (activity (lab (found []) 404) "https://shop.example").
Proof.
  apply (capture_failure_ends_run (lab (found []) 404) [] "https://shop.example"
           (Exception "Failed to download image. Status: 404")); reflexivity.
Defined.

(** C4.  When the capture succeeds and the reply of the vision model is
    not valid JSON, the run still ends with a complete event: provided the
    disk and FPDF do not fail, a report is written whose summary is the
    placeholder "No summary available.", whose image is the captured
    screenshot, and nothing was drawn. *)
Theorem malformed_reply_still_reports w sched url data base e :
  init w = Ok () -> capture w url = Ok data -> data <> [] ->
  Image_open w data = Ok base ->
  generate_content w (working base) = Malformed e ->
  (forall path d, open_write w path d = Ok ()) ->
  (forall doc file, pdf_output w doc file = Ok ()) ->
  exists progress name doc file,
    progress_generator w sched url =
    Some (map Progress progress ++ [Complete ("api/download/" +:+ name)]) /\
    In (PdfOutput doc file) (activity w url) /\
    In (MultiCell 0 10 "No summary available.") doc /\
    (forall n d x y z, In (PdfImage n d x y z) doc -> d = data) /\
    (forall img cmd, ~ In (Draw img cmd) (activity w url)).
Proof.
  intros I C N O G Wr Out. rewrite (progress_generator_spec _ _ _ I).
  unfold activity. rewrite I.
  destruct (run_malformed w url data base e C N O G Wr Out)
    as (doc & temp & c & s & -> & Hs & Hi).
  cbn [trace value terminal].
  eexists _, _, doc, _. split; [reflexivity|]. split; [|split; [exact Hs|split; [exact Hi|]]].
  - rewrite in_app_iff. right. simpl. tauto.
  - intros img cmd J. rewrite in_app_iff in J. destruct J as [J|J].
    + destruct J as [J|J]; [discriminate|].
      pose proof (capture_trace_stages w url) as F.
      rewrite List.Forall_forall in F. destruct (F _ J); discriminate.
    + simpl in J. intuition discriminate.
Qed.

Lemma malformed_reply_still_reports_witness :
  exists progress name doc file,
    progress_generator (lab (Malformed (ValueError "Expecting value: line 1 column 1 (char 0)")) 200)
      [] "https://shop.example" =
    Some (map Progress progress ++ [Complete ("api/download/" +:+ name)]) /\
    In (PdfOutput doc file)
      (activity (lab (Malformed (ValueError "Expecting value: line 1 column 1 (char 0)")) 200)
         "https://shop.example") /\
    In (MultiCell 0 10 "No summary available.") doc /\
    (forall n d x y z, In (PdfImage n d x y z) doc -> d = [Byte.x89]) /\
    (forall img cmd,
       ~ In (Draw img cmd)
           (activity (lab (Malformed (ValueError "Expecting value: line 1 column 1 (char 0)")) 200)
              "https://shop.example")).
Proof.
  apply (malformed_reply_still_reports
           (lab (Malformed (ValueError "Expecting value: line 1 column 1 (char 0)")) 200)
           [] "https://shop.example" [Byte.x89]
           {| size := (100, 100)%Z; mode := "RGB"; pixels := [] |}
           (ValueError "Expecting value: line 1 column 1 (char 0)"));
    try reflexivity; discriminate.
Defined.

(** C5.  For a finding whose box and target are numbers in 0..1000 and an
    image of positive width and height, the corner of the label and the
    target are drawn at exactly (c / 1000) * d: the text is anchored at
    (mapper xmin W, mapper ymin H) and the pointer ends at
    (mapper x W, mapper y H). *)
Theorem mapper_exact w width height fields ymin xmin ymax xmax y x text q1 q2 q3 q4 q5 q6 :
  assoc "label_pos" fields = Some (JArr [ymin; xmin; ymax; xmax]) ->
  assoc "target_pos" fields = Some (JArr [y; x]) ->
  default (JStr "") (assoc "text" fields) = JStr text ->
  number ymin = Some q1 -> number xmin = Some q2 -> number ymax = Some q3 ->
  number xmax = Some q4 -> number y = Some q5 -> number x = Some q6 ->
  Forall (fun c => 0 <= c <= 1000)%Q [q1; q2; q3; q4; q5; q6] ->
  (0 < width)%Z -> (0 < height)%Z ->
  exists lcx lcy,
    overlay w width height (JObj fields) =
    Ok (stamp w (str_upper w text) lcx lcy
          (mapper q2 (Qz width)) (mapper q1 (Qz height))
          (mapper q6 (Qz width)) (mapper q5 (Qz height))).
Proof.
  intros Hbox Hpt Htext H1 H2 H3 H4 H5 H6 Range _ _.
  destruct (overlay_mapped w width height _ _ _ _ _ _ _ _ _ _ _ _ _ _
              Hbox Hpt Htext H1 H2 H3 H4 H5 H6 (range_within _ Range))
    as (lcx & lcy & _ & _ & E).
  eauto.
Qed.

Lemma mapper_exact_witness :
  exists lcx lcy,
    overlay (lab (found [inside]) 200) 640 480 inside =
    Ok (stamp (lab (found [inside]) 200) "TRUST ME" lcx lcy
          (mapper 200 640) (mapper 100 480) (mapper 500 640) (mapper 500 480)).
Proof.
  apply (mapper_exact (lab (found [inside]) 200) 640 480 _ (JInt 100) (JInt 200) (JInt 300) (JInt 400)
           (JInt 500) (JInt 500) "trust me" 100 200 300 400 500 500); try reflexivity; try lia.
  repeat constructor; discriminate.
Defined.

(** C6, as the specification words it, fails: the target of [below] has
    y = 1500; clamped into 0..1000 it would be drawn on the bottom edge of
    an image of height 100, at y = 100, but the renderer draws it at
    y = 150, outside the image. *)
Lemma target_below_is_not_clamped :
  overlay (lab (found [below]) 200) 100 100 below =
  Ok (stamp (lab (found [below]) 200) "FIX ME" (600 / 2000 * 100) (400 / 2000 * 100)
        (mapper 200 100) (mapper 100 100) (mapper 500 100) (mapper 1500 100)) /\
  (mapper 1500 100 == 150)%Q /\ (mapper (clamp 1500) 100 == 100)%Q /\
  ~ (mapper 1500 100 == mapper (clamp 1500) 100)%Q.
Proof. repeat split; try (vm_compute; reflexivity). intros E. vm_compute in E. discriminate. Qed.

(** C6, amended.  The renderer neither clamps nor tests the range: for
    a finding whose box and target are numbers of magnitude at most 2^53,
    in range or not, the loop body makes its six drawing calls with
    coordinates that went through the same linear map unchanged, so that
    a coordinate above 1000 lands beyond the far edge of the image and a
    negative one before the near edge.  Whether the finding is drawn is
    then up to the drawing library: when it accepts the six calls, the
    picture carries all six; when it raises on one of them, the loop body
    raises.  In either case the first call made is the black line of the
    pointer, with its unclamped end. *)
Theorem out_of_range_is_drawn_unclamped
    w img base overlays h width height fields ymin xmin ymax xmax y x text
    q1 q2 q3 q4 q5 q6 :
  assoc "label_pos" fields = Some (JArr [ymin; xmin; ymax; xmax]) ->
  assoc "target_pos" fields = Some (JArr [y; x]) ->
  default (JStr "") (assoc "text" fields) = JStr text ->
  number ymin = Some q1 -> number xmin = Some q2 -> number ymax = Some q3 ->
  number xmax = Some q4 -> number y = Some q5 -> number x = Some q6 ->
  Forall within [q1; q2; q3; q4; q5; q6] ->
  h !! img = Some (Picture base overlays) ->
  exists lcx lcy cmds,
    cmds = stamp w (str_upper w text) lcx lcy
             (mapper q2 (Qz width)) (mapper q1 (Qz height))
             (mapper q6 (Qz width)) (mapper q5 (Qz height)) /\
    overlay w width height (JObj fields) = Ok cmds /\
    (Forall (fun cmd => paint w base cmd = Ok ()) cmds ->
     annotate w img width height (JObj fields) h =
     {| value := Ok (); heap := <[img := Picture base (overlays ++ cmds)]> h;
        trace := map (Draw img) cmds |}) /\
    (forall cmd e,
       In cmd cmds -> paint w base cmd = Raise e ->
       exists e', value (annotate w img width height (JObj fields) h) = Raise e') /\
    hd_error (trace (annotate w img width height (JObj fields) h)) =
    Some (Draw img (Line (lcx, lcy, mapper q6 (Qz width), mapper q5 (Qz height)) "black" 6)) /\
    Forall (fun '(c, d) =>
              (0 < d -> (1000 < c -> d < mapper c d) /\ (c < 0 -> mapper c d < 0))%Q)
      [ (q2, Qz width); (q1, Qz height); (q6, Qz width); (q5, Qz height) ].
Proof.
  intros Hbox Hpt Htext H1 H2 H3 H4 H5 H6 B L.
  destruct (overlay_mapped w width height _ _ _ _ _ _ _ _ _ _ _ _ _ _
              Hbox Hpt Htext H1 H2 H3 H4 H5 H6 B) as (lcx & lcy & _ & _ & E).
  exists lcx, lcy. eexists. split; [reflexivity|]. split; [exact E|].
  rewrite (annotate_spec _ _ _ _ _ _ _ _ _ E L).
  split; [|split; [|split]].
  - intros P. rewrite (painted_all _ _ _ P). cbn [fst snd]. unfold calls. now rewrite app_nil_r.
  - intros cmd e I P. destruct (painted_some _ _ _ _ _ I P) as (done & [c e'] & ->).
    cbn [value snd]. eauto.
  - cbn [trace]. unfold stamp. destruct (textbbox w _ _) as [[[b0 b1] b2] b3].
    apply calls_head.
  - assert (M : forall c d, (0 < d -> (1000 < c -> d < mapper c d) /\ (c < 0 -> mapper c d < 0))%Q).
    { intros c d Hd. unfold mapper. split; intros Hc.
      - apply Qle_lt_trans with (1 * d)%Q; [rewrite Qmult_1_l; apply Qle_refl|].
        apply Qmult_lt_compat_r; [assumption|].
        apply Qlt_shift_div_l; [reflexivity|]. now rewrite Qmult_1_l.
      - apply Qlt_le_trans with (0 * d)%Q; [|rewrite Qmult_0_l; apply Qle_refl].
        apply Qmult_lt_compat_r; [assumption|].
        apply Qlt_shift_div_r; [reflexivity|]. now rewrite Qmult_0_l. }
    repeat (apply List.Forall_cons; [apply M|]). apply List.Forall_nil.
Qed.

(** [below], whose target has y = 1500, on a picture of 100 by 100: the
    pointer ends at y = 150. *)
Lemma out_of_range_is_drawn_unclamped_witness :
  exists lcx lcy cmds,
    cmds = stamp (lab (found [below]) 200) (str_upper (lab (found [below]) 200) "fix me") lcx lcy
             (mapper 200 (Qz 100)) (mapper 100 (Qz 100))
             (mapper 500 (Qz 100)) (mapper 1500 (Qz 100)) /\
    overlay (lab (found [below]) 200) 100 100 below = Ok cmds /\
    (Forall (fun cmd => paint (lab (found [below]) 200)
                          {| size := (100, 100)%Z; mode := "RGB"; pixels := [] |} cmd = Ok ()) cmds ->
     annotate (lab (found [below]) 200) 0 100 100 below
       [Picture {| size := (100, 100)%Z; mode := "RGB"; pixels := [] |} []] =
     {| value := Ok ();
        heap := <[0%nat := Picture {| size := (100, 100)%Z; mode := "RGB"; pixels := [] |}
                             ([] ++ cmds)]>
                  [Picture {| size := (100, 100)%Z; mode := "RGB"; pixels := [] |} []];
        trace := map (Draw 0) cmds |}) /\
    (forall cmd e,
       In cmd cmds ->
       paint (lab (found [below]) 200)
         {| size := (100, 100)%Z; mode := "RGB"; pixels := [] |} cmd = Raise e ->
       exists e',
         value (annotate (lab (found [below]) 200) 0 100 100 below
                  [Picture {| size := (100, 100)%Z; mode := "RGB"; pixels := [] |} []]) =
         Raise e') /\
    hd_error (trace (annotate (lab (found [below]) 200) 0 100 100 below
                       [Picture {| size := (100, 100)%Z; mode := "RGB"; pixels := [] |} []])) =
    Some (Draw 0 (Line (lcx, lcy, mapper 500 (Qz 100), mapper 1500 (Qz 100)) "black" 6)) /\
    Forall (fun '(c, d) =>
              (0 < d -> (1000 < c -> d < mapper c d) /\ (c < 0 -> mapper c d < 0))%Q)
      [ (200, Qz 100); (100, Qz 100); (500, Qz 100); (1500, Qz 100) ]%Q.
Proof.
  apply (out_of_range_is_drawn_unclamped (lab (found [below]) 200) 0
           {| size := (100, 100)%Z; mode := "RGB"; pixels := [] |} []
           [Picture {| size := (100, 100)%Z; mode := "RGB"; pixels := [] |} []] 100 100 _
           (JInt 100) (JInt 200) (JInt 300) (JInt 400) (JInt 1500) (JInt 500) "fix me"
           100 200 300 400 1500 500); try reflexivity.
  repeat (apply List.Forall_cons; [split; discriminate|]). apply List.Forall_nil.
Defined.

(** C7.  [analyze_and_annotate] leaves every object that was on the heap
    as it was, the buffer it was given among them: the heap it leaves is
    the heap it found followed by what it allocated.  What it returns is
    the buffer it was given or a new buffer, the encoding of the working
    picture, whose width and height are those of the decoded input. *)
Theorem input_buffer_kept_and_size_kept w r h :
  exists fresh full out,
    heap (analyze_and_annotate w r h) = h ++ fresh /\
    value (analyze_and_annotate w r h) = Ok (full, out) /\
    (out = r \/
     exists data base cmds,
       h !! r = Some (Bytes data) /\ Image_open w data = Ok base /\
       heap (analyze_and_annotate w r h) !! out = Some (Bytes (save w (working base) cmds)) /\
       size (working base) = size base).
Proof.
  rewrite analyze_and_annotate_spec.
  destruct (analysis_extends w r h) as [fresh E].
  destruct (analysis_value w r h) as (full & out & V & [->|(data & base & cmds & R & O & L)]).
  - exists fresh, full, r. auto.
  - exists fresh, full, out. repeat split; auto. right. exists data, base, cmds.
    auto using size_working.
Qed.

(** C8.  A run announces each stage it goes through, and no other: the
    message that says a stage is starting is in the trace exactly when
    the run enters the stage.  The message occurs at most once, and where
    it occurs none of the work of the stage has been done before it; and
    a stage that does any work is announced.  So each stage the run
    enters has exactly one starting message, and it comes before the
    work. *)
Theorem stage_announced_once_before_its_work w url h st :
  (enters w url st = true <-> In (Log (announcement url st)) (trace (run w url h))) /\
  (forall before after,
     trace (run w url h) = before ++ Log (announcement url st) :: after ->
     ~ In (Log (announcement url st)) before /\
     ~ In (Log (announcement url st)) after /\
     Forall (fun b => stage_of b <> Some st) before) /\
  (forall a,
     In a (trace (run w url h)) -> stage_of a = Some st ->
     In (Log (announcement url st)) (trace (run w url h))).
Proof.
  destruct (run_staged url w h) as [n S]. split; [|split].
  - symmetry. apply run_announces.
  - intros before after E. exact (staged_once _ _ _ _ _ _ S E).
  - intros a I W.
    destruct (staged_announces _ _ _ _ _ S I W) as (before & after & -> & _).
    apply in_app_iff. right. now left.
Qed.

(** In the laboratory run the picture is saved, so the rendering stage was
    announced; and the run enters the rendering stage, so it announced
    it. *)
Lemma stage_announced_once_before_its_work_witness :
  In (Save 1) (trace (run (lab (found [inside]) 200) "https://shop.example" [])) /\
  enters (lab (found [inside]) 200) "https://shop.example" Render = true /\
  In (Log (announcement "https://shop.example" Render))
    (trace (run (lab (found [inside]) 200) "https://shop.example" [])).
Proof.
  assert (I : In (Save 1) (trace (run (lab (found [inside]) 200) "https://shop.example" []))).
  { vm_compute. repeat (first [left; reflexivity | right]). }
  split; [exact I|]. split; [reflexivity|].
  destruct (stage_announced_once_before_its_work (lab (found [inside]) 200)
              "https://shop.example" [] Render) as (_ & _ & A).
  exact (A (Save 1) I eq_refl).
Defined.

(** C9.  The pointer of a finding starts at the centre of its label box:
    for a box and a target of numbers of magnitude at most 2^53, both
    lines of the pointer run from (lcx, lcy), where lcx is the midpoint of
    xmin and xmax mapped to the width and lcy the midpoint of ymin and
    ymax mapped to the height, each axis on its own; the first call the
    loop body makes is the black line from that centre. *)
Theorem pointer_starts_at_box_center
    w width height fields ymin xmin ymax xmax y x text q1 q2 q3 q4 q5 q6 :
  assoc "label_pos" fields = Some (JArr [ymin; xmin; ymax; xmax]) ->
  assoc "target_pos" fields = Some (JArr [y; x]) ->
  default (JStr "") (assoc "text" fields) = JStr text ->
  number ymin = Some q1 -> number xmin = Some q2 -> number ymax = Some q3 ->
  number xmax = Some q4 -> number y = Some q5 -> number x = Some q6 ->
  Forall within [q1; q2; q3; q4; q5; q6] ->
  exists lcx lcy tip rest,
    overlay w width height (JObj fields) =
    Ok (Line (lcx, lcy, tip.1, tip.2) "black" 6 ::
        Line (lcx, lcy, tip.1, tip.2) "#FFD700" 4 :: rest) /\
    (lcx == center q2 q4 (Qz width))%Q /\ (lcy == center q1 q3 (Qz height))%Q /\
    (forall img base overlays h,
       h !! img = Some (Picture base overlays) ->
       hd_error (trace (annotate w img width height (JObj fields) h)) =
       Some (Draw img (Line (lcx, lcy, tip.1, tip.2) "black" 6))).
Proof.
  intros Hbox Hpt Htext H1 H2 H3 H4 H5 H6 B.
  destruct (overlay_mapped w width height _ _ _ _ _ _ _ _ _ _ _ _ _ _
              Hbox Hpt Htext H1 H2 H3 H4 H5 H6 B)
    as (lcx & lcy & Ex & Ey & E).
  exists lcx, lcy, (mapper q6 (Qz width), mapper q5 (Qz height)).
  revert E. unfold stamp. destruct (textbbox w _ _) as [[[b0 b1] b2] b3]. intros E.
  eexists. split; [exact E|]. split; [exact Ex|]. split; [exact Ey|].
  intros img base overlays h L. rewrite (annotate_spec _ _ _ _ _ _ _ _ _ E L).
  apply calls_head.
Qed.

Lemma pointer_starts_at_box_center_witness :
  exists lcx lcy tip rest,
    overlay (lab (found [inside]) 200) 640 480 inside =
    Ok (Line (lcx, lcy, tip.1, tip.2) "black" 6 ::
        Line (lcx, lcy, tip.1, tip.2) "#FFD700" 4 :: rest) /\
    (lcx == center 200 400 640)%Q /\ (lcy == center 100 300 480)%Q /\
    (forall img base overlays h,
       h !! img = Some (Picture base overlays) ->
       hd_error (trace (annotate (lab (found [inside]) 200) img 640 480 inside h)) =
       Some (Draw img (Line (lcx, lcy, tip.1, tip.2) "black" 6))).
Proof.
  apply (pointer_starts_at_box_center (lab (found [inside]) 200) 640 480 _
           (JInt 100) (JInt 200) (JInt 300) (JInt 400) (JInt 500) (JInt 500) "trust me"
           100 200 300 400 500 500); try reflexivity.
  repeat (apply List.Forall_cons; [split; discriminate|]). apply List.Forall_nil.
Defined.

(** C10.  When either API key is missing, the constructor raises, the
    stream is the single error event that carries the constructor's
    message, and the agent does nothing at all. *)
Theorem missing_key_ends_stream w sched url :
  getenv w "FIRECRAWL_API_KEY" = None \/ getenv w "GOOGLE_API_KEY" = None ->
  exists msg,
    init w = Raise (ValueError msg) /\
    progress_generator w sched url = Some [Error msg] /\
    activity w url = [].
Proof.
  intros K. eexists.
  assert (I : init w = Raise (ValueError "❌ Error: Missing API Keys. Please set FIRECRAWL_API_KEY and GOOGLE_API_KEY in Vercel Environment Variables.")).
  { unfold init. destruct K as [-> | ->]; [reflexivity|].
    now destruct (present (getenv w "FIRECRAWL_API_KEY")). }
  unfold progress_generator, activity. rewrite I. auto.
Qed.

Lemma missing_key_ends_stream_witness :
  exists msg,
    init keyless = Raise (ValueError msg) /\
    progress_generator keyless [] "https://shop.example" = Some [Error msg] /\
    activity keyless "https://shop.example" = [].
Proof.
  apply (missing_key_ends_stream keyless [] "https://shop.example"). left. reflexivity.
Defined.

(** ** Further properties of the agent and of the server *)

(** X1.  When both keys are set and building the clients raises [e], the
    constructor raises ValueError "Error initializing AI clients: " with
    the text of [e]; the stream is that one error event and the agent does
    nothing. *)
Theorem client_failure_ends_stream w sched url e :
  present (getenv w "FIRECRAWL_API_KEY") = true ->
  present (getenv w "GOOGLE_API_KEY") = true ->
  clients w = Raise e ->
  init w = Raise (ValueError ("❌ Error initializing AI clients: " +:+ str e)) /\
  progress_generator w sched url =
  Some [Error ("❌ Error initializing AI clients: " +:+ str e)] /\
  activity w url = [].
Proof.
  intros K1 K2 C.
  assert (I : init w = Raise (ValueError ("❌ Error initializing AI clients: " +:+ str e))).
  { unfold init. now rewrite K1, K2, C. }
  unfold progress_generator, activity. rewrite I. auto.
Qed.

Lemma client_failure_ends_stream_witness :
  init unplugged =
  Raise (ValueError ("❌ Error initializing AI clients: " +:+ str (Exception "Invalid API key format"))) /\
  progress_generator unplugged [] "https://shop.example" =
  Some [Error ("❌ Error initializing AI clients: " +:+ str (Exception "Invalid API key format"))] /\
  activity unplugged "https://shop.example" = [].
Proof.
  apply (client_failure_ends_stream unplugged [] "https://shop.example"
           (Exception "Invalid API key format")); reflexivity.
Defined.

(** X2.  A key that is set to the empty string counts as missing: the
    constructor raises the missing-keys error, the stream is that one
    error event, and the clients are never built nor the agent run. *)
Theorem empty_key_counts_as_missing w sched url :
  getenv w "FIRECRAWL_API_KEY" = Some "" \/ getenv w "GOOGLE_API_KEY" = Some "" ->
  progress_generator w sched url =
  Some [Error "❌ Error: Missing API Keys. Please set FIRECRAWL_API_KEY and GOOGLE_API_KEY in Vercel Environment Variables."] /\
  activity w url = [].
Proof.
  intros K.
  assert (I : init w = Raise (ValueError "❌ Error: Missing API Keys. Please set FIRECRAWL_API_KEY and GOOGLE_API_KEY in Vercel Environment Variables.")).
  { unfold init. destruct K as [-> | ->]; [reflexivity|].
    now destruct (present (getenv w "FIRECRAWL_API_KEY")). }
  unfold progress_generator, activity. rewrite I. auto.
Qed.

Lemma empty_key_counts_as_missing_witness :
  progress_generator blank_key [] "https://shop.example" =
  Some [Error "❌ Error: Missing API Keys. Please set FIRECRAWL_API_KEY and GOOGLE_API_KEY in Vercel Environment Variables."] /\
  activity blank_key "https://shop.example" = [].
Proof.
  apply (empty_key_counts_as_missing blank_key [] "https://shop.example"). right. reflexivity.
Defined.

(** X3.  A download that answers 200 with an empty body is a failed
    capture without a reason: after the messages of the capture the run
    logs "Failed to capture screenshot." and the stream ends with the
    error event "Analysis failed"; no later stage does any work. *)
Theorem empty_screenshot_fails_capture w sched url :
  init w = Ok () -> capture w url = Ok [] ->
  progress_generator w sched url =
  Some (map Progress (messages (Log ("🚀 Starting analysis for: " +:+ url) :: capture_trace w url))
        ++ [Progress "❌ Failed to capture screenshot."; Error "Analysis failed"]) /\
  Forall (fun a => stage_of a = None \/ stage_of a = Some Capture) (activity w url).
Proof.
  intros I C. rewrite (progress_generator_spec _ _ _ I).
  unfold activity. rewrite I, run_spec, C. cbn [after trace value]. split.
  - rewrite messages_app, map_app, <- app_assoc. reflexivity.
  - apply Forall_app. split.
    + constructor; [now left|apply capture_trace_stages].
    + constructor; [now left|constructor].
Qed.

Lemma empty_screenshot_fails_capture_witness :
  progress_generator hollow [] "https://shop.example" =
  Some (map Progress (messages (Log ("🚀 Starting analysis for: " +:+ "https://shop.example")
                                 :: capture_trace hollow "https://shop.example"))
        ++ [Progress "❌ Failed to capture screenshot."; Error "Analysis failed"]) /\
  Forall (fun a => stage_of a = None \/ stage_of a = Some Capture)
    (activity hollow "https://shop.example").
Proof.
  apply (empty_screenshot_fails_capture hollow [] "https://shop.example"); reflexivity.
Defined.

(** X4.  Only status 200 is a download: with any other status, another
    2xx included, [get_screenshot] logs "Failed to download image.
    Status: n", returns None and allocates nothing. *)
Theorem only_status_200_is_a_download w url h r c u resp :
  scrape w url = Ok r -> link r = Some (String c u) ->
  requests_get w (String c u) = Ok resp -> status_code resp <> 200%N ->
  value (get_screenshot w url h) = Ok None /\
  heap (get_screenshot w url h) = h /\
  In (Log ("❌ Firecrawl Error: Failed to download image. Status: " +:+ dec (status_code resp)))
    (trace (get_screenshot w url h)).
Proof.
  intros S L G N. rewrite get_screenshot_spec.
  assert (C : capture w url =
              Raise (Exception ("Failed to download image. Status: " +:+ dec (status_code resp)))).
  { unfold capture. rewrite S, L, G. apply N.eqb_neq in N. now rewrite N. }
  rewrite C. cbn [value heap trace str]. repeat split.
  apply in_app_iff. right. now left.
Qed.

Lemma only_status_200_is_a_download_witness :
  value (get_screenshot (lab (found []) 204) "https://shop.example" []) = Ok None /\
  heap (get_screenshot (lab (found []) 204) "https://shop.example" []) = [] /\
  In (Log ("❌ Firecrawl Error: Failed to download image. Status: " +:+
           dec (status_code {| status_code := 204; content := [Byte.x89] |})))
    (trace (get_screenshot (lab (found []) 204) "https://shop.example" [])).
Proof.
  apply (only_status_200_is_a_download (lab (found []) 204) "https://shop.example" []
           (AsDict (Some "https://shots.example/1.png")) "h" "ttps://shots.example/1.png"
           {| status_code := 204; content := [Byte.x89] |}); try reflexivity.
  discriminate.
Defined.

(** X5.  No exception leaves [get_screenshot] or [analyze_and_annotate]:
    whatever the world does, both return a value; [get_screenshot] returns
    a reference exactly when the capture succeeded, and the buffer behind
    it holds the downloaded content. *)
Theorem capture_and_analysis_never_raise w url r h :
  (exists found,
     value (get_screenshot w url h) = Ok found /\
     match found with
     | Some image_bytes =>
       exists data, capture w url = Ok data /\
                    heap (get_screenshot w url h) !! image_bytes = Some (Bytes data)
     | None => exists e, capture w url = Raise e
     end) /\
  (exists result, value (analyze_and_annotate w r h) = Ok result).
Proof.
  split.
  - rewrite get_screenshot_spec. destruct (capture w url) as [data|e]; eexists; split;
      try reflexivity; cbn [heap]; eauto using list_lookup_middle.
  - rewrite analyze_and_annotate_spec.
    destruct (analysis_value w r h) as (full & out & V & _). eauto.
Qed.

(** X6.  [create_pdf_report] leaves the heap as it found it, hands at most
    one document to [pdf.output], and removes the picture it staged on
    disk exactly when it returns normally: when writing the picture or
    [pdf.output] raises, the exception leaves the method and the staged
    file is not removed. *)
Theorem report_removes_staged_picture_iff_it_returns w url full_data image_bytes name h :
  heap (create_pdf_report w url full_data image_bytes name h) = h /\
  (value (create_pdf_report w url full_data image_bytes name h) = Ok () <->
   In (Remove (temp_name w)) (trace (create_pdf_report w url full_data image_bytes name h))) /\
  (forall doc file,
     In (PdfOutput doc file) (trace (create_pdf_report w url full_data image_bytes name h)) ->
     file = name /\
     exists data, h !! image_bytes = Some (Bytes data) /\
                  In (WriteFile (temp_name w) data)
                    (trace (create_pdf_report w url full_data image_bytes name h)) /\
                  open_write w (temp_name w) data = Ok ()).
Proof.
  rewrite create_pdf_report_spec. unfold report.
  assert (Quiet : forall e (t : list action),
            (forall a, In a t -> exists p d, a = WriteFile p d) ->
            h = h /\
            (@Raise unit e = Ok () <-> In (Remove (temp_name w)) t) /\
            (forall doc file, In (PdfOutput doc file) t ->
               file = name /\
               exists data, h !! image_bytes = Some (Bytes data) /\
                            In (WriteFile (temp_name w) data) t /\
                            open_write w (temp_name w) data = Ok ())).
  { intros e t T. split; [reflexivity|]. split; [split; [discriminate|]|].
    - intros J. destruct (T _ J) as (p & d & D). discriminate.
    - intros doc file J. destruct (T _ J) as (p & d & D). discriminate. }
  destruct (page_one w full_data) as [[summary blocks]|e]; [|apply Quiet; intros a []].
  destruct (h !! image_bytes) as [[data|]|] eqn:R; try (apply Quiet; intros a []).
  destruct (open_write w (temp_name w) data) as [[]|e] eqn:Wr.
  2: { apply Quiet. intros a [<-|[]]. eauto. }
  destruct (pdf_output w _ name) as [[]|e]; cbn [value heap trace].
  - split; [reflexivity|]. split; [split; [intros _; cbn; auto|reflexivity]|].
    intros doc file [J|[J|[J|[]]]]; try discriminate J. injection J as <- <-.
    split; [reflexivity|]. exists data. cbn. auto.
  - split; [reflexivity|]. split; [split; [discriminate|]|].
    + intros [J|[J|[]]]; discriminate J.
    + intros doc file [J|[J|[]]]; try discriminate J. injection J as <- <-.
      split; [reflexivity|]. exists data. cbn. auto.
Qed.

(** X7.  [download_file] strips every directory part from the name it is
    asked for: the name it serves has no slash, and the path it serves is
    the temporary directory joined with that name, exists, and has that
    name as its last part; when that path does not exist the answer is
    "File not found".  It refuses no name: "..", which has no slash, is
    looked up as the parent of the temporary directory and answered with
    a [FileResponse] for it when that exists, so the path of the answer
    need not be a file of the temporary directory. *)
Theorem download_serves_a_bare_name w exists_ filename :
  match download_file w exists_ filename with
  | FileResponse path media_type name =>
    name = basename filename /\ has_slash name = false /\
    path = path_join (gettempdir w) name /\ basename path = name /\
    exists_ path = true /\ media_type = "application/pdf"
  | NotFound => exists_ (path_join (gettempdir w) (basename filename)) = false
  end /\
  download_file w (fun _ => true) ".." =
  FileResponse (path_join (gettempdir w) "..") "application/pdf" "..".
Proof.
  split; [|reflexivity].
  unfold download_file.
  destruct (exists_ (path_join (gettempdir w) (basename filename))) eqn:E; [|reflexivity].
  repeat split; auto using basename_no_slash, basename_join.
Qed.

(** X8.  The link of a complete event leads to the report: when [run]
    returns a path, it is the temporary directory joined with
    "audit_report_<time>.pdf", the document was handed to [pdf.output]
    under that path without an exception, the complete event carries
    "api/download/" followed by the bare name, and [download_file] asked
    for that name looks at exactly the path the report was written to. *)
Theorem report_link_leads_to_the_report w url h path :
  value (run w url h) = Ok (Some path) ->
  path = report_path w /\
  terminal (value (run w url h)) = Complete ("api/download/" +:+ report_name w) /\
  (exists doc, In (PdfOutput doc path) (trace (run w url h)) /\ pdf_output w doc path = Ok ()) /\
  (forall exists_,
     download_file w exists_ (report_name w) =
     if exists_ path then FileResponse path "application/pdf" (report_name w) else NotFound).
Proof.
  intros V. rewrite V. revert V.
  rewrite run_spec, value_after, trace_after.
  destruct (capture w url) as [[|b data]|e]; try discriminate.
  rewrite deliver_value, deliver_trace.
  destruct (analysis_value w (length h) (h ++ [Bytes (b :: data)])) as (full & out & -> & _).
  set (h1 := heap (analysis w (length h) (h ++ [Bytes (b :: data)]))).
  destruct (value (report w url full out (report_path w) h1)) as [[]|e] eqn:R; [|discriminate].
  intros [= <-]. split; [reflexivity|]. split; [apply terminal_report|]. split.
  - revert R. unfold report.
    destruct (page_one w full) as [[summary blocks]|e]; [|discriminate].
    destruct (h1 !! out) as [[d|]|]; try discriminate.
    destruct (open_write w (temp_name w) d) as [[]|e]; [|discriminate].
    destruct (pdf_output w _ (report_path w)) as [[]|e] eqn:P; [|discriminate].
    intros _. eexists. split; [|exact P].
    rewrite !in_app_iff. right. right. right. cbn. auto.
  - intros exists_. unfold download_file.
    rewrite (basename_plain _ (report_name_no_slash w)). reflexivity.
Qed.

Lemma report_link_leads_to_the_report_witness :
  "/tmp/audit_report_1700000000.pdf" = report_path (lab (found [inside]) 200) /\
  terminal (value (run (lab (found [inside]) 200) "https://shop.example" [])) =
  Complete ("api/download/" +:+ report_name (lab (found [inside]) 200)) /\
  (exists doc,
     In (PdfOutput doc "/tmp/audit_report_1700000000.pdf")
       (trace (run (lab (found [inside]) 200) "https://shop.example" [])) /\
     pdf_output (lab (found [inside]) 200) doc "/tmp/audit_report_1700000000.pdf" = Ok ()) /\
  (forall exists_,
     download_file (lab (found [inside]) 200) exists_ (report_name (lab (found [inside]) 200)) =
     if exists_ "/tmp/audit_report_1700000000.pdf"
     then FileResponse "/tmp/audit_report_1700000000.pdf" "application/pdf"
            (report_name (lab (found [inside]) 200))
     else NotFound).
Proof.
  apply (report_link_leads_to_the_report (lab (found [inside]) 200) "https://shop.example" []).
  vm_compute. reflexivity.
Defined.

(** X9.  The cleaning of the texts of the report
    ([encode('latin-1', 'replace').decode('latin-1')]) keeps a text of
    code points up to U+00FF as it is, always yields such a text, and so
    changes nothing when applied twice; it never makes a text longer. *)
Theorem cleaning_keeps_latin_text s :
  (latin s = true -> latin1 0 s = s) /\
  latin (latin1 0 s) = true /\
  latin1 0 (latin1 0 s) = latin1 0 s /\
  (String.length (latin1 0 s) <= String.length s)%nat.
Proof.
  split; [apply latin1_latin|]. split; [apply latin_latin1|]. split.
  - apply latin1_latin, latin_latin1.
  - generalize 0%nat. induction s as [|c s IH]; intros skip; simpl; [lia|].
    destruct skip; [|specialize (IH skip); lia].
    destruct (nat_of_ascii c <? 196)%nat; simpl; [specialize (IH 0%nat); lia|].
    destruct (nat_of_ascii c <? 224)%nat; simpl; [specialize (IH 1%nat); lia|].
    destruct (nat_of_ascii c <? 240)%nat; simpl; [specialize (IH 2%nat)|specialize (IH 3%nat)]; lia.
Qed.

(** X10.  An exception leaves [run] only from the assembly of the report,
    and only for one of three reasons: the summary of the reply is not a
    string, the picture cannot be written to disk, or [pdf.output]
    fails. *)
Theorem run_raises_only_from_the_report w url h e :
  value (run w url h) = Raise e ->
  (exists base v x,
     generate_content w base = Structured v /\
     get v "executive_summary" (JStr "No summary available.") = Ok x /\
     sanitize x = Raise e) \/
  (exists data, open_write w (temp_name w) data = Raise e) \/
  (exists doc, pdf_output w doc (report_path w) = Raise e).
Proof.
  rewrite run_spec, value_after.
  destruct (capture w url) as [[|b data]|c]; try discriminate.
  rewrite deliver_value.
  destruct (analysis_value w (length h) (h ++ [Bytes (b :: data)])) as (full & out & V & _).
  rewrite V.
  destruct (report_after_analysis w _ _ _ _ _ (list_lookup_middle h [] _ _ eq_refl) V)
    as [[d L] P].
  unfold report. rewrite L.
  destruct P as [(summary & blocks & ->)|(e' & x & base & -> & G & Gx & S)].
  - destruct (open_write w (temp_name w) d) as [[]|e'] eqn:Wr.
    + destruct (pdf_output w _ (report_path w)) as [[]|e'] eqn:P; [discriminate|].
      intros [= <-]. right. right. eauto.
    + intros [= <-]. right. left. eauto.
  - intros [= <-]. left. eauto 6.
Qed.

Lemma run_raises_only_from_the_report_witness :
  (exists base v x,
     generate_content (jammed (found [inside])) base = Structured v /\
     get v "executive_summary" (JStr "No summary available.") = Ok x /\
     sanitize x = Raise (Exception "No space left on device")) \/
  (exists data,
     open_write (jammed (found [inside])) (temp_name (jammed (found [inside]))) data =
     Raise (Exception "No space left on device")) \/
  (exists doc,
     pdf_output (jammed (found [inside])) doc (report_path (jammed (found [inside]))) =
     Raise (Exception "No space left on device")).
Proof.
  apply (run_raises_only_from_the_report (jammed (found [inside])) "https://shop.example" []).
  vm_compute. reflexivity.
Defined.

(** X11.  When every finding of the reply is plain (it lacks a box or a
    point, or has a box of four numbers and a point of two of magnitude
    at most 2^53), every drawing call of the findings returns, the
    summary is a string and neither the disk nor FPDF fails, the stream
    is the progress
    messages of the capture, the three announcements of the later stages
    and the path of the report, then the complete event with the link to
    the report; the document handed to [pdf.output] carries the cleaned
    summary of the model, twelve layout calls for each finding and the
    picture that encodes every drawing call. *)
Theorem drawn_findings_reach_the_report w sched url data base v a items s :
  init w = Ok () -> capture w url = Ok data -> data <> [] ->
  Image_open w data = Ok base ->
  generate_content w (working base) = Structured v ->
  annotations v = Ok a -> iter a = Ok items ->
  Forall plain items ->
  Forall (fun cmd => paint w (working base) cmd = Ok ())
    (flat_map (marks w (size base).1 (size base).2) items) ->
  get v "executive_summary" (JStr "No summary available.") = Ok (JStr s) ->
  (forall path d, open_write w path d = Ok ()) ->
  (forall doc file, pdf_output w doc file = Ok ()) ->
  exists blocks,
    findings w items = Ok blocks /\ length blocks = (12 * length items)%nat /\
    progress_generator w sched url =
    Some (map Progress
            (messages (Log ("🚀 Starting analysis for: " +:+ url) :: capture_trace w url) ++
             [ "🧠 Analyzing image with Gemini Vision...";
               "🎨 Drawing annotations on image...";
               "📄 Generating PDF Report...";
               "✅ Report generated: " +:+ report_path w ]) ++
          [Complete ("api/download/" +:+ report_name w)]) /\
    In (PdfOutput
          (report_doc w url (latin1 0 s) blocks
             (save w (working base) (flat_map (marks w (size base).1 (size base).2) items)))
          (report_path w))
       (activity w url).
Proof.
  intros Init C N O G An I U P Gx Wr Out.
  rewrite (progress_generator_spec _ _ _ Init). unfold activity. rewrite Init.
  destruct data as [|b data]; [congruence|].
  destruct (run_captured _ _ _ _ C) as [-> ->].
  rewrite deliver_value, deliver_trace.
  destruct (analysis_plain w 0 [Bytes (b :: data)] _ _ _ _ _ eq_refl O G An I U P)
    as (out & img & -> & L & ->).
  destruct (page_one_analysed w v a items _ _ _ An I (drawn_plain w (size base).1 (size base).2 _ U))
    as (x & blocks & Gx' & F & Len & Pg).
  rewrite Gx in Gx'. injection Gx' as <-. cbn [sanitize] in Pg.
  exists blocks. split; [exact F|]. split; [exact Len|].
  unfold report. rewrite Pg, L, Wr, Out. cbn [value trace]. rewrite terminal_report.
  split.
  - rewrite !messages_app, messages_draws. reflexivity.
  - rewrite in_app_iff. right. rewrite in_app_iff. right. simpl. tauto.
Qed.

Lemma drawn_findings_reach_the_report_witness :
  exists blocks,
    findings (lab (found [inside; boxless]) 200) [inside; boxless] = Ok blocks /\
    length blocks = (12 * length [inside; boxless])%nat /\
    progress_generator (lab (found [inside; boxless]) 200) [] "https://shop.example" =
    Some (map Progress
            (messages (Log ("🚀 Starting analysis for: " +:+ "https://shop.example") ::
                       capture_trace (lab (found [inside; boxless]) 200) "https://shop.example") ++
             [ "🧠 Analyzing image with Gemini Vision...";
               "🎨 Drawing annotations on image...";
               "📄 Generating PDF Report...";
               "✅ Report generated: " +:+ report_path (lab (found [inside; boxless]) 200) ]) ++
          [Complete ("api/download/" +:+ report_name (lab (found [inside; boxless]) 200))]) /\
    In (PdfOutput
          (report_doc (lab (found [inside; boxless]) 200) "https://shop.example"
             (latin1 0 "Calmer colours.") blocks
             (save (lab (found [inside; boxless]) 200)
                (working {| size := (100, 100)%Z; mode := "RGB"; pixels := [] |})
                (flat_map (marks (lab (found [inside; boxless]) 200) 100 100) [inside; boxless])))
          (report_path (lab (found [inside; boxless]) 200)))
       (activity (lab (found [inside; boxless]) 200) "https://shop.example").
Proof.
  apply (drawn_findings_reach_the_report (lab (found [inside; boxless]) 200) []
           "https://shop.example" [Byte.x89]
           {| size := (100, 100)%Z; mode := "RGB"; pixels := [] |}
           (JObj [ ("executive_summary", JStr "Calmer colours.");
                   ("annotations", JArr [inside; boxless]) ])
           (JArr [inside; boxless]) [inside; boxless] "Calmer colours.");
    try reflexivity; try discriminate.
  - repeat (apply List.Forall_cons; [first [left; reflexivity | right; reflexivity]|]).
    apply List.Forall_nil.
  - vm_compute. repeat constructor.
Defined.

(** X12.  A reply whose summary is not a string (null, a number, a list)
    goes through the analysis untouched, since the analysis only reads
    the summary: when every finding is plain and every drawing call
    returns, the findings are drawn and the picture is encoded.  The
    report then raises on the summary before it writes anything, and the
    stream ends with an error event that carries the text of that
    exception, after the announcement of the report. *)
Theorem summary_that_is_no_string_fails_the_report w sched url data base v a items x e :
  init w = Ok () -> capture w url = Ok data -> data <> [] ->
  Image_open w data = Ok base ->
  generate_content w (working base) = Structured v ->
  annotations v = Ok a -> iter a = Ok items ->
  Forall plain items ->
  Forall (fun cmd => paint w (working base) cmd = Ok ())
    (flat_map (marks w (size base).1 (size base).2) items) ->
  get v "executive_summary" (JStr "No summary available.") = Ok x ->
  sanitize x = Raise e ->
  progress_generator w sched url =
  Some (map Progress
          (messages (Log ("🚀 Starting analysis for: " +:+ url) :: capture_trace w url) ++
           [ "🧠 Analyzing image with Gemini Vision...";
             "🎨 Drawing annotations on image...";
             "📄 Generating PDF Report..." ]) ++
        [Error (str e)]) /\
  (exists img, In (Save img) (activity w url)) /\
  (forall act, In act (activity w url) -> stage_of act <> Some Assemble).
Proof.
  intros Init C N O G An I U P Gx S.
  rewrite (progress_generator_spec _ _ _ Init). unfold activity. rewrite Init.
  destruct data as [|b data]; [congruence|].
  destruct (run_captured _ _ _ _ C) as [-> ->].
  rewrite deliver_value, deliver_trace.
  destruct (analysis_plain w 0 [Bytes (b :: data)] _ _ _ _ _ eq_refl O G An I U P)
    as (out & img & -> & L & ->).
  destruct (page_one_analysed w v a items _ _ _ An I (drawn_plain w (size base).1 (size base).2 _ U))
    as (x' & blocks & Gx' & F & Len & Pg).
  rewrite Gx in Gx'. injection Gx' as <-. rewrite S in Pg.
  unfold report. rewrite Pg. cbn [value trace terminal].
  split; [|split].
  - rewrite !messages_app, messages_draws. reflexivity.
  - exists img. rewrite !in_app_iff. right. left. right. right. simpl. tauto.
  - intros act J. rewrite !in_app_iff in J. destruct J as [J|[[J|[J|J]]|J]].
    + destruct J as [<-|J]; [discriminate|].
      pose proof (capture_trace_stages w url) as St.
      rewrite List.Forall_forall in St. destruct (St _ J) as [-> | ->]; discriminate.
    + simpl in J. decompose [or] J; subst; try discriminate; contradiction.
    + apply in_map_iff in J. destruct J as (c & <- & _). discriminate.
    + simpl in J. decompose [or] J; subst; try discriminate; contradiction.
    + simpl in J. decompose [or] J; subst; try discriminate; contradiction.
Qed.

Lemma summary_that_is_no_string_fails_the_report_witness :
  progress_generator (lab (speechless [inside]) 200) [] "https://shop.example" =
  Some (map Progress
          (messages (Log ("🚀 Starting analysis for: " +:+ "https://shop.example") ::
                     capture_trace (lab (speechless [inside]) 200) "https://shop.example") ++
           [ "🧠 Analyzing image with Gemini Vision...";
             "🎨 Drawing annotations on image...";
             "📄 Generating PDF Report..." ]) ++
        [Error (str (AttributeError "'NoneType' object has no attribute 'encode'"))]) /\
  (exists img, In (Save img) (activity (lab (speechless [inside]) 200) "https://shop.example")) /\
  (forall act, In act (activity (lab (speechless [inside]) 200) "https://shop.example") ->
               stage_of act <> Some Assemble).
Proof.
  apply (summary_that_is_no_string_fails_the_report (lab (speechless [inside]) 200) []
           "https://shop.example" [Byte.x89]
           {| size := (100, 100)%Z; mode := "RGB"; pixels := [] |}
           (JObj [ ("executive_summary", JNull); ("annotations", JArr [inside]) ])
           (JArr [inside]) [inside] JNull);
    try reflexivity; try discriminate.
  - repeat (apply List.Forall_cons; [first [left; reflexivity | right; reflexivity]|]).
    apply List.Forall_nil.
  - vm_compute. repeat constructor.
Defined.

(** X13.  One finding that cannot be drawn costs the report everything
    the model said: although the reply is a JSON object with a summary,
    the analysis falls back to an empty result and the captured
    screenshot, so that, when neither the disk nor FPDF fails, the
    document handed to [pdf.output] has the placeholder summary, no
    finding and the screenshot as captured; no picture is encoded, the
    error is a progress message and the stream still ends with the
    complete event. *)
Theorem one_broken_finding_empties_the_report w sched url data base v a items :
  init w = Ok () -> capture w url = Ok data -> data <> [] ->
  Image_open w data = Ok base ->
  generate_content w (working base) = Structured v ->
  annotations v = Ok a -> iter a = Ok items ->
  Exists (fun item => classify item = Broken) items ->
  (forall path d, open_write w path d = Ok ()) ->
  (forall doc file, pdf_output w doc file = Ok ()) ->
  exists e,
    progress_generator w sched url =
    Some (map Progress
            (messages (Log ("🚀 Starting analysis for: " +:+ url) :: capture_trace w url) ++
             [ "🧠 Analyzing image with Gemini Vision...";
               "🎨 Drawing annotations on image...";
               "❌ Gemini/Annotation Error: " +:+ str e;
               "📄 Generating PDF Report...";
               "✅ Report generated: " +:+ report_path w ]) ++
          [Complete ("api/download/" +:+ report_name w)]) /\
    In (PdfOutput (report_doc w url "No summary available." [] data) (report_path w))
       (activity w url) /\
    (forall img, ~ In (Save img) (activity w url)).
Proof.
  intros Init C N O G An I B Wr Out.
  rewrite (progress_generator_spec _ _ _ Init). unfold activity. rewrite Init.
  destruct data as [|b data]; [congruence|].
  destruct (run_captured _ _ _ _ C) as [-> ->].
  rewrite deliver_value, deliver_trace.
  destruct (analysis_broken w 0 [Bytes (b :: data)] _ _ _ _ _ eq_refl O G An I B)
    as (done & failed & e & img & -> & L & ->).
  exists e. unfold report. rewrite page_one_empty, L, Wr, Out.
  cbn [value trace]. rewrite terminal_report.
  split; [|split].
  - rewrite !messages_app, messages_calls. reflexivity.
  - rewrite !in_app_iff. right. right. simpl. tauto.
  - intros img' J. rewrite !in_app_iff in J. destruct J as [J|[[J|[J|J]]|J]].
    + destruct J as [J|J]; [discriminate|].
      pose proof (capture_trace_stages w url) as St.
      rewrite List.Forall_forall in St.
      destruct (St _ J) as [E|E]; discriminate.
    + simpl in J. decompose [or] J; try discriminate; contradiction.
    + apply calls_draw in J as [c E]. discriminate.
    + simpl in J. decompose [or] J; try discriminate; contradiction.
    + simpl in J. decompose [or] J; try discriminate; contradiction.
Qed.

Lemma one_broken_finding_empties_the_report_witness :
  exists e,
    progress_generator (lab (found [inside; short_box]) 200) [] "https://shop.example" =
    Some (map Progress
            (messages (Log ("🚀 Starting analysis for: " +:+ "https://shop.example") ::
                       capture_trace (lab (found [inside; short_box]) 200) "https://shop.example") ++
             [ "🧠 Analyzing image with Gemini Vision...";
               "🎨 Drawing annotations on image...";
               "❌ Gemini/Annotation Error: " +:+ str e;
               "📄 Generating PDF Report...";
               "✅ Report generated: " +:+ report_path (lab (found [inside; short_box]) 200) ]) ++
          [Complete ("api/download/" +:+ report_name (lab (found [inside; short_box]) 200))]) /\
    In (PdfOutput (report_doc (lab (found [inside; short_box]) 200) "https://shop.example"
                     "No summary available." [] [Byte.x89])
                  (report_path (lab (found [inside; short_box]) 200)))
       (activity (lab (found [inside; short_box]) 200) "https://shop.example") /\
    (forall img, ~ In (Save img)
                     (activity (lab (found [inside; short_box]) 200) "https://shop.example")).
Proof.
  apply (one_broken_finding_empties_the_report (lab (found [inside; short_box]) 200) []
           "https://shop.example" [Byte.x89]
           {| size := (100, 100)%Z; mode := "RGB"; pixels := [] |}
           (JObj [ ("executive_summary", JStr "Calmer colours.");
                   ("annotations", JArr [inside; short_box]) ])
           (JArr [inside; short_box]) [inside; short_box]);
    try reflexivity; try discriminate.
  apply Exists_cons_tl, Exists_cons_hd. reflexivity.
Defined.

(** X14.  A finding whose six coordinates all lie in 0..1000 is drawn on
    the canvas: the corner of its label, the end of its pointer and the
    start of its pointer have pixel positions between 0 and the width,
    and between 0 and the height, of the image. *)
Theorem in_range_finding_stays_on_the_canvas
    w width height fields ymin xmin ymax xmax y x text q1 q2 q3 q4 q5 q6 :
  assoc "label_pos" fields = Some (JArr [ymin; xmin; ymax; xmax]) ->
  assoc "target_pos" fields = Some (JArr [y; x]) ->
  default (JStr "") (assoc "text" fields) = JStr text ->
  number ymin = Some q1 -> number xmin = Some q2 -> number ymax = Some q3 ->
  number xmax = Some q4 -> number y = Some q5 -> number x = Some q6 ->
  Forall (fun c => 0 <= c <= 1000)%Q [q1; q2; q3; q4; q5; q6] ->
  (0 <= width)%Z -> (0 <= height)%Z ->
  exists lcx lcy lx ly tx ty,
    overlay w width height (JObj fields) =
    Ok (stamp w (str_upper w text) lcx lcy lx ly tx ty) /\
    (0 <= lcx <= Qz width /\ 0 <= lx <= Qz width /\ 0 <= tx <= Qz width)%Q /\
    (0 <= lcy <= Qz height /\ 0 <= ly <= Qz height /\ 0 <= ty <= Qz height)%Q.
Proof.
  intros Hbox Hpt Htext H1 H2 H3 H4 H5 H6 R W H.
  destruct (overlay_mapped w width height _ _ _ _ _ _ _ _ _ _ _ _ _ _
              Hbox Hpt Htext H1 H2 H3 H4 H5 H6 (range_within _ R)) as (lcx & lcy & Ex & Ey & E).
  inversion R as [|? ? R1 R']; subst. inversion R' as [|? ? R2 R'']; subst.
  inversion R'' as [|? ? R3 R3']; subst. inversion R3' as [|? ? R4 R4']; subst.
  inversion R4' as [|? ? R5 R5']; subst. inversion R5' as [|? ? R6 _]; subst.
  assert (Wq : (0 <= Qz width)%Q) by (change 0%Q with (inject_Z 0); unfold Qz; rewrite <- Zle_Qle; exact W).
  assert (Hq : (0 <= Qz height)%Q) by (change 0%Q with (inject_Z 0); unfold Qz; rewrite <- Zle_Qle; exact H).
  exists lcx, lcy, (mapper q2 (Qz width)), (mapper q1 (Qz height)),
    (mapper q6 (Qz width)), (mapper q5 (Qz height)).
  split; [exact E|]. rewrite Ex, Ey.
  repeat split; try (apply mapper_range; assumption); apply center_range; assumption.
Qed.

Lemma in_range_finding_stays_on_the_canvas_witness :
  exists lcx lcy lx ly tx ty,
    overlay (lab (found [inside]) 200) 640 480 inside =
    Ok (stamp (lab (found [inside]) 200) (str_upper (lab (found [inside]) 200) "trust me")
          lcx lcy lx ly tx ty) /\
    (0 <= lcx <= Qz 640 /\ 0 <= lx <= Qz 640 /\ 0 <= tx <= Qz 640)%Q /\
    (0 <= lcy <= Qz 480 /\ 0 <= ly <= Qz 480 /\ 0 <= ty <= Qz 480)%Q.
Proof.
  apply (in_range_finding_stays_on_the_canvas (lab (found [inside]) 200) 640 480 _
           (JInt 100) (JInt 200) (JInt 300) (JInt 400) (JInt 500) (JInt 500)
           "trust me" 100 200 300 400 500 500); try reflexivity; try lia.
  repeat constructor; discriminate.
Defined.

(** X15.  A picture FPDF cannot read does not fail the report: the
    exception of [pdf.image] is swallowed, the document is written with
    its summary and its findings and without any image, and the staged
    picture is removed. *)
Theorem unreadable_picture_is_left_out_of_the_report
    w url full r name h data summary blocks e :
  h !! r = Some (Bytes data) ->
  page_one w full = Ok (summary, blocks) ->
  pdf_image w data = Raise e ->
  open_write w (temp_name w) data = Ok () ->
  (forall doc, pdf_output w doc name = Ok ()) ->
  exists doc,
    create_pdf_report w url full r name h =
    {| value := Ok (); heap := h;
       trace := [WriteFile (temp_name w) data; PdfOutput doc name; Remove (temp_name w)] |} /\
    In (MultiCell 0 10 summary) doc /\
    (forall c, In c blocks -> In c doc) /\
    (forall n d x y z, ~ In (PdfImage n d x y z) doc).
Proof.
  intros R P Im Wr Out. rewrite create_pdf_report_spec. unfold report.
  rewrite P, R, Wr, Out. eexists. split; [reflexivity|].
  unfold report_doc. rewrite Im, app_nil_r.
  split; [|split].
  - rewrite !in_app_iff. right. left. simpl. tauto.
  - intros c J. rewrite !in_app_iff. tauto.
  - intros n d x y z. rewrite !in_app_iff.
    destruct (page_one_findings _ _ _ _ P) as [items F].
    intros [J|[J|[J|J]]].
    + simpl in J. intuition discriminate.
    + simpl in J. intuition discriminate.
    + exact (findings_no_image _ _ _ _ _ _ _ _ F J).
    + simpl in J. intuition discriminate.
Qed.

Lemma unreadable_picture_is_left_out_of_the_report_witness :
  exists doc,
    create_pdf_report (smudged (found [inside])) "https://shop.example"
      (JObj [ ("executive_summary", JStr "Calmer colours."); ("annotations", JArr [inside]) ])
      0 "/tmp/audit_report_1700000000.pdf" [Bytes [Byte.x89]] =
    {| value := Ok (); heap := [Bytes [Byte.x89]];
       trace := [WriteFile (temp_name (smudged (found [inside]))) [Byte.x89];
                 PdfOutput doc "/tmp/audit_report_1700000000.pdf";
                 Remove (temp_name (smudged (found [inside])))] |} /\
    In (MultiCell 0 10 "Calmer colours.") doc /\
    (forall c, In c [ SetFont "Arial" "B" 12;
                      SetTextColor 200 0 0;
                      Cell 10 8 "#1" false "";
                      SetTextColor 0 0 0;
                      Cell 0 8 "trust me" true "";
                      SetFont "Arial" "" 11;
                      MultiCell 0 6 "Problem: ";
                      SetFont "Arial" "I" 11;
                      SetTextColor 0 100 0;
                      MultiCell 0 6 "Fix: No specific recommendation.";
                      SetTextColor 0 0 0;
                      Ln 5 ] -> In c doc) /\
    (forall n d x y z, ~ In (PdfImage n d x y z) doc).
Proof.
  apply (unreadable_picture_is_left_out_of_the_report (smudged (found [inside]))
           "https://shop.example" _ 0 "/tmp/audit_report_1700000000.pdf" [Bytes [Byte.x89]]
           [Byte.x89] "Calmer colours." _ (Exception "Unsupported image type: png"));
    reflexivity.
Defined.
